(** * Presence, fan-out and message store of the chat backend

    A shallow embedding of the chat subsystem of the issue tracker
    ([api/main.py], [api/websocket_manager.py], [api/chat_routes.py]) and the
    properties its specification states about it.

    Conventions of the embedding.
    - The process-wide tables of [main.py] ([users_db], [conversations_db],
      [conversation_messages_db], [active_chat_connections], [sse_connections],
      [presence_counters], ...) are the fields of one [state] record that every
      operation takes and returns.
    - A Python dict used as a table is a [gmap]; where the iteration order of
      the dict is observable (the message table, the user table) it is an
      insertion-ordered association list, [odict].
    - A message is a Python dict with a free set of keys: [gmap string pyval].
      Its values range over [pyval]: [None], booleans, integers, strings and
      [datetime] objects.
    - Strings are sequences of code points below 256.
    - [uuid.uuid4()] and [datetime.utcnow()] are inputs of the operation that
      calls them.
    - A raised [HTTPException] is the [Err] outcome of a handler. *)

From Stdlib Require Import ZArith Lia Ascii String List Sorted.
From stdpp Require Import gmap strings list fin_maps pretty.

Open Scope Z_scope.

(** ** Python values *)

(** A naive [datetime.datetime]. *)
Record datetime := mk_datetime {
  dt_year : nat; dt_month : nat; dt_day : nat;
  dt_hour : nat; dt_minute : nat; dt_second : nat; dt_microsecond : nat }.

#[global] Instance datetime_eq_dec : EqDecision datetime.
Proof. solve_decision. Defined.

(** [%0wd]: decimal digits of [n], left-padded with zeros to width [w]. *)
Definition zero_pad (w : nat) (n : nat) : string :=
  let digits := pretty n in
  String.concat EmptyString (replicate (w - String.length digits)%nat "0"%string) +:+ digits.

(** [datetime.isoformat(sep)]: [YYYY-MM-DD<sep>HH:MM:SS], followed by
    [.ffffff] when the microsecond field is not zero. *)
Definition isoformat_sep (sep : ascii) (d : datetime) : string :=
  zero_pad 4 (dt_year d) +:+
  String "-" (zero_pad 2 (dt_month d) +:+
  String "-" (zero_pad 2 (dt_day d) +:+
  String sep (zero_pad 2 (dt_hour d) +:+
  String ":" (zero_pad 2 (dt_minute d) +:+
  String ":" (zero_pad 2 (dt_second d) +:+
  (if (dt_microsecond d =? 0)%nat then EmptyString
   else String "." (zero_pad 6 (dt_microsecond d)))))))).

Definition isoformat (d : datetime) : string := isoformat_sep "T" d.

Inductive pyval :=
| PNone
| PBool (b : bool)
| PInt (z : Z)
| PStr (s : string)
| PDatetime (d : datetime).

#[global] Instance pyval_eq_dec : EqDecision pyval.
Proof. solve_decision. Defined.

(** A dict with string keys, as a record of named fields. *)
Abbreviation dict := (gmap string pyval).

(** [x is None] *)
Definition is_none (v : pyval) : bool :=
  match v with PNone => true | _ => false end.

(** Truth value of [v], as tested by [if v] and [not v]. *)
Definition truthy (v : pyval) : bool :=
  match v with
  | PNone => false
  | PBool b => b
  | PInt z => negb (z =? 0)
  | PStr s => negb (String.eqb s EmptyString)
  | PDatetime _ => true
  end.

(** [str(v)] *)
Definition py_str (v : pyval) : string :=
  match v with
  | PNone => "None"
  | PBool true => "True"
  | PBool false => "False"
  | PInt z => pretty z
  | PStr s => s
  | PDatetime d => isoformat_sep " " d
  end.

(** [a or b] *)
Definition py_or (a b : pyval) : pyval := if truthy a then a else b.

(** [a == b]; [bool] is a subclass of [int], so [True == 1]. *)
Definition py_eq (a b : pyval) : bool :=
  match a, b with
  | PNone, PNone => true
  | PBool x, PBool y => Bool.eqb x y
  | PBool x, PInt y | PInt y, PBool x => (if x then 1 else 0) =? y
  | PInt x, PInt y => x =? y
  | PStr x, PStr y => String.eqb x y
  | PDatetime x, PDatetime y => bool_decide (x = y)
  | _, _ => false
  end.

(** [isinstance(v, datetime)] *)
Definition is_datetime (v : pyval) : bool :=
  match v with PDatetime _ => true | _ => false end.

(** [d.get(k)]: [None] when the key is absent. *)
Definition py_get (d : dict) (k : string) : pyval := default PNone (d !! k).

(** [d.get(k, dflt)] *)
Definition py_get_or (d : dict) (k : string) (dflt : pyval) : pyval :=
  default dflt (d !! k).

(** [k in d] *)
Definition has_key (d : dict) (k : string) : bool := bool_decide (is_Some (d !! k)).

(** ** Strings *)

(** [str.isspace] on one character: the white space of Unicode below 256. *)
Definition py_isspace (c : ascii) : bool :=
  let n := nat_of_ascii c in
  ((9 <=? n) && (n <=? 13) || (28 <=? n) && (n <=? 32) || (n =? 133) || (n =? 160))%nat.

Fixpoint lstrip (s : string) : string :=
  match s with
  | EmptyString => EmptyString
  | String c r => if py_isspace c then lstrip r else s
  end.

Fixpoint rstrip (s : string) : string :=
  match s with
  | EmptyString => EmptyString
  | String c r =>
      match rstrip r with
      | EmptyString => if py_isspace c then EmptyString else String c EmptyString
      | r' => String c r'
      end
  end.

(** [s.strip()] *)
Definition strip (s : string) : string := rstrip (lstrip s).

(** [s.startswith(p)] *)
Definition startswith (s p : string) : bool := String.prefix p s.

(** [f"team-chat-{organization_id}"] *)
Definition team_chat_id (organization_id : string) : string :=
  "team-chat-" +:+ organization_id.

(** ** Insertion-ordered dicts

    Python dicts iterate in insertion order; assigning to a key that is
    already present keeps its position. *)

Abbreviation odict V := (list (string * V)).

Fixpoint od_get {V} (d : odict V) (k : string) : option V :=
  match d with
  | [] => None
  | (k', v) :: rest => if String.eqb k' k then Some v else od_get rest k
  end.

(** [d[k] = v] *)
Fixpoint od_set {V} (d : odict V) (k : string) (v : V) : odict V :=
  match d with
  | [] => [(k, v)]
  | (k', v') :: rest =>
      if String.eqb k' k then (k, v) :: rest else (k', v') :: od_set rest k v
  end.

(** [del d[k]] (for a key that is present) and [d.pop(k, None)] *)
Fixpoint od_del {V} (d : odict V) (k : string) : odict V :=
  match d with
  | [] => []
  | (k', v') :: rest =>
      if String.eqb k' k then rest else (k', v') :: od_del rest k
  end.

(** [d.values()] *)
Definition od_values {V} (d : odict V) : list V := map snd d.

(** [d.keys()] *)
Definition od_keys {V} (d : odict V) : list string := map fst d.

(** ** Presence counters ([main.py], lines 396-413) *)

(** [presence_counters: Dict[str, Dict[str, int]]] *)
Abbreviation counters := (gmap string (gmap string Z)).

(** [presence_counters.get(org, {}).get(user, 0)]: the number the code reads
    as "previous". *)
Definition presence_count (pc : counters) (organization_id user_id : string) : Z :=
  default 0 (default ∅ (pc !! organization_id) !! user_id).

Definition _increment_presence (pc : counters) (organization_id user_id : string)
  : counters * bool :=
  let org := default ∅ (pc !! organization_id) in
  let previous := default 0 (org !! user_id) in
  (<[organization_id := <[user_id := previous + 1]> org]> pc, previous =? 0).

Definition _decrement_presence (pc : counters) (organization_id user_id : string)
  : counters * bool :=
  match pc !! organization_id with
  | None => (pc, false)
  | Some org =>
      if bool_decide (org = ∅) then (pc, false)
      else
        let previous := default 0 (org !! user_id) in
        if previous <=? 1 then
          let org' := delete user_id org in
          (if bool_decide (org' = ∅) then delete organization_id pc
           else <[organization_id := org']> pc,
           0 <? previous)
        else (<[organization_id := <[user_id := previous - 1]> org]> pc, false)
  end.

(** The calls that write [presence_counters]: connects, disconnects and the
    debug reset ([presence_counters.clear()]). *)
Inductive presence_op :=
| Increment (organization_id user_id : string)
| Decrement (organization_id user_id : string)
| Clear.

Definition presence_step (pc : counters) (op : presence_op) : counters :=
  match op with
  | Increment o u => fst (_increment_presence pc o u)
  | Decrement o u => fst (_decrement_presence pc o u)
  | Clear => ∅
  end.

(** The counters after a sequence of calls, starting from the empty table the
    module is loaded with. *)
Definition presence_run (ops : list presence_op) : counters :=
  foldl presence_step ∅ ops.

(** Stored counts are positive and no organization entry is empty: the shape
    every sequence of calls keeps. *)
Definition presence_ok (pc : counters) : Prop :=
  ∀ o org, pc !! o = Some org →
    org ≠ ∅ ∧ ∀ u n, org !! u = Some n → 1 ≤ n.

(** ** Tables of [main.py] (lines 320-337) *)

(** A user record of [users_db]. *)
Record user := mk_user {
  user_id : string;
  user_name : string;
  user_avatar : string;
  user_profile_picture : option string;
  user_role : string;
  user_organization_id : string;
  user_is_active : bool }.

(** A conversation record of [conversations_db]. *)
Record conversation := mk_conversation {
  conv_id : string;
  conv_type : string;
  conv_name : string;
  conv_participants : list string;
  conv_organization_id : string;
  conv_created_at : string;
  conv_updated_at : string }.

(** The [connection_info] dict that [add_chat_connection] stores. A WebSocket
    object is known by its identity, a number. *)
Record connection_info := mk_connection_info {
  websocket : nat;
  conn_user_id : string;
  conn_user_name : string;
  conn_user_avatar : string }.

#[global] Instance connection_info_eq_dec : EqDecision connection_info.
Proof. solve_decision. Defined.

(** An event handed to a broadcast: the top-level keys of the dict and, for
    chat events, the message dict under the key ['message']. *)
Record event := mk_event {
  ev_fields : dict;
  ev_message : option dict }.

(** Where an event went: a WebSocket ([send_text]) or the queue of an event
    stream ([put_nowait]). *)
Inductive target :=
| Socket (ws : nat)
| Queue (q : nat).

#[global] Instance target_eq_dec : EqDecision target.
Proof. solve_decision. Defined.

Definition delivery : Type := target * event.

(** The transport under the tables: whether writing to a socket, or putting
    into a queue, succeeds. A failed write raises, and the broadcast catches
    it. *)
Record transport := mk_transport {
  send_text_ok : nat → bool;
  put_nowait_ok : nat → bool }.

Record state := mk_state {
  users_db : odict user;
  sessions_db : gmap string string;
  conversations_db : gmap string conversation;
  conversation_messages_db : odict dict;
  user_conversations_db : gmap string (list string);
  active_chat_connections : gmap string (list connection_info);
  sse_connections : gmap string (list nat);
  presence_counters : counters;
  (** ["conversations"] of [conversations.json] *)
  conversations_file : list conversation;
  (** ["messages"] of [conversation_messages.json] *)
  conversation_messages_file : list dict }.

Definition set_conversations_db (st : state) (v : gmap string conversation) : state :=
  mk_state (users_db st) (sessions_db st) v (conversation_messages_db st)
    (user_conversations_db st) (active_chat_connections st) (sse_connections st)
    (presence_counters st) (conversations_file st) (conversation_messages_file st).

Definition set_conversation_messages_db (st : state) (v : odict dict) : state :=
  mk_state (users_db st) (sessions_db st) (conversations_db st) v
    (user_conversations_db st) (active_chat_connections st) (sse_connections st)
    (presence_counters st) (conversations_file st) (conversation_messages_file st).

Definition set_user_conversations_db (st : state) (v : gmap string (list string)) : state :=
  mk_state (users_db st) (sessions_db st) (conversations_db st)
    (conversation_messages_db st) v (active_chat_connections st) (sse_connections st)
    (presence_counters st) (conversations_file st) (conversation_messages_file st).

Definition set_active_chat_connections (st : state)
    (v : gmap string (list connection_info)) : state :=
  mk_state (users_db st) (sessions_db st) (conversations_db st)
    (conversation_messages_db st) (user_conversations_db st) v (sse_connections st)
    (presence_counters st) (conversations_file st) (conversation_messages_file st).

Definition set_sse_connections (st : state) (v : gmap string (list nat)) : state :=
  mk_state (users_db st) (sessions_db st) (conversations_db st)
    (conversation_messages_db st) (user_conversations_db st)
    (active_chat_connections st) v
    (presence_counters st) (conversations_file st) (conversation_messages_file st).

Definition set_presence_counters (st : state) (v : counters) : state :=
  mk_state (users_db st) (sessions_db st) (conversations_db st)
    (conversation_messages_db st) (user_conversations_db st)
    (active_chat_connections st) (sse_connections st)
    v (conversations_file st) (conversation_messages_file st).

Definition set_conversations_file (st : state) (v : list conversation) : state :=
  mk_state (users_db st) (sessions_db st) (conversations_db st)
    (conversation_messages_db st) (user_conversations_db st)
    (active_chat_connections st) (sse_connections st)
    (presence_counters st) v (conversation_messages_file st).

Definition set_conversation_messages_file (st : state) (v : list dict) : state :=
  mk_state (users_db st) (sessions_db st) (conversations_db st)
    (conversation_messages_db st) (user_conversations_db st)
    (active_chat_connections st) (sse_connections st)
    (presence_counters st) (conversations_file st) v.

(** [user_has_active_session]: some token of [sessions_db] belongs to the
    user. *)
Definition user_has_active_session (st : state) (uid : string) : bool :=
  negb (String.eqb uid EmptyString) &&
  existsb (λ entry, String.eqb (snd entry) uid) (map_to_list (sessions_db st)).

(** ** Connection hub ([main.py], lines 415-505) *)

(** [l.remove(x)]: drops the first element equal to [x]; the [ValueError] of
    a missing element is caught by every caller. *)
Fixpoint list_remove {A} `{EqDecision A} (x : A) (l : list A) : list A :=
  match l with
  | [] => []
  | y :: rest => if decide (x = y) then rest else y :: list_remove x rest
  end.

(** The loop of [broadcast_to_sse]: the events put, and the stale queues. *)
Fixpoint sse_put_all (tr : transport) (message : event) (queues : list nat)
  : list delivery * list nat :=
  match queues with
  | [] => ([], [])
  | q :: rest =>
      let '(sent, stale) := sse_put_all tr message rest in
      if put_nowait_ok tr q then ((Queue q, message) :: sent, stale)
      else (sent, q :: stale)
  end.

Definition broadcast_to_sse (tr : transport) (st : state)
    (organization_id : string) (message : event) : state * list delivery :=
  match sse_connections st !! organization_id with
  | None => (st, [])
  | Some queues =>
      let '(sent, stale) := sse_put_all tr message queues in
      match stale with
      | [] => (st, sent)
      | _ =>
          let queues' := foldl (λ l q, list_remove q l) queues stale in
          (set_sse_connections st
             (match queues' with
              | [] => delete organization_id (sse_connections st)
              | _ => <[organization_id := queues']> (sse_connections st)
              end),
           sent)
      end
  end.

(** [add_chat_connection] *)
Definition add_chat_connection (st : state) (organization_id : string)
    (ws : nat) (user_data : user) : state * bool :=
  let conns := default [] (active_chat_connections st !! organization_id) in
  let connection_info :=
    mk_connection_info ws (user_id user_data) (user_name user_data)
      (user_avatar user_data) in
  let st1 := set_active_chat_connections st
    (<[organization_id := conns ++ [connection_info]]> (active_chat_connections st)) in
  let '(pc, first) :=
    _increment_presence (presence_counters st1) organization_id (user_id user_data) in
  (set_presence_counters st1 pc, first).

(** [remove_chat_connection] *)
Definition remove_chat_connection (st : state) (organization_id : string)
    (ws : nat) (uid : string) : state * bool :=
  let st1 :=
    match active_chat_connections st !! organization_id with
    | None => st
    | Some conns =>
        let remaining := filter (λ conn, websocket conn ≠ ws) conns in
        set_active_chat_connections st
          (match remaining with
           | [] => delete organization_id (active_chat_connections st)
           | _ => <[organization_id := remaining]> (active_chat_connections st)
           end)
    end in
  let '(pc, went_offline) :=
    _decrement_presence (presence_counters st1) organization_id uid in
  (set_presence_counters st1 pc, went_offline).

(** The first loop of [broadcast_to_organization]: the events sent, and the
    connections whose [send_text] raised. *)
Fixpoint send_all (tr : transport) (message : event) (exclude_websocket : option nat)
    (conns : list connection_info) : list delivery * list connection_info :=
  match conns with
  | [] => ([], [])
  | connection :: rest =>
      let '(sent, dead) := send_all tr message exclude_websocket rest in
      if bool_decide (Some (websocket connection) = exclude_websocket) then (sent, dead)
      else if send_text_ok tr (websocket connection)
      then ((Socket (websocket connection), message) :: sent, dead)
      else (sent, connection :: dead)
  end.

Definition broadcast_to_organization (tr : transport) (st : state)
    (organization_id : string) (message : event) (exclude_websocket : option nat)
  : state * list delivery :=
  let '(st1, sent) :=
    match active_chat_connections st !! organization_id with
    | None => (st, [])
    | Some conns =>
        let '(sent, connections_to_remove) :=
          send_all tr message exclude_websocket conns in
        let conns' := foldl (λ l conn, list_remove conn l) conns connections_to_remove in
        (set_active_chat_connections st
           (match conns' with
            | [] => delete organization_id (active_chat_connections st)
            | _ => <[organization_id := conns']> (active_chat_connections st)
            end),
         sent)
    end in
  let '(st2, queued) := broadcast_to_sse tr st1 organization_id message in
  (st2, sent ++ queued).

(** [broadcast_to_conversation] *)
Definition broadcast_to_conversation (tr : transport) (st : state)
    (conversation_id : string) (message : event) (exclude_websocket : option nat)
  : state * list delivery :=
  match conversations_db st !! conversation_id with
  | None => (st, [])
  | Some conversation =>
      match conv_participants conversation with
      | [] => (st, [])
      | first :: _ =>
          match od_get (users_db st) first with
          | None => (st, [])
          | Some first_user =>
              let org_id := user_organization_id first_user in
              let message' :=
                mk_event (<["conversation_id" := PStr conversation_id]> (ev_fields message))
                  (ev_message message) in
              broadcast_to_organization tr st org_id message' exclude_websocket
          end
      end
  end.

(** The tables as the module is loaded, before any data file is read. *)
Definition initial_state : state :=
  mk_state [] ∅ ∅ [] ∅ ∅ ∅ ∅ [] [].

(** A transport on which every write succeeds. *)
Definition healthy : transport := mk_transport (λ _, true) (λ _, true).

(** The users whose open WebSocket received an event, by the connection table
    of the state the broadcast started from. *)
Definition socket_owner (st : state) (ws : nat) : option string :=
  conn_user_id <$>
    head (filter (λ conn, websocket conn = ws)
            (concat (snd <$> map_to_list (active_chat_connections st)))).

Definition received_by (st : state) (log : list delivery) (uid : string) : bool :=
  existsb (λ d, match fst d with
                | Socket ws => bool_decide (socket_owner st ws = Some uid)
                | Queue _ => false
                end) log.

(** ** Example data *)

(** Three members of one organization, each with an open socket, and a direct
    conversation between the first two. *)
Definition alice : user := mk_user "alice" "Alice" "AL" None "developer" "org1" true.
Definition bob : user := mk_user "bob" "Bob" "BO" None "developer" "org1" true.
Definition carol : user := mk_user "carol" "Carol" "CA" None "developer" "org1" true.

Definition dm_alice_bob : conversation :=
  mk_conversation "dm-ab" "direct" "Bob" ["alice"; "bob"] "org1"
    "2024-01-01T00:00:00" "2024-01-01T00:00:00".

Definition three_connected : state :=
  let st0 := mk_state [("alice", alice); ("bob", bob); ("carol", carol)]
               ∅ {["dm-ab" := dm_alice_bob]} [] ∅ ∅ ∅ ∅ [] [] in
  let st1 := fst (add_chat_connection st0 "org1" 1 alice) in
  let st2 := fst (add_chat_connection st1 "org1" 2 bob) in
  fst (add_chat_connection st2 "org1" 3 carol).

Definition hello_event : event :=
  mk_event {["type" := PStr "chat_message"]} (Some {["content" := PStr "hello"]}).

(** One user with two open sockets, registered by [add_chat_connection]. *)
Definition two_sockets : state :=
  let st1 := fst (add_chat_connection initial_state "org1" 1 alice) in
  fst (add_chat_connection st1 "org1" 2 alice).

(** ** [ConnectionManager] ([websocket_manager.py]) *)

Module ConnectionManager.

Record t := mk {
  (** user id -> WebSocket *)
  active_connections : gmap string nat;
  (** user id -> organization id *)
  user_organizations : gmap string string;
  (** conversation id -> set of user ids *)
  typing_users : gmap string (gset string) }.

(** [__init__] *)
Definition init : t := mk ∅ ∅ ∅.

(** [disconnect]: returns the organization of the user, when it is known and
    not empty. *)
Definition disconnect (self : t) (user_id : string) : t * option string :=
  let organization_id := user_organizations self !! user_id in
  (mk (delete user_id (active_connections self))
      (delete user_id (user_organizations self))
      ((λ typing, typing ∖ {[user_id]}) <$> typing_users self),
   match organization_id with
   | Some o => if String.eqb o EmptyString then None else Some o
   | None => None
   end).

(** [set_typing_status] *)
Definition set_typing_status (self : t) (conversation_id user_id : string)
    (is_typing : bool) : t :=
  let typing := default ∅ (typing_users self !! conversation_id) in
  mk (active_connections self) (user_organizations self)
     (<[conversation_id :=
          if is_typing then typing ∪ {[user_id]} else typing ∖ {[user_id]}]>
        (typing_users self)).

(** [get_typing_users]; the order of [list(set)] is the order of [elements]. *)
Definition get_typing_users (self : t) (conversation_id : string) : list string :=
  elements (default ∅ (typing_users self !! conversation_id)).

(** [get_online_users] *)
Definition get_online_users (self : t) (organization_id : string) : list string :=
  fst <$> filter (λ entry, snd entry = organization_id)
            (map_to_list (user_organizations self)).

(** [is_user_online] *)
Definition is_user_online (self : t) (user_id : string) : bool :=
  bool_decide (is_Some (active_connections self !! user_id)).

(** The sending loop of [broadcast_to_conversation]: the events sent and the
    users whose socket raised. *)
Fixpoint send_to_participants (tr : transport) (self : t) (message : event)
    (exclude_user : option string) (participants : list string)
  : list delivery * list string :=
  match participants with
  | [] => ([], [])
  | user_id :: rest =>
      let '(sent, disconnected) :=
        send_to_participants tr self message exclude_user rest in
      if bool_decide (Some user_id = exclude_user) then (sent, disconnected)
      else
        match active_connections self !! user_id with
        | None => (sent, disconnected)
        | Some ws =>
            if send_text_ok tr ws then ((Socket ws, message) :: sent, disconnected)
            else (sent, user_id :: disconnected)
        end
  end.

(** [broadcast_to_conversation]: one write per listed participant that has a
    connection. *)
Definition broadcast_to_conversation (tr : transport) (self : t)
    (conversation_participants : list string) (message : event)
    (exclude_user : option string) : t * list delivery :=
  let '(sent, disconnected_users) :=
    send_to_participants tr self message exclude_user conversation_participants in
  (foldl (λ s user_id, fst (disconnect s user_id)) self disconnected_users, sent).

(** [broadcast_to_organization] *)
Definition broadcast_to_organization (tr : transport) (self : t)
    (organization_id : string) (message : event) (exclude_user : option string)
  : t * list delivery :=
  let members :=
    fst <$> filter (λ entry, user_organizations self !! fst entry = Some organization_id)
              (map_to_list (active_connections self)) in
  broadcast_to_conversation tr self members message exclude_user.

(** [connect], after [websocket.accept()]: registers the socket and tells the
    organization. *)
Definition connect (tr : transport) (self : t) (ws : nat)
    (user_id organization_id : string) (timestamp : string) : t * list delivery :=
  let self1 :=
    mk (<[user_id := ws]> (active_connections self))
       (<[user_id := organization_id]> (user_organizations self))
       (typing_users self) in
  broadcast_to_organization tr self1 organization_id
    (mk_event {[ "type" := PStr "user_online"; "user_id" := PStr user_id;
                 "timestamp" := PStr timestamp ]} None)
    (Some user_id).

(** [send_personal_message]: whether the message was written; a socket
    that raises is disconnected. *)
Definition send_personal_message (tr : transport) (self : t) (user_id : string)
    (message : event) : t * bool * list delivery :=
  match active_connections self !! user_id with
  | None => (self, false, [])
  | Some ws =>
      if send_text_ok tr ws then (self, true, [(Socket ws, message)])
      else (fst (disconnect self user_id), false, [])
  end.

(** The frames the socket endpoint of [chat_routes.py] turns into typing
    state: ["typing"] and ["stop_typing"]. *)
Inductive typing_event :=
| Typing (conversation_id user_id : string)
| StopTyping (conversation_id user_id : string).

Definition on_typing_event (self : t) (e : typing_event) : t :=
  match e with
  | Typing c u => set_typing_status self c u true
  | StopTyping c u => set_typing_status self c u false
  end.

End ConnectionManager.

(** ** Message records ([main.py], lines 668-826) *)

(** A step of [normalize_message_record]: the dict after the step, and
    whether the step set [updated = True]. The function answers the
    disjunction of the flags of its steps. *)
Definition norm_step : Type := dict → dict * bool.

Definition and_then (f g : norm_step) : norm_step :=
  λ message,
    let '(m1, u1) := f message in
    let '(m2, u2) := g m1 in
    (m2, u1 || u2).

(** One round of the loop over the sender/author aliases. *)
Definition norm_alias (new_key legacy_key : string) : norm_step :=
  λ message,
    let new_value := py_get message new_key in
    let legacy_value := py_get message legacy_key in
    if is_none new_value && negb (is_none legacy_value)
    then (<[new_key := legacy_value]> message, true)
    else if is_none legacy_value && negb (is_none new_value)
    then (<[legacy_key := new_value]> message, true)
    else (message, false).

Definition alias_keys : list (string * string) :=
  [("sender_id", "author_id"); ("sender_name", "author_name");
   ("sender_avatar", "author_avatar")].

Definition norm_aliases : norm_step :=
  foldr (λ keys rest, and_then (norm_alias (fst keys) (snd keys)) rest)
    (λ message, (message, false)) alias_keys.

(** "Standardize message type": [message_type] first, then [type]. *)
Definition norm_message_type : norm_step :=
  λ message,
    let message_type := py_get message "message_type" in
    let '(m1, u1, message_type) :=
      if negb (truthy message_type) then
        let legacy_type := py_get message "type" in
        let message_type :=
          if truthy legacy_type &&
             negb (py_eq legacy_type (PStr "message") || py_eq legacy_type (PStr "text"))
          then py_str legacy_type else "text"%string in
        (<["message_type" := PStr message_type]> message, true, message_type)
      else (message, false, py_str message_type) in
    if negb (truthy (py_get m1 "type"))
    then (<["type" := PStr message_type]> m1, true)
    else (m1, u1).

(** "Edited flag normalisation" *)
Definition norm_edited : norm_step :=
  λ message,
    if negb (has_key message "edited") && has_key message "is_edited"
    then (<["edited" := PBool (truthy (py_get message "is_edited"))]> message, true)
    else if negb (has_key message "edited")
    then (<["edited" := PBool false]> message, true)
    else (message, false).

(** "Reply-to alias" *)
Definition norm_reply_to : norm_step :=
  λ message,
    if negb (has_key message "reply_to") && truthy (py_get message "parent_message_id")
    then (<["reply_to" := py_get message "parent_message_id"]> message, true)
    else (message, false).

(** "Ensure timestamps are serializable strings"; [now] is the value of
    [datetime.utcnow()]. *)
Definition norm_created_at (now : datetime) : norm_step :=
  λ message,
    match py_get message "created_at" with
    | PDatetime created_at =>
        (<["created_at" := PStr (isoformat created_at)]> message, true)
    | created_at =>
        if negb (truthy created_at)
        then (<["created_at" := PStr (isoformat now)]> message, true)
        else (message, false)
    end.

Definition norm_updated_at : norm_step :=
  λ message,
    match py_get message "updated_at" with
    | PDatetime updated_at =>
        (<["updated_at" := PStr (isoformat updated_at)]> message, true)
    | _ => (message, false)
    end.

(** [normalize_message_record]: the message after the in-place updates, and
    the returned flag. *)
Definition normalize_message_record (now : datetime) : norm_step :=
  and_then norm_aliases
    (and_then norm_message_type
       (and_then norm_edited
          (and_then norm_reply_to
             (and_then (norm_created_at now) norm_updated_at)))).

(** A message that [normalize_message_record] has nothing to do on. *)
Definition normalized (message : dict) : Prop :=
  (∀ new_key legacy_key, (new_key, legacy_key) ∈ alias_keys →
     is_none (py_get message new_key) = is_none (py_get message legacy_key)) ∧
  truthy (py_get message "message_type") = true ∧
  truthy (py_get message "type") = true ∧
  has_key message "edited" = true ∧
  (has_key message "reply_to" = true ∨
   truthy (py_get message "parent_message_id") = false) ∧
  is_datetime (py_get message "created_at") = false ∧
  truthy (py_get message "created_at") = true ∧
  is_datetime (py_get message "updated_at") = false.

(** [ConversationMessageResponse] *)
Record ConversationMessageResponse := mk_message_response {
  r_id : string;
  r_content : string;
  r_sender_id : string;
  r_sender_name : string;
  r_sender_avatar : string;
  r_sender_profile_picture : option string;
  r_conversation_id : string;
  r_created_at : string;
  r_message_type : string;
  r_edited : bool;
  r_reply_to : option string }.

(** Validation of a [str] field: the model accepts a string and nothing
    else. *)
Definition as_str (v : pyval) : option string :=
  match v with PStr s => Some s | _ => None end.

(** Validation of an [Optional[str]] field. *)
Definition as_optional_str (v : pyval) : option (option string) :=
  match v with
  | PNone => Some None
  | PStr s => Some (Some s)
  | _ => None
  end.

Definition of_optional_str (o : option string) : pyval :=
  match o with Some s => PStr s | None => PNone end.

(** [users_db.get(key)] for a key taken from a message: only a string can be
    a key of the table. *)
Definition users_get (users : odict user) (key : pyval) : option user :=
  match key with PStr s => od_get users s | _ => None end.

(** [build_message_response]: the message as normalised in place, and the
    response, or [None] when the response model rejects a field. *)
Definition build_message_response (users : odict user) (now : datetime)
    (message : dict) : dict * option ConversationMessageResponse :=
  let message := fst (normalize_message_record now message) in
  let sender_id :=
    py_or (py_or (py_get message "sender_id") (py_get message "author_id"))
      (PStr EmptyString) in
  let sender_name :=
    py_or (py_or (py_get message "sender_name") (py_get message "author_name"))
      (PStr EmptyString) in
  let sender_avatar :=
    py_or (py_or (py_get message "sender_avatar") (py_get message "author_avatar"))
      (PStr EmptyString) in
  let sender_profile_picture :=
    let stored := py_get message "sender_profile_picture" in
    if negb (truthy stored) && truthy sender_id then
      match users_get users sender_id with
      | Some sender => of_optional_str (user_profile_picture sender)
      | None => stored
      end
    else stored in
  let created_at :=
    match py_get message "created_at" with
    | PDatetime d => PStr (isoformat d)
    | created_at => if negb (truthy created_at) then PStr (isoformat now) else created_at
    end in
  let message_type := py_or (py_get message "message_type") (PStr "text") in
  let edited_value :=
    match py_get message "edited" with
    | PNone => PBool (truthy (py_get_or message "is_edited" (PBool false)))
    | edited => edited
    end in
  (message,
   content ← as_str (py_get_or message "content" (PStr EmptyString));
   sender_name ← as_str sender_name;
   sender_avatar ← as_str sender_avatar;
   sender_profile_picture ← as_optional_str sender_profile_picture;
   reply_to ← as_optional_str (py_get message "reply_to");
   Some (mk_message_response
           (py_str (py_get_or message "id" (PStr EmptyString)))
           content
           (py_str sender_id)
           sender_name
           sender_avatar
           sender_profile_picture
           (py_str (py_get_or message "conversation_id" (PStr EmptyString)))
           (py_str created_at)
           (py_str message_type)
           (truthy edited_value)
           reply_to)).

(** [message_response.model_dump()] *)
Definition model_dump (r : ConversationMessageResponse) : dict :=
  {[ "id" := PStr (r_id r);
     "content" := PStr (r_content r);
     "sender_id" := PStr (r_sender_id r);
     "sender_name" := PStr (r_sender_name r);
     "sender_avatar" := PStr (r_sender_avatar r);
     "sender_profile_picture" := of_optional_str (r_sender_profile_picture r);
     "conversation_id" := PStr (r_conversation_id r);
     "created_at" := PStr (r_created_at r);
     "message_type" := PStr (r_message_type r);
     "edited" := PBool (r_edited r);
     "reply_to" := of_optional_str (r_reply_to r) ]}.

(** The upsert loops of [save_conversation_data] and
    [save_conversation_message]: the first record with the same id is
    replaced, otherwise the record is appended. *)
Fixpoint upsert_conversation (records : list conversation) (c : conversation)
  : list conversation :=
  match records with
  | [] => [c]
  | conv :: rest =>
      if String.eqb (conv_id conv) (conv_id c) then c :: rest
      else conv :: upsert_conversation rest c
  end.

Fixpoint upsert_message (records : list dict) (message_record : dict) : list dict :=
  match records with
  | [] => [message_record]
  | existing :: rest =>
      if py_eq (py_get existing "id") (py_get message_record "id")
      then message_record :: rest
      else existing :: upsert_message rest message_record
  end.

Definition save_conversation_data (st : state) (conversation_data : conversation)
  : state :=
  set_conversations_file st (upsert_conversation (conversations_file st) conversation_data).

(** [save_conversation_message]: a normalised copy of the message goes to the
    file; the message itself is not touched. *)
Definition save_conversation_message (st : state) (now : datetime) (msg_data : dict)
  : state :=
  let message_record := fst (normalize_message_record now msg_data) in
  set_conversation_messages_file st
    (upsert_message (conversation_messages_file st) message_record).

(** [delete_conversation_message]: rewrites the file without the records of
    that id, and answers whether there was one. *)
Definition delete_conversation_message (st : state) (message_id : string)
  : state * bool :=
  let messages := conversation_messages_file st in
  let kept := filter (λ m, py_eq (py_get m "id") (PStr message_id) = false) messages in
  if (length kept <? length messages)%nat
  then (set_conversation_messages_file st kept, true)
  else (st, false).

(** [create_team_conversation]; [created_at] and [updated_at] are the two
    readings of the clock. *)
Definition create_team_conversation (st : state) (organization_id : string)
    (created_at updated_at : datetime) : state * conversation :=
  let team_conv_id := team_chat_id organization_id in
  match conversations_db st !! team_conv_id with
  | Some existing => (st, existing)
  | None =>
      let org_users :=
        user_id <$> filter (λ u, user_organization_id u = organization_id)
                      (od_values (users_db st)) in
      let conversation :=
        mk_conversation team_conv_id "team" "Team Chat" org_users organization_id
          (isoformat created_at) (isoformat updated_at) in
      let st1 := set_conversations_db st
        (<[team_conv_id := conversation]> (conversations_db st)) in
      let st2 := save_conversation_data st1 conversation in
      let mapping :=
        foldl (λ (tbl : gmap string (list string)) uid,
                 let known := default [] (tbl !! uid) in
                 if bool_decide (team_conv_id ∈ known) then <[uid := known]> tbl
                 else <[uid := known ++ [team_conv_id]]> tbl)
          (user_conversations_db st2) org_users in
      (set_user_conversations_db st2 mapping, conversation)
  end.

(** ** Request handlers ([main.py], lines 2000-2318 and 2449-2580) *)

(** What a handler answers: its return value, or the status code of the
    [HTTPException] it raises. *)
Inductive outcome (A : Type) :=
| Ok (a : A)
| Err (status_code : nat).
Arguments Ok {A} a.
Arguments Err {A} status_code.

Inductive ConversationType := TEAM | DIRECT.

#[global] Instance ConversationType_eq_dec : EqDecision ConversationType.
Proof. solve_decision. Defined.

Definition ConversationType_value (t : ConversationType) : string :=
  match t with TEAM => "team" | DIRECT => "direct" end.

Record CreateConversationRequest := mk_create_conversation_request {
  ccr_id : option string;
  ccr_type : ConversationType;
  ccr_participants : list string;
  ccr_name : option string }.

(** [ConversationResponse]; [last_message], [unread_count] and [avatar] keep
    their defaults in every response built here. *)
Record ConversationResponse := mk_conversation_response {
  cr_id : string;
  cr_type : string;
  cr_name : string;
  cr_participants : list string;
  cr_created_at : string;
  cr_updated_at : string }.

Definition conversation_response (c : conversation) : ConversationResponse :=
  mk_conversation_response (conv_id c) (conv_type c) (conv_name c)
    (conv_participants c) (conv_created_at c) (conv_updated_at c).

(** [x or dflt] for an optional string: [None] and the empty string are
    false. *)
Definition str_or (x : option string) (dflt : string) : string :=
  match x with
  | Some s => if String.eqb s EmptyString then dflt else s
  | None => dflt
  end.

(** The bookkeeping loop over the participants of a new conversation. *)
Definition add_user_conversation (conversation_id : string)
    (tbl : gmap string (list string)) (participant_id : string)
  : gmap string (list string) :=
  let known := default [] (tbl !! participant_id) in
  if bool_decide (conversation_id ∈ known) then <[participant_id := known]> tbl
  else <[participant_id := known ++ [conversation_id]]> tbl.

(** [create_conversation] of [main.py]. The handler has a single
    [except Exception] clause, which also catches the [HTTPException]s raised
    by its own checks, so each of them leaves as status 500. *)
Definition create_conversation (st : state) (request : CreateConversationRequest)
    (current_user : user) (uuid4 : string) (created_at updated_at : datetime)
  : outcome ConversationResponse * state :=
  let conversation_id := str_or (ccr_id request) uuid4 in
  match conversations_db st !! conversation_id with
  | Some existing_conv => (Ok (conversation_response existing_conv), st)
  | None =>
      let participants :=
        if bool_decide (user_id current_user ∈ ccr_participants request)
        then ccr_participants request
        else ccr_participants request ++ [user_id current_user] in
      if bool_decide (ccr_type request = DIRECT) && negb (length participants =? 2)%nat
      then (Err 500, st)
      else if negb (forallb
                (λ participant_id,
                   match od_get (users_db st) participant_id with
                   | Some participant =>
                       String.eqb (user_organization_id participant)
                         (user_organization_id current_user)
                   | None => false
                   end) participants)
      then (Err 500, st)
      else
        let conv_name :=
          if bool_decide (ccr_type request = DIRECT)
             && String.eqb (str_or (ccr_name request) EmptyString) EmptyString
          then
            match head (filter (λ p, p ≠ user_id current_user) participants) with
            | Some other_user_id =>
                if String.eqb other_user_id EmptyString then ccr_name request
                else match od_get (users_db st) other_user_id with
                     | Some other_user => Some (user_name other_user)
                     | None => ccr_name request
                     end
            | None => ccr_name request
            end
          else ccr_name request in
        let conversation :=
          mk_conversation conversation_id (ConversationType_value (ccr_type request))
            (str_or conv_name ("Conversation " +:+ String.substring 0 8 conversation_id))
            participants (user_organization_id current_user)
            (isoformat created_at) (isoformat updated_at) in
        let st1 := set_conversations_db st
          (<[conversation_id := conversation]> (conversations_db st)) in
        let st2 := save_conversation_data st1 conversation in
        let st3 := set_user_conversations_db st2
          (foldl (add_user_conversation conversation_id)
             (user_conversations_db st2) participants) in
        (Ok (conversation_response conversation), st3)
  end.

(** [ChatMessageRequest] *)
Record ChatMessageRequest := mk_chat_message_request {
  req_content : string;
  req_conversation_id : option string }.

(** The message dict that [send_chat_message] builds. *)
Definition new_message (message_id content : string) (author : user)
    (conversation_id created_at : string) : dict :=
  {[ "id" := PStr message_id;
     "content" := PStr content;
     "author_id" := PStr (user_id author);
     "author_name" := PStr (user_name author);
     "author_avatar" := PStr (user_avatar author);
     "conversation_id" := PStr conversation_id;
     "created_at" := PStr created_at;
     "type" := PStr "message" ]}.

Definition chat_message_event (conversation_id : string) (message : dict) : event :=
  mk_event {[ "type" := PStr "chat_message";
              "conversation_id" := PStr conversation_id ]} (Some message).

(** [send_chat_message]. [message_id] is the fresh uuid, [now] the clock at
    the creation of the message, [team_created] and [team_updated] the clock
    readings of [create_team_conversation]. *)
Definition send_chat_message (tr : transport) (st : state)
    (message_data : ChatMessageRequest) (current_user : user)
    (message_id : string) (now team_created team_updated : datetime)
  : outcome ConversationMessageResponse * state * list delivery :=
  let org := user_organization_id current_user in
  let content := strip (req_content message_data) in
  let conversation_id := str_or (req_conversation_id message_data) (team_chat_id org) in
  let conversation_id :=
    if String.eqb conversation_id "team-chat" then team_chat_id org
    else conversation_id in
  if String.eqb content EmptyString then (Err 400, st, [])
  else
    let resolved :=
      match conversations_db st !! conversation_id with
      | Some conversation => Some (st, conversation, conversation_id)
      | None =>
          if startswith conversation_id (team_chat_id org) then
            let '(st1, conversation) :=
              create_team_conversation st org team_created team_updated in
            Some (st1, conversation, conv_id conversation)
          else None
      end in
    match resolved with
    | None => (Err 404, st, [])
    | Some (st1, conversation, conversation_id) =>
        if negb (bool_decide (user_id current_user ∈ conv_participants conversation))
        then (Err 403, st1, [])
        else
          let created_at := isoformat now in
          let message :=
            <["message_type" := PStr "text"]>
              (new_message message_id content current_user conversation_id created_at) in
          let message := fst (normalize_message_record now message) in
          let st2 := set_conversation_messages_db st1
            (od_set (conversation_messages_db st1) message_id message) in
          let st3 := save_conversation_message st2 now message in
          let conversation :=
            mk_conversation (conv_id conversation) (conv_type conversation)
              (conv_name conversation) (conv_participants conversation)
              (conv_organization_id conversation) (conv_created_at conversation)
              created_at in
          let st4 := set_conversations_db st3
            (<[conversation_id := conversation]> (conversations_db st3)) in
          let st5 := save_conversation_data st4 conversation in
          (* the stored dict is the one [build_message_response] normalises *)
          let '(message, built) := build_message_response (users_db st5) now message in
          let st6 := set_conversation_messages_db st5
            (od_set (conversation_messages_db st5) message_id message) in
          match built with
          | None => (Err 500, st6, [])
          | Some message_response =>
              let message_response :=
                if String.eqb (str_or (r_sender_profile_picture message_response)
                                 EmptyString) EmptyString
                   && negb (String.eqb (str_or (user_profile_picture current_user)
                                          EmptyString) EmptyString)
                then
                  mk_message_response (r_id message_response)
                    (r_content message_response) (r_sender_id message_response)
                    (r_sender_name message_response) (r_sender_avatar message_response)
                    (user_profile_picture current_user)
                    (r_conversation_id message_response)
                    (r_created_at message_response) (r_message_type message_response)
                    (r_edited message_response) (r_reply_to message_response)
                else message_response in
              let message_payload :=
                <["type" := PStr (r_message_type message_response)]>
                  (model_dump message_response) in
              let '(st7, log) :=
                broadcast_to_conversation tr st6 conversation_id
                  (chat_message_event conversation_id message_payload) None in
              (Ok message_response, st7, log)
          end
    end.

(** Two members of one organization and no conversation yet. *)
Definition alice_and_bob : state :=
  mk_state [("alice", alice); ("bob", bob)] ∅ ∅ [] ∅ ∅ ∅ ∅ [] [].

Definition new_year : datetime := mk_datetime 2024 1 1 0 0 0 0.

(** The direct conversations of an organization whose participants are the
    two given users, in either order. *)
Definition direct_conversations_of (st : state) (organization_id a b : string)
  : list conversation :=
  filter (λ c, conv_type c = "direct" ∧ conv_organization_id c = organization_id ∧
               (conv_participants c = [a; b] ∨ conv_participants c = [b; a]))
    (snd <$> map_to_list (conversations_db st)).

(** *** Conversation history *)

(** [list.sort(key=...)] is a stable sort that compares keys with [<]; any
    stable sort computes the same list. Insertion from the right: an element
    goes after the elements with a smaller key and before the others, which
    stood after it. *)
Fixpoint insert_by_key {A} (key : A → string) (x : A) (sorted : list A) : list A :=
  match sorted with
  | [] => [x]
  | y :: rest =>
      if String.ltb (key y) (key x) then y :: insert_by_key key x rest
      else x :: y :: rest
  end.

Definition stable_sort {A} (key : A → string) (l : list A) : list A :=
  foldr (insert_by_key key) [] l.

(** The sort key [m.get('created_at', '')] when it is a string. *)
Definition created_at_key (m : dict) : option string :=
  as_str (py_get_or m "created_at" (PStr EmptyString)).

(** Sorting the history by that key. Keys that are not strings make the
    comparison raise [TypeError] (a lone message, and keys that are all
    numbers or all datetimes, excepted); the model answers [None] for any key
    that is not a string. *)
Definition sort_by_created_at (entries : list (string * dict))
  : option (list (string * dict)) :=
  if forallb (λ e, bool_decide (is_Some (created_at_key (snd e)))) entries
  then Some (stable_sort (λ e, default EmptyString (created_at_key (snd e))) entries)
  else None.

(** [l[-limit:]] *)
Definition last_slice {A} (limit : Z) (l : list A) : list A :=
  let n := Z.of_nat (length l) in
  let start := if 0 <? limit then Z.max 0 (n - limit) else Z.min n (- limit) in
  drop (Z.to_nat start) l.

(** [[build_message_response(msg) for msg in messages]]: every message is
    normalised where it is stored, in turn, until a response is rejected. *)
Fixpoint render_all (users : odict user) (now : datetime)
    (messages : list (string * dict)) (db : odict dict)
  : odict dict * option (list ConversationMessageResponse) :=
  match messages with
  | [] => (db, Some [])
  | (key, msg) :: rest =>
      let '(msg, built) := build_message_response users now msg in
      let db := od_set db key msg in
      match built with
      | None => (db, None)
      | Some response =>
          let '(db, responses) := render_all users now rest db in
          (db, cons response <$> responses)
      end
  end.

(** [message.get('conversation_id') == conversation_id] *)
Definition in_conversation (conversation_id : string) (message : dict) : bool :=
  py_eq (py_get message "conversation_id") (PStr conversation_id).

(** "Verify message is from same organization": the author of the message is
    a known user of the organization. *)
Definition author_in_org (users : odict user) (org_id : string) (message : dict)
  : bool :=
  match users_get users (py_get message "author_id") with
  | Some msg_author => String.eqb (user_organization_id msg_author) org_id
  | None => false
  end.

(** [get_chat_messages] *)
Definition get_chat_messages (st : state) (conversation_id : option string)
    (limit : Z) (current_user : user) (now : datetime)
  : outcome (list ConversationMessageResponse) * state :=
  let org_id := user_organization_id current_user in
  let conversation_id := str_or conversation_id (team_chat_id org_id) in
  let conversation_id :=
    if String.eqb conversation_id "team-chat" then team_chat_id org_id
    else conversation_id in
  let denied :=
    match conversations_db st !! conversation_id with
    | Some conversation =>
        negb (bool_decide (user_id current_user ∈ conv_participants conversation))
    | None => false
    end in
  if denied then (Err 403, st)
  else
    let filtered_messages :=
      filter (λ e, in_conversation conversation_id (snd e) = true ∧
                   author_in_org (users_db st) org_id (snd e) = true)
        (conversation_messages_db st) in
    match sort_by_created_at filtered_messages with
    | None => (Err 500, st)
    | Some sorted =>
        let '(db, responses) :=
          render_all (users_db st) now (last_slice limit sorted)
            (conversation_messages_db st) in
        (match responses with Some rs => Ok rs | None => Err 500 end,
         set_conversation_messages_db st db)
    end.

(** [get_conversation_messages] *)
Definition get_conversation_messages (st : state) (conversation_id : string)
    (current_user : user) (now : datetime)
  : outcome (list ConversationMessageResponse) * state :=
  match conversations_db st !! conversation_id with
  | None => (Err 404, st)
  | Some conversation =>
      if negb (bool_decide (user_id current_user ∈ conv_participants conversation))
      then (Err 403, st)
      else
        let messages :=
          filter (λ e, in_conversation conversation_id (snd e) = true)
            (conversation_messages_db st) in
        match sort_by_created_at messages with
        | None => (Err 500, st)
        | Some sorted =>
            let '(db, responses) :=
              render_all (users_db st) now sorted (conversation_messages_db st) in
            (match responses with Some rs => Ok rs | None => Err 500 end,
             set_conversation_messages_db st db)
        end
  end.

(** *** Deleting a message *)

Definition message_deleted_event (message_id conversation_id deleted_by : string)
  : event :=
  mk_event {[ "type" := PStr "message_deleted";
              "message_id" := PStr message_id;
              "conversation_id" := PStr conversation_id;
              "deleted_by" := PStr deleted_by ]} None.

(** [delete_message]. A missing ['author_id'] or ['conversation_id'] raises
    [KeyError], which leaves as status 500. *)
Definition delete_message (tr : transport) (st : state) (message_id : string)
    (current_user : user) : outcome unit * state * list delivery :=
  match od_get (conversation_messages_db st) message_id with
  | None => (Err 404, st, [])
  | Some message =>
      if bool_decide (message = ∅) then (Err 404, st, [])
      else
        match message !! "author_id", message !! "conversation_id" with
        | None, _ => (Err 500, st, [])
        | Some author_id, conversation_id =>
            if negb (py_eq author_id (PStr (user_id current_user)))
               && negb (String.eqb (user_role current_user) "admin"
                        || String.eqb (user_role current_user) "manager")
            then (Err 403, st, [])
            else
              match conversation_id with
              | None => (Err 500, st, [])
              | Some (PStr conversation_id) =>
                  match conversations_db st !! conversation_id with
                  | None => (Err 403, st, [])
                  | Some conversation =>
                      if negb (bool_decide
                                 (user_id current_user ∈ conv_participants conversation))
                      then (Err 403, st, [])
                      else
                        let st1 := set_conversation_messages_db st
                          (od_del (conversation_messages_db st) message_id) in
                        let st2 := fst (delete_conversation_message st1 message_id) in
                        let '(st3, log) :=
                          broadcast_to_conversation tr st2 conversation_id
                            (message_deleted_event message_id conversation_id
                               (user_id current_user)) None in
                        (Ok tt, st3, log)
                  end
              | Some _ => (Err 403, st, [])
              end
        end
  end.

(** *** The chat socket ([websocket_chat]) *)

(** A text frame, as [json.loads] sees it. *)
Inductive frame :=
| NotJson                    (** [json.loads] raises: the loop continues *)
| NotObject                  (** valid JSON that is not an object *)
| Object (payload : dict).

(** How the receive loop goes on after a frame: with the next frame, or out
    through an exception into the [finally] block, which closes the
    connection. *)
Inductive loop_outcome := KeepOpen | Closed.

Definition user_status_change (user_data : user) (is_online : bool) : event :=
  mk_event {[ "type" := PStr "user_status_change";
              "user_id" := PStr (user_id user_data);
              "user_name" := PStr (user_name user_data);
              "user_avatar" := PStr (user_avatar user_data);
              "is_online" := PBool is_online ]} None.

(** From [websocket.accept()] to the receive loop. *)
Definition websocket_chat_on_connect (tr : transport) (st : state) (ws : nat)
    (user_data : user) (team_created team_updated : datetime)
  : state * list delivery :=
  let org_id := user_organization_id user_data in
  let '(st1, first_online) := add_chat_connection st org_id ws user_data in
  let st2 := fst (create_team_conversation st1 org_id team_created team_updated) in
  if first_online
  then broadcast_to_organization tr st2 org_id (user_status_change user_data true) (Some ws)
  else (st2, []).

(** One round of the receive loop. *)
Definition websocket_chat_on_text (tr : transport) (st : state) (ws : nat)
    (user_data : user) (msg_text : frame)
    (message_id : string) (now team_created team_updated : datetime)
  : loop_outcome * state * list delivery :=
  let org_id := user_organization_id user_data in
  match msg_text with
  | NotJson => (KeepOpen, st, [])
  | NotObject => (Closed, st, [])
  | Object payload =>
      let mtype := py_get payload "type" in
      if py_eq mtype (PStr "chat_message") then
        let conversation_id :=
          py_get_or payload "conversation_id" (PStr (team_chat_id org_id)) in
        match py_or (py_get payload "content") (PStr EmptyString) with
        | PStr raw =>
            let content := strip raw in
            let conversation_id :=
              if py_eq conversation_id (PStr "team-chat")
              then PStr (team_chat_id org_id) else conversation_id in
            if String.eqb content EmptyString then (KeepOpen, st, [])
            else
              match conversation_id with
              | PStr conversation_id =>
                  let resolved :=
                    match conversations_db st !! conversation_id with
                    | Some conversation => Some (st, conversation, conversation_id)
                    | None =>
                        if startswith conversation_id (team_chat_id org_id) then
                          let '(st1, conversation) :=
                            create_team_conversation st org_id team_created team_updated in
                          Some (st1, conversation, conv_id conversation)
                        else None
                    end in
                  match resolved with
                  | None => (KeepOpen, st, [])
                  | Some (st1, conversation, conversation_id) =>
                      if negb (bool_decide
                                 (user_id user_data ∈ conv_participants conversation))
                      then (KeepOpen, st1, [])
                      else
                        let created_at := isoformat now in
                        let message :=
                          new_message message_id content user_data conversation_id
                            created_at in
                        let st2 := set_conversation_messages_db st1
                          (od_set (conversation_messages_db st1) message_id message) in
                        let st3 := save_conversation_message st2 now message in
                        let conversation :=
                          mk_conversation (conv_id conversation) (conv_type conversation)
                            (conv_name conversation) (conv_participants conversation)
                            (conv_organization_id conversation)
                            (conv_created_at conversation) created_at in
                        let st4 := set_conversations_db st3
                          (<[conversation_id := conversation]> (conversations_db st3)) in
                        let st5 := save_conversation_data st4 conversation in
                        let '(st6, log) :=
                          broadcast_to_conversation tr st5 conversation_id
                            (chat_message_event conversation_id message) None in
                        (KeepOpen, st6, log)
                  end
              | _ =>
                  (* the lookup misses and [conversation_id.startswith] raises *)
                  (Closed, st, [])
              end
        | _ =>
            (* [.strip()] on a value that is not a string raises *)
            (Closed, st, [])
        end
      else if py_eq mtype (PStr "chat_typing") then
        let conversation_id :=
          py_get_or payload "conversation_id" (PStr (team_chat_id org_id)) in
        let is_typing := py_get_or payload "is_typing" (PBool false) in
        match conversation_id with
        | PStr cid =>
            let '(st1, log) :=
              broadcast_to_conversation tr st cid
                (mk_event {[ "type" := PStr "chat_typing";
                             "conversation_id" := conversation_id;
                             "user_id" := PStr (user_id user_data);
                             "user_name" := PStr (user_name user_data);
                             "is_typing" := is_typing ]} None)
                (Some ws) in
            (KeepOpen, st1, log)
        | _ => (KeepOpen, st, [])
        end
      else (KeepOpen, st, [])
  end.

(** The [finally] block. *)
Definition websocket_chat_finally (tr : transport) (st : state) (ws : nat)
    (user_data : user) : state * list delivery :=
  let org_id := user_organization_id user_data in
  let '(st1, went_offline) :=
    remove_chat_connection st org_id ws (user_id user_data) in
  if went_offline && negb (user_has_active_session st1 (user_id user_data))
  then broadcast_to_organization tr st1 org_id (user_status_change user_data false) None
  else (st1, []).

(** A [chat_message] frame whose content is empty or white space only: no
    ['content'] key, [null], a false value, or a string that [strip] empties. *)
Definition blank_chat_message (payload : dict) : Prop :=
  py_get payload "type" = PStr "chat_message" ∧
  match py_get payload "content" with
  | PStr raw => strip raw = EmptyString
  | content => truthy content = false
  end.

(** The message table is a dict keyed by the id of each message. *)
Definition store_consistent (db : odict dict) : Prop :=
  NoDup (od_keys db) ∧ ∀ key message, (key, message) ∈ db → message !! "id" = Some (PStr key).

(** Alice, Bob and Carol connected, with the team conversation of their
    organization in place. *)
Definition team_connected : state :=
  fst (create_team_conversation three_connected "org1" new_year new_year).

Definition blank_frame : dict :=
  {[ "type" := PStr "chat_message";
     "conversation_id" := PStr "dm-ab";
     "content" := PStr (String " " (String "009" (String " " EmptyString))) ]}.

Definition hello_frame : dict :=
  {[ "type" := PStr "chat_message";
     "conversation_id" := PStr "dm-ab";
     "content" := PStr " hello " ]}.

(** Two states with the same data: they differ at most in the tables of live
    connections ([active_chat_connections], [sse_connections]). *)
Definition same_store (st st' : state) : Prop :=
  users_db st' = users_db st ∧
  sessions_db st' = sessions_db st ∧
  conversations_db st' = conversations_db st ∧
  conversation_messages_db st' = conversation_messages_db st ∧
  user_conversations_db st' = user_conversations_db st ∧
  presence_counters st' = presence_counters st ∧
  conversations_file st' = conversations_file st ∧
  conversation_messages_file st' = conversation_messages_file st.

(** The keys [normalize_message_record] may write. *)
Definition normalized_keys : list string :=
  ["sender_id"; "author_id"; "sender_name"; "author_name"; "sender_avatar";
   "author_avatar"; "message_type"; "type"; "edited"; "reply_to"; "created_at";
   "updated_at"].

(** A stored message of Bob in the direct conversation, and the table that
    holds it between two messages of Alice. *)
Definition stored_message (message_id content : string) (author : user)
    (created_at : string) : dict :=
  fst (normalize_message_record new_year
         (new_message message_id content author "dm-ab" created_at)).

Definition three_messages : state :=
  set_conversation_messages_file
    (set_conversation_messages_db team_connected
       [("m-1", stored_message "m-1" "one" alice "2024-01-01T10:00:00");
        ("m-2", stored_message "m-2" "two" bob "2024-01-01T09:00:00");
        ("m-3", stored_message "m-3" "three" alice "2024-01-01T11:00:00")])
    [stored_message "m-1" "one" alice "2024-01-01T10:00:00";
     stored_message "m-2" "two" bob "2024-01-01T09:00:00";
     stored_message "m-3" "three" alice "2024-01-01T11:00:00"].

(** ** Reference points for the further properties *)


(** A connection that an organization broadcast writes to: it is not the
    excluded socket. *)
Definition addressed (exclude_websocket : option nat) (c : connection_info) : Prop :=
  Some (websocket c) ≠ exclude_websocket.


(** The connection table has no empty list: an organization without sockets
    has no entry. [add_chat_connection], [remove_chat_connection] and the
    broadcasts keep it so. *)
Definition connections_ok (st : state) : Prop :=
  ∀ o conns, active_chat_connections st !! o = Some conns → conns ≠ [].

(** The sockets registered for an organization. *)
Definition sockets_of (st : state) (organization_id : string) : list nat :=
  websocket <$> default [] (active_chat_connections st !! organization_id).

(** ** Sessions and event streams ([main.py], lines 956-995, 1397-1418,
    2358-2415) *)

Definition set_sessions_db (st : state) (v : gmap string string) : state :=
  mk_state (users_db st) v (conversations_db st)
    (conversation_messages_db st) (user_conversations_db st)
    (active_chat_connections st) (sse_connections st)
    (presence_counters st) (conversations_file st) (conversation_messages_file st).

(** [create_access_token]; [token] is the value of
    [secrets.token_urlsafe(32)]. *)
Definition create_access_token (st : state) (token uid : string) : state :=
  set_sessions_db st (<[token := uid]> (sessions_db st)).

(** [verify_access_token] *)
Definition verify_access_token (st : state) (token : string) : option user :=
  match sessions_db st !! token with
  | None => None
  | Some uid =>
      if String.eqb uid EmptyString then None else od_get (users_db st) uid
  end.

(** [logout]: every token of the user is deleted; the organization is told
    when the user has no session left. *)
Definition logout (tr : transport) (st : state) (current_user : user)
  : state * list delivery :=
  let uid := user_id current_user in
  let st1 := set_sessions_db st (filter (λ entry, snd entry ≠ uid) (sessions_db st)) in
  if negb (user_has_active_session st1 uid)
     && negb (String.eqb (user_organization_id current_user) EmptyString)
  then broadcast_to_organization tr st1 (user_organization_id current_user)
         (user_status_change current_user false) None
  else (st1, []).

(** [chat_stream], up to the start of the event generator: the new queue is
    registered, then the presence is counted. *)
Definition chat_stream_open (tr : transport) (st : state) (queue : nat)
    (user_data : user) : state * list delivery :=
  let org_id := user_organization_id user_data in
  let st1 := set_sse_connections st
    (<[org_id := default [] (sse_connections st !! org_id) ++ [queue]]>
       (sse_connections st)) in
  let '(pc, first_online) :=
    _increment_presence (presence_counters st1) org_id (user_id user_data) in
  let st2 := set_presence_counters st1 pc in
  if first_online
  then broadcast_to_organization tr st2 org_id (user_status_change user_data true) None
  else (st2, []).

(** The [finally] block of the event generator. Removing a queue that is not
    registered raises [ValueError], which skips the clean-up of the empty
    entry. *)
Definition chat_stream_close (tr : transport) (st : state) (queue : nat)
    (user_data : user) : state * list delivery :=
  let org_id := user_organization_id user_data in
  let st1 :=
    match sse_connections st !! org_id with
    | None => st
    | Some queues =>
        if bool_decide (queue ∈ queues) then
          set_sse_connections st
            (match list_remove queue queues with
             | [] => delete org_id (sse_connections st)
             | queues' => <[org_id := queues']> (sse_connections st)
             end)
        else st
    end in
  let '(pc, went_offline) :=
    _decrement_presence (presence_counters st1) org_id (user_id user_data) in
  let st2 := set_presence_counters st1 pc in
  if went_offline && negb (user_has_active_session st2 (user_id user_data))
  then broadcast_to_organization tr st2 org_id (user_status_change user_data false) None
  else (st2, []).

(** [get_online_user_ids_for_org]: the users of the organization that hold a
    token. *)
Definition get_online_user_ids_for_org (st : state) (organization_id : string)
  : gset string :=
  if String.eqb organization_id EmptyString then ∅
  else
    list_to_set
      (filter (λ uid,
                 (user_organization_id <$> od_get (users_db st) uid)
                 = Some organization_id)
         (snd <$> map_to_list (sessions_db st))).

(** The tables of stream queues have no empty list either. *)
Definition streams_ok (st : state) : Prop :=
  ∀ o queues, sse_connections st !! o = Some queues → queues ≠ [].

(** Alice and Bob with one token each, a third token of Alice's, and an
    event stream of Bob. *)
Definition with_sessions : state :=
  create_access_token
    (create_access_token
       (create_access_token three_connected "tok-a1" "alice") "tok-b" "bob")
    "tok-a2" "alice".

(** A manager with Alice and Bob connected, Alice typing in two
    conversations. *)
Definition typing_manager : ConnectionManager.t :=
  ConnectionManager.set_typing_status
    (ConnectionManager.set_typing_status
       (ConnectionManager.mk {["alice" := 1%nat; "bob" := 2%nat]}
          {["alice" := "org1"; "bob" := "org1"]} ∅)
       "dm-ab" "alice" true)
    "team-chat-org1" "alice" true.

(** How far a field is from what the normalisation wants: absent or [None],
    present but false, a [datetime], or a true value that can be written
    out. *)
Definition field_rank (field : option pyval) : nat :=
  match field with
  | None | Some PNone => 0
  | Some (PDatetime _) => 2
  | Some v => if truthy v then 3 else 1
  end.

(** [message'] is [message] with some fields filled in or made better, and
    none made worse. *)
Definition fills_in (message message' : dict) : Prop :=
  ∀ k, message !! k = message' !! k ∨
       (field_rank (message !! k) < field_rank (message' !! k))%nat.

(** A step that only fills in, and whose flag says whether it did. *)
Definition step_fills_in (s : norm_step) : Prop :=
  ∀ m : dict, fills_in m (fst (s m)) ∧
       (snd (s m) = true →
          ∃ k, (field_rank (m !! k) < field_rank (fst (s m) !! k))%nat) ∧
       (snd (s m) = false → fst (s m) = m).

(** A legacy record, as the first version of the chat wrote it. *)
Definition legacy_message : dict :=
  {[ "id" := PStr "m1"; "content" := PStr "hi"; "author_id" := PStr "bob";
     "type" := PStr "image"; "is_edited" := PBool true;
     "created_at" := PDatetime new_year ]}.

(** The conversation a request names: the team conversation of the caller's
    organization when none is given, or under the legacy id. *)
Definition requested_conversation (conversation_id : option string) (current_user : user)
  : string :=
  let org := user_organization_id current_user in
  let conversation_id := str_or conversation_id (team_chat_id org) in
  if String.eqb conversation_id "team-chat" then team_chat_id org else conversation_id.

(** Every conversation is stored under its own id. *)
Definition conversations_keyed (st : state) : Prop :=
  ∀ key conversation,
    conversations_db st !! key = Some conversation → conv_id conversation = key.

(** A request of Alice in the direct conversation, on the second of January. *)
Definition second_of_january : datetime := mk_datetime 2024 1 2 0 0 0 0.
Definition third_of_january : datetime := mk_datetime 2024 1 3 0 0 0 0.
Definition hello_again : ChatMessageRequest :=
  mk_chat_message_request " hello again " (Some "dm-ab").

(** The participants of a new conversation: those of the request, and the
    caller if the request did not list them. *)
Definition requested_participants (request : CreateConversationRequest)
    (current_user : user) : list string :=
  if bool_decide (user_id current_user ∈ ccr_participants request)
  then ccr_participants request
  else ccr_participants request ++ [user_id current_user].

(** Alice and Bob after Alice has opened a direct conversation with Bob. *)
Definition with_direct : state :=
  snd (create_conversation alice_and_bob
         (mk_create_conversation_request (Some "dm-1") DIRECT ["bob"] None)
         alice "uuid-1" new_year new_year).

(* ================================================================== *)
(** * Properties *)
(* ================================================================== *)

(** ** Presence counters *)

Section presence.
Implicit Types (pc : counters) (o u : string).

Lemma presence_ok_empty : presence_ok ∅.
Proof. intros o org H. by rewrite lookup_empty in H. Qed.

Lemma presence_ok_increment pc o u :
  presence_ok pc → presence_ok (fst (_increment_presence pc o u)).
Proof.
  intros Hok o' org'. unfold _increment_presence; simpl.
  destruct (decide (o = o')) as [->|Hne].
  - rewrite lookup_insert_eq. intros [= <-]. split.
    + apply insert_non_empty.
    + intros u' n. destruct (decide (u = u')) as [->|Hu].
      * rewrite lookup_insert_eq. intros [= <-].
        destruct (pc !! o') as [org|] eqn:Ho; simpl.
        -- destruct (org !! u') as [k|] eqn:Hk; simpl; [|lia].
           destruct (Hok _ _ Ho) as [_ Hpos]. specialize (Hpos _ _ Hk). lia.
        -- rewrite lookup_empty; simpl. lia.
      * rewrite lookup_insert_ne by done.
        destruct (pc !! o') as [org|] eqn:Ho; simpl.
        -- intros Hk. by destruct (Hok _ _ Ho) as [_ Hpos]; eapply Hpos.
        -- by rewrite lookup_empty.
  - rewrite lookup_insert_ne by done. apply Hok.
Qed.

Lemma presence_ok_decrement pc o u :
  presence_ok pc → presence_ok (fst (_decrement_presence pc o u)).
Proof.
  intros Hok. unfold _decrement_presence.
  destruct (pc !! o) as [org|] eqn:Ho; [|done].
  case_bool_decide; [done|].
  destruct (Hok _ _ Ho) as [_ Hpos].
  destruct (default 0 (org !! u) <=? 1) eqn:Hle; simpl.
  - case_bool_decide as He.
    + intros o' org'. destruct (decide (o = o')) as [->|Hne].
      * by rewrite lookup_delete_eq.
      * rewrite lookup_delete_ne by done. apply Hok.
    + intros o' org'. destruct (decide (o = o')) as [->|Hne].
      * rewrite lookup_insert_eq. intros [= <-]. split; [done|].
        intros u' n Hn. apply lookup_delete_Some in Hn as [_ Hn]. eauto.
      * rewrite lookup_insert_ne by done. apply Hok.
  - intros o' org'. destruct (decide (o = o')) as [->|Hne].
    + rewrite lookup_insert_eq. intros [= <-]. split; [apply insert_non_empty|].
      intros u' n. destruct (decide (u = u')) as [->|Hu].
      * rewrite lookup_insert_eq. intros [= <-]. apply Z.leb_gt in Hle. lia.
      * rewrite lookup_insert_ne by done. eauto.
    + rewrite lookup_insert_ne by done. apply Hok.
Qed.

Lemma presence_ok_step pc op : presence_ok pc → presence_ok (presence_step pc op).
Proof.
  destruct op as [o u|o u|]; intros Hok.
  - by apply presence_ok_increment.
  - by apply presence_ok_decrement.
  - apply presence_ok_empty.
Qed.

Lemma presence_ok_run ops : presence_ok (presence_run ops).
Proof.
  unfold presence_run. generalize presence_ok_empty.
  generalize (∅ : counters). induction ops as [|op ops IH]; intros pc Hok; simpl.
  - done.
  - apply IH, presence_ok_step, Hok.
Qed.

(** In a table of that shape a count of zero means that the user has no
    entry. *)
Lemma presence_count_zero pc o u :
  presence_ok pc → presence_count pc o u = 0 →
  pc !! o = None ∨ ∃ org, pc !! o = Some org ∧ org ≠ ∅ ∧ org !! u = None.
Proof.
  unfold presence_count. intros Hok Hz.
  destruct (pc !! o) as [org|] eqn:Ho; [right|by left].
  destruct (Hok _ _ Ho) as [Hne Hpos]. exists org. split_and!; [done..|].
  simpl in Hz. destruct (org !! u) as [n|] eqn:Hn; [|done].
  specialize (Hpos _ _ Hn). simpl in Hz. lia.
Qed.

Lemma increment_presence_returns pc o u :
  snd (_increment_presence pc o u) = true ↔ presence_count pc o u = 0.
Proof. unfold _increment_presence, presence_count; simpl. apply Z.eqb_eq. Qed.

Lemma increment_presence_count pc o u :
  presence_count (fst (_increment_presence pc o u)) o u = presence_count pc o u + 1.
Proof.
  unfold _increment_presence, presence_count; simpl.
  rewrite lookup_insert_eq; simpl. by rewrite lookup_insert_eq.
Qed.


Lemma decrement_presence_returns pc o u :
  snd (_decrement_presence pc o u) = true ↔ presence_count pc o u = 1.
Proof.
  unfold _decrement_presence, presence_count.
  destruct (pc !! o) as [org|] eqn:Ho; simpl; [|done].
  case_bool_decide as He; simpl.
  { subst org. by rewrite lookup_empty. }
  destruct (default 0 (org !! u) <=? 1) eqn:Hle; simpl.
  - apply Z.leb_le in Hle. rewrite Z.ltb_lt. lia.
  - apply Z.leb_gt in Hle. split; [done|lia].
Qed.

Lemma decrement_presence_count pc o u :
  1 ≤ presence_count pc o u →
  presence_count (fst (_decrement_presence pc o u)) o u = presence_count pc o u - 1.
Proof.
  unfold _decrement_presence, presence_count.
  destruct (pc !! o) as [org|] eqn:Ho; simpl.
  2:{ rewrite lookup_empty; simpl. lia. }
  intros Hpos. case_bool_decide as He; simpl.
  { subst org. rewrite lookup_empty in Hpos; simpl in Hpos. lia. }
  destruct (default 0 (org !! u) <=? 1) eqn:Hle; simpl.
  - apply Z.leb_le in Hle. case_bool_decide as He'.
    + rewrite lookup_delete_eq; simpl. rewrite lookup_empty; simpl. lia.
    + rewrite lookup_insert_eq; simpl. rewrite lookup_delete_eq; simpl. lia.
  - rewrite lookup_insert_eq; simpl. by rewrite lookup_insert_eq.
Qed.

Lemma decrement_presence_absent pc o u :
  presence_ok pc → presence_count pc o u = 0 →
  _decrement_presence pc o u = (pc, false).
Proof.
  intros Hok Hz.
  destruct (presence_count_zero _ _ _ Hok Hz) as [Ho|(org & Ho & Hne & Hu)];
    unfold _decrement_presence; rewrite Ho; [done|].
  rewrite bool_decide_eq_false_2 by done.
  rewrite Hu; simpl.
  rewrite delete_id by done.
  rewrite bool_decide_eq_false_2 by done.
  by rewrite insert_id.
Qed.

End presence.

(** C3. After any sequence of presence calls, [_increment_presence] answers
    [True] exactly when the count of the (organization, user) pair was 0 just
    before the call (a pair without an entry counts as 0), and after the call
    the count of the pair is one more than before. *)
Theorem increment_presence_first_connection :
  ∀ (ops : list presence_op) (organization_id user_id : string),
    (snd (_increment_presence (presence_run ops) organization_id user_id) = true ↔
       presence_count (presence_run ops) organization_id user_id = 0) ∧
    presence_count
      (fst (_increment_presence (presence_run ops) organization_id user_id))
      organization_id user_id
    = presence_count (presence_run ops) organization_id user_id + 1.
Proof.
  intros ops o u. split.
  - apply increment_presence_returns.
  - apply increment_presence_count.
Qed.

(** C4. After any sequence of presence calls, [_decrement_presence] answers
    [True] exactly when the count of the pair was 1 just before the call, the
    count then being 0; on a pair whose count is 0 (no entry) it answers
    [False] and leaves the whole table as it was; and for a user with two open
    connections the first removal answers [False] and the second [True]. *)
Theorem decrement_presence_went_offline :
  ∀ (ops : list presence_op) (organization_id user_id : string),
    let pc := presence_run ops in
    let first := _decrement_presence pc organization_id user_id in
    let second := _decrement_presence (fst first) organization_id user_id in
    (snd first = true ↔ presence_count pc organization_id user_id = 1) ∧
    (snd first = true → presence_count (fst first) organization_id user_id = 0) ∧
    (presence_count pc organization_id user_id = 0 → first = (pc, false)) ∧
    (presence_count pc organization_id user_id = 2 →
       snd first = false ∧ snd second = true).
Proof.
  intros ops o u pc first second. split_and!.
  - apply decrement_presence_returns.
  - intros Ht. apply decrement_presence_returns in Ht.
    subst first. rewrite decrement_presence_count by lia. lia.
  - apply decrement_presence_absent, presence_ok_run.
  - intros H2. split.
    + destruct (snd first) eqn:Hf; [|done].
      apply decrement_presence_returns in Hf. lia.
    + apply decrement_presence_returns. subst first.
      rewrite decrement_presence_count by lia. lia.
Qed.

(** Two connections of one user, closed one after the other. *)
Lemma decrement_presence_went_offline_witness :
  let pc := presence_run [Increment "org1" "u1"; Increment "org1" "u1"] in
  presence_count pc "org1" "u1" = 2 ∧
  snd (_decrement_presence pc "org1" "u1") = false ∧
  snd (_decrement_presence (fst (_decrement_presence pc "org1" "u1")) "org1" "u1")
    = true.
Proof.
  assert (Hc : presence_count
    (presence_run [Increment "org1" "u1"; Increment "org1" "u1"]) "org1" "u1" = 2)
    by (vm_compute; reflexivity).
  split; [exact Hc|].
  exact (proj2 (proj2 (proj2 (decrement_presence_went_offline
    [Increment "org1" "u1"; Increment "org1" "u1"] "org1" "u1"))) Hc).
Defined.

(** ** Connection hub and fan-out *)


(** C1 (evaluation at the failing input). Alice, Bob and Carol are connected
    members of one organization and "dm-ab" is the direct conversation of
    Alice and Bob. [broadcast_to_conversation] on "dm-ab" writes the event to
    Carol's socket as well, although Carol is not a participant. *)
Theorem broadcast_to_conversation_reaches_non_participant :
  let log := snd (broadcast_to_conversation healthy three_connected "dm-ab"
                    hello_event None) in
  conversations_db three_connected !! "dm-ab" = Some dm_alice_bob ∧
  ("carol" ∉ conv_participants dm_alice_bob) ∧
  socket_owner three_connected 3 = Some "carol" ∧
  (Socket 3 ∈ (fst <$> log)) ∧
  received_by three_connected log "alice" = true ∧
  received_by three_connected log "bob" = true ∧
  received_by three_connected log "carol" = true.
Proof.
  vm_compute. split_and!; try reflexivity.
  - intros H. repeat (apply elem_of_cons in H as [H|H]; [discriminate H|]).
    by apply elem_of_nil in H.
  - do 2 apply list_elem_of_further. apply list_elem_of_here.
Qed.

Section fanout.
Implicit Types (st : state) (tr : transport) (m : event).

Lemma send_all_sent tr m ex conns c :
  c ∈ conns → Some (websocket c) ≠ ex → send_text_ok tr (websocket c) = true →
  (Socket (websocket c), m) ∈ fst (send_all tr m ex conns).
Proof.
  intros Hin Hex Hok. induction conns as [|c' conns IH]; [by apply elem_of_nil in Hin|].
  simpl. destruct (send_all tr m ex conns) as [sent dead] eqn:Hs. simpl in IH.
  apply elem_of_cons in Hin as [->|Hin].
  - rewrite bool_decide_eq_false_2 by done. rewrite Hok. simpl. apply list_elem_of_here.
  - specialize (IH Hin). case_bool_decide; [done|].
    destruct (send_text_ok tr (websocket c')); simpl; [|done].
    by apply list_elem_of_further.
Qed.

(** What [broadcast_to_conversation] does: once the organization of the first
    participant is resolved, every socket registered for that organization
    that is not the excluded one and accepts the write receives the event,
    tagged with the conversation id. Membership in the conversation is not
    consulted. *)
Lemma broadcast_to_conversation_org_wide tr st cid m ex conv p ps first_user conns c :
  conversations_db st !! cid = Some conv →
  conv_participants conv = p :: ps →
  od_get (users_db st) p = Some first_user →
  active_chat_connections st !! user_organization_id first_user = Some conns →
  c ∈ conns → Some (websocket c) ≠ ex → send_text_ok tr (websocket c) = true →
  (Socket (websocket c),
   mk_event (<["conversation_id" := PStr cid]> (ev_fields m)) (ev_message m))
    ∈ snd (broadcast_to_conversation tr st cid m ex).
Proof.
  intros Hconv Hp Hu Hconns Hin Hex Hok.
  unfold broadcast_to_conversation. rewrite Hconv, Hp, Hu.
  unfold broadcast_to_organization. rewrite Hconns.
  pose proof (send_all_sent tr
    (mk_event (<["conversation_id" := PStr cid]> (ev_fields m)) (ev_message m))
    ex conns c Hin Hex Hok) as Hsent.
  destruct (send_all _ _ _ conns) as [sent dead]. simpl in Hsent.
  destruct (broadcast_to_sse _ _ _ _) as [st2 queued]. simpl.
  apply elem_of_app. by left.
Qed.

End fanout.

Section unregister.
Implicit Types (st : state) (o u : string) (ws : nat).

Lemma filter_other_socket_idem ws (conns : list connection_info) :
  filter (λ conn, websocket conn ≠ ws) (filter (λ conn, websocket conn ≠ ws) conns)
  = filter (λ conn, websocket conn ≠ ws) conns.
Proof.
  induction conns as [|c conns IH]; [done|].
  rewrite filter_cons. case_decide as Hc; [|done].
  rewrite filter_cons. rewrite decide_True by done. by rewrite IH.
Qed.

Lemma remove_chat_connection_tables st o ws u :
  fst (remove_chat_connection st o ws u) =
  set_presence_counters
    (match active_chat_connections st !! o with
     | None => st
     | Some conns =>
         set_active_chat_connections st
           (match filter (λ conn, websocket conn ≠ ws) conns with
            | [] => delete o (active_chat_connections st)
            | remaining => <[o := remaining]> (active_chat_connections st)
            end)
     end)
    (fst (_decrement_presence (presence_counters st) o u)).
Proof.
  unfold remove_chat_connection.
  destruct (active_chat_connections st !! o) as [conns|].
  - change (presence_counters (set_active_chat_connections st _))
      with (presence_counters st).
    destruct (_decrement_presence _ _ _); simpl. by destruct (filter _ conns).
  - by destruct (_decrement_presence _ _ _).
Qed.

Lemma remove_chat_connection_presence st o ws u :
  presence_counters (fst (remove_chat_connection st o ws u))
  = fst (_decrement_presence (presence_counters st) o u).
Proof. rewrite remove_chat_connection_tables. by destruct (_ !! o). Qed.

Lemma remove_chat_connection_returns st o ws u :
  snd (remove_chat_connection st o ws u)
  = snd (_decrement_presence (presence_counters st) o u).
Proof.
  unfold remove_chat_connection.
  destruct (active_chat_connections st !! o) as [conns|].
  - change (presence_counters (set_active_chat_connections st _))
      with (presence_counters st).
    by destruct (_decrement_presence _ _ _).
  - by destruct (_decrement_presence _ _ _).
Qed.

(** After a call the sockets left for the organization are all different from
    the one removed, and an organization without sockets has no entry. *)
Lemma remove_chat_connection_settled st o ws u :
  match active_chat_connections (fst (remove_chat_connection st o ws u)) !! o with
  | None => True
  | Some conns => conns ≠ [] ∧ filter (λ conn, websocket conn ≠ ws) conns = conns
  end.
Proof.
  rewrite remove_chat_connection_tables.
  destruct (active_chat_connections st !! o) as [conns|] eqn:Ho; simpl.
  - destruct (filter (λ conn, websocket conn ≠ ws) conns) as [|c rest] eqn:Hf; simpl.
    + by rewrite lookup_delete_eq.
    + rewrite lookup_insert_eq. split; [done|].
      by rewrite <- Hf, filter_other_socket_idem.
  - by rewrite Ho.
Qed.

(** On such a table a further call only decrements the presence counter. *)
Lemma remove_chat_connection_second st o ws u u' :
  fst (remove_chat_connection (fst (remove_chat_connection st o ws u)) o ws u')
  = set_presence_counters (fst (remove_chat_connection st o ws u))
      (fst (_decrement_presence
              (presence_counters (fst (remove_chat_connection st o ws u))) o u')).
Proof.
  pose proof (remove_chat_connection_settled st o ws u) as Hs.
  rewrite (remove_chat_connection_tables (fst (remove_chat_connection st o ws u))).
  f_equal.
  destruct (active_chat_connections (fst (remove_chat_connection st o ws u)) !! o)
    as [conns|] eqn:Ho; [|done].
  destruct Hs as [Hne Hf]. rewrite Hf.
  destruct conns as [|c rest]; [done|].
  rewrite insert_id by done.
  by destruct (fst (remove_chat_connection st o ws u)).
Qed.

End unregister.

(** C5 (counterexample). Alice has two open sockets. Unregistering socket 1
    twice leaves socket 2 registered, yet the second call takes her presence
    count from 1 to 0 and reports that she went offline. *)
Lemma remove_chat_connection_twice_decrements_twice :
  let once := remove_chat_connection two_sockets "org1" 1 "alice" in
  let twice := remove_chat_connection (fst once) "org1" 1 "alice" in
  (websocket <$> default [] (active_chat_connections (fst twice) !! "org1")) = [2%nat] ∧
  presence_count (presence_counters (fst once)) "org1" "alice" = 1 ∧
  presence_count (presence_counters (fst twice)) "org1" "alice" = 0 ∧
  snd twice = true ∧
  presence_counters (fst twice) ≠ presence_counters (fst once).
Proof.
  cbv zeta. split; [vm_compute; reflexivity|].
  split; [vm_compute; reflexivity|].
  split; [vm_compute; reflexivity|].
  split; [vm_compute; reflexivity|].
  intros Heq.
  apply (f_equal (λ pc, presence_count pc "org1" "alice")) in Heq.
  vm_compute in Heq. discriminate Heq.
Qed.

(** C5 (amended). A second call of [remove_chat_connection] with the same
    socket leaves the connection table, and every table other than the
    presence counters, as the first call left it. The presence counters are
    decremented by every call: the second call applies [_decrement_presence]
    once more, so a count of at least 1 left by the first call drops by one,
    and only a count of 0 makes the second call change nothing and answer
    [False]. *)
Theorem remove_chat_connection_twice :
  ∀ (ops : list presence_op) (st : state) (organization_id : string)
    (ws : nat) (uid : string),
    let once := remove_chat_connection st organization_id ws uid in
    let twice := remove_chat_connection (fst once) organization_id ws uid in
    active_chat_connections (fst twice) = active_chat_connections (fst once) ∧
    fst twice = set_presence_counters (fst once) (presence_counters (fst twice)) ∧
    (1 ≤ presence_count (presence_counters (fst once)) organization_id uid →
       presence_count (presence_counters (fst twice)) organization_id uid
       = presence_count (presence_counters (fst once)) organization_id uid - 1) ∧
    (presence_counters st = presence_run ops →
     presence_count (presence_counters (fst once)) organization_id uid = 0 →
       twice = (fst once, false)).
Proof.
  intros ops st o ws u once twice.
  assert (Hsnd : fst twice = set_presence_counters (fst once)
            (fst (_decrement_presence (presence_counters (fst once)) o u)))
    by apply remove_chat_connection_second.
  assert (Hpc : presence_counters (fst twice)
            = fst (_decrement_presence (presence_counters (fst once)) o u))
    by apply remove_chat_connection_presence.
  split_and!.
  - rewrite Hsnd. by destruct (fst once).
  - by rewrite Hpc.
  - intros Hpos. rewrite Hpc. by apply decrement_presence_count.
  - intros Hrun Hz.
    assert (Hok : presence_ok (presence_counters (fst once))).
    { subst once. rewrite remove_chat_connection_presence, Hrun.
      apply presence_ok_decrement, presence_ok_run. }
    pose proof (decrement_presence_absent _ _ _ Hok Hz) as Hd.
    apply injective_projections; simpl.
    + rewrite Hsnd, Hd. simpl. by destruct (fst once).
    + subst twice. by rewrite remove_chat_connection_returns, Hd.
Qed.

(** The last socket of a user, unregistered twice. *)
Lemma remove_chat_connection_twice_witness :
  let st := fst (add_chat_connection initial_state "org1" 1 alice) in
  let once := remove_chat_connection st "org1" 1 "alice" in
  presence_counters st = presence_run [Increment "org1" "alice"] ∧
  presence_count (presence_counters (fst once)) "org1" "alice" = 0 ∧
  remove_chat_connection (fst once) "org1" 1 "alice" = (fst once, false).
Proof.
  assert (H1 : presence_counters (fst (add_chat_connection initial_state "org1" 1 alice))
               = presence_run [Increment "org1" "alice"]) by (vm_compute; reflexivity).
  assert (H2 : presence_count (presence_counters (fst (remove_chat_connection
                 (fst (add_chat_connection initial_state "org1" 1 alice))
                 "org1" 1 "alice"))) "org1" "alice" = 0) by (vm_compute; reflexivity).
  split; [exact H1|]. split; [exact H2|].
  exact (proj2 (proj2 (proj2 (remove_chat_connection_twice
    [Increment "org1" "alice"]
    (fst (add_chat_connection initial_state "org1" 1 alice)) "org1" 1%nat "alice")))
    H1 H2).
Defined.

(** ** Typing state of [ConnectionManager] *)

Section typing.
Import ConnectionManager.

Lemma disconnect_clears_typing (self : t) (user_id conversation_id : string) :
  user_id ∉ get_typing_users (fst (disconnect self user_id)) conversation_id.
Proof.
  unfold get_typing_users, disconnect; simpl.
  rewrite lookup_fmap.
  destruct (typing_users self !! conversation_id) as [typing|]; simpl;
    rewrite elem_of_elements; set_solver.
Qed.

(** Disconnecting a user that is already gone changes nothing. *)
Lemma disconnect_idempotent (self : t) (user_id : string) :
  disconnect (fst (disconnect self user_id)) user_id
  = (fst (disconnect self user_id), None).
Proof.
  unfold disconnect; simpl. rewrite lookup_delete_eq. f_equal.
  rewrite !delete_delete_eq. f_equal.
  rewrite <- map_fmap_compose. apply map_fmap_ext. intros c typing _. simpl.
  set_solver.
Qed.

End typing.

(** C6. Whatever typing events came before, once [disconnect] has run for a
    user, [get_typing_users] lists that user for no conversation; no
    stop-typing event is needed. *)
Theorem disconnect_removes_typing_state :
  ∀ (self : ConnectionManager.t) (events : list ConnectionManager.typing_event)
    (user_id conversation_id : string),
    user_id ∉ ConnectionManager.get_typing_users
      (fst (ConnectionManager.disconnect
              (foldl ConnectionManager.on_typing_event self events) user_id))
      conversation_id.
Proof. intros. apply disconnect_clears_typing. Qed.

(** ** Python values and strings *)

Section values.

Lemma append_nonempty_r (s1 s2 : string) : s2 ≠ EmptyString → s1 +:+ s2 ≠ EmptyString.
Proof. destruct s1; simpl; [done|discriminate]. Qed.

Lemma isoformat_sep_nonempty sep d : isoformat_sep sep d ≠ EmptyString.
Proof. unfold isoformat_sep. by apply append_nonempty_r. Qed.

Lemma pretty_N_go_length (x : N) (s : string) :
  (String.length s ≤ String.length (pretty_N_go x s))%nat.
Proof.
  revert s. induction (N.lt_wf_0 x) as [x _ IH]; intros s.
  destruct (decide (x = 0)%N) as [->|Hx]; [by rewrite pretty_N_go_0|].
  rewrite pretty_N_go_step by lia.
  etrans; [|apply IH, N.div_lt; lia]. simpl. lia.
Qed.

Lemma pretty_N_nonempty (x : N) : pretty x ≠ EmptyString.
Proof.
  unfold pretty, pretty_N. case_decide as Hx; [done|].
  rewrite pretty_N_go_step by lia. intros Hs.
  pose proof (pretty_N_go_length (x `div` 10)
    (String (pretty_N_char (x `mod` 10)) EmptyString)) as Hl.
  rewrite Hs in Hl. simpl in Hl. lia.
Qed.

Lemma pretty_Z_nonempty (z : Z) : pretty z ≠ EmptyString.
Proof.
  destruct z as [|p|p]; simpl; [done| |].
  - apply (pretty_N_nonempty (N.pos p)).
  - unfold pretty, pretty_Z. discriminate.
Qed.

Lemma truthy_PStr (s : string) : truthy (PStr s) = true ↔ s ≠ EmptyString.
Proof.
  simpl. rewrite negb_true_iff. split.
  - intros H ->. by rewrite String.eqb_refl in H.
  - intros H. by apply String.eqb_neq.
Qed.

(** The printed form of a true value is not empty. *)
Lemma truthy_py_str (v : pyval) : truthy v = true → truthy (PStr (py_str v)) = true.
Proof.
  intros Hv. apply truthy_PStr. destruct v as [|[]|z|s|d]; simpl; try done.
  - apply pretty_Z_nonempty.
  - by apply truthy_PStr.
  - apply isoformat_sep_nonempty.
Qed.

Lemma truthy_isoformat d : truthy (PStr (isoformat d)) = true.
Proof. apply truthy_PStr, isoformat_sep_nonempty. Qed.

Lemma has_key_insert (m : dict) k v : has_key (<[k := v]> m) k = true.
Proof. unfold has_key. rewrite lookup_insert_eq. by apply bool_decide_eq_true_2. Qed.

Lemma py_get_insert (m : dict) k v : py_get (<[k := v]> m) k = v.
Proof. unfold py_get. by rewrite lookup_insert_eq. Qed.

Lemma py_get_insert_ne (m : dict) k k' v :
  k ≠ k' → py_get (<[k := v]> m) k' = py_get m k'.
Proof. intros. unfold py_get. by rewrite lookup_insert_ne. Qed.

End values.

(** ** Message normalisation *)

Section normalisation.
Implicit Types (m message : dict) (k : string).

Lemma and_then_fst (f g : norm_step) m :
  fst (and_then f g m) = fst (g (fst (f m))).
Proof. unfold and_then. destruct (f m) as [m1 u1]; simpl. by destruct (g m1). Qed.

Lemma and_then_fixed (f g : norm_step) m :
  f m = (m, false) → g m = (m, false) → and_then f g m = (m, false).
Proof. intros Hf Hg. unfold and_then. by rewrite Hf, Hg. Qed.

(** *** What each step leaves alone *)

Lemma norm_alias_frame a b m k :
  k ≠ a → k ≠ b → fst (norm_alias a b m) !! k = m !! k.
Proof.
  intros Ha Hb. unfold norm_alias.
  repeat case_match; simpl; rewrite ?lookup_insert_ne by done; done.
Qed.

Lemma norm_aliases_frame m k :
  k ≠ "sender_id" → k ≠ "author_id" → k ≠ "sender_name" → k ≠ "author_name" →
  k ≠ "sender_avatar" → k ≠ "author_avatar" →
  fst (norm_aliases m) !! k = m !! k.
Proof.
  intros. unfold norm_aliases, alias_keys; simpl.
  rewrite !and_then_fst; simpl. by rewrite !norm_alias_frame.
Qed.

Lemma norm_message_type_frame m k :
  k ≠ "message_type" → k ≠ "type" → fst (norm_message_type m) !! k = m !! k.
Proof.
  intros. unfold norm_message_type.
  repeat case_match; simplify_eq/=; rewrite ?lookup_insert_ne by done; done.
Qed.

Lemma norm_edited_frame m k : k ≠ "edited" → fst (norm_edited m) !! k = m !! k.
Proof.
  intros. unfold norm_edited.
  repeat case_match; simpl; rewrite ?lookup_insert_ne by done; done.
Qed.

Lemma norm_reply_to_frame m k : k ≠ "reply_to" → fst (norm_reply_to m) !! k = m !! k.
Proof.
  intros. unfold norm_reply_to.
  repeat case_match; simpl; rewrite ?lookup_insert_ne by done; done.
Qed.

Lemma norm_created_at_frame now m k :
  k ≠ "created_at" → fst (norm_created_at now m) !! k = m !! k.
Proof.
  intros. unfold norm_created_at.
  repeat case_match; simpl; rewrite ?lookup_insert_ne by done; done.
Qed.

Lemma norm_updated_at_frame m k :
  k ≠ "updated_at" → fst (norm_updated_at m) !! k = m !! k.
Proof.
  intros. unfold norm_updated_at.
  repeat case_match; simpl; rewrite ?lookup_insert_ne by done; done.
Qed.

(** *** What each step establishes *)

Lemma norm_alias_done a b m :
  a ≠ b →
  is_none (py_get (fst (norm_alias a b m)) a) = is_none (py_get (fst (norm_alias a b m)) b).
Proof.
  intros Hab. unfold norm_alias.
  destruct (is_none (py_get m a)) eqn:Ha, (is_none (py_get m b)) eqn:Hb; simpl.
  - by rewrite Ha, Hb.
  - rewrite py_get_insert, py_get_insert_ne by done. by rewrite Hb.
  - rewrite py_get_insert, py_get_insert_ne by done. by rewrite Ha.
  - by rewrite Ha, Hb.
Qed.

Lemma norm_message_type_done m :
  truthy (py_get (fst (norm_message_type m)) "message_type") = true ∧
  truthy (py_get (fst (norm_message_type m)) "type") = true.
Proof.
  unfold norm_message_type.
  destruct (truthy (py_get m "message_type")) eqn:Hmt; simpl.
  - destruct (truthy (py_get m "type")) eqn:Ht; simpl.
    + by rewrite Hmt, Ht.
    + rewrite py_get_insert, py_get_insert_ne by done. rewrite Hmt.
      split; [done|]. by apply truthy_py_str.
  - assert (Hnew : truthy (PStr
        (if truthy (py_get m "type") &&
            negb (py_eq (py_get m "type") (PStr "message")
                  || py_eq (py_get m "type") (PStr "text"))
         then py_str (py_get m "type") else "text")) = true).
    { destruct (truthy (py_get m "type")) eqn:Ht; simpl; [|done].
      case_match; [by apply truthy_py_str|done]. }
    rewrite py_get_insert_ne by done.
    destruct (truthy (py_get m "type")) eqn:Ht; simpl.
    + rewrite py_get_insert, py_get_insert_ne by done. rewrite Ht. by split.
    + rewrite py_get_insert, py_get_insert_ne, py_get_insert by done. by split.
Qed.

Lemma norm_edited_done m : has_key (fst (norm_edited m)) "edited" = true.
Proof.
  unfold norm_edited.
  destruct (has_key m "edited") eqn:He; simpl; [done|].
  destruct (has_key m "is_edited"); simpl; apply has_key_insert.
Qed.

Lemma norm_reply_to_done m :
  has_key (fst (norm_reply_to m)) "reply_to" = true ∨
  truthy (py_get (fst (norm_reply_to m)) "parent_message_id") = false.
Proof.
  unfold norm_reply_to.
  destruct (has_key m "reply_to") eqn:Hr; simpl; [by left|].
  destruct (truthy (py_get m "parent_message_id")) eqn:Hp; simpl.
  - left. apply has_key_insert.
  - by right.
Qed.

Lemma norm_created_at_done now m :
  is_datetime (py_get (fst (norm_created_at now m)) "created_at") = false ∧
  truthy (py_get (fst (norm_created_at now m)) "created_at") = true.
Proof.
  unfold norm_created_at.
  destruct (py_get m "created_at") as [|b|z|s|d] eqn:Hc; simpl;
    try (rewrite py_get_insert; split; [done|apply truthy_isoformat]).
  - destruct b; simpl; rewrite ?py_get_insert, ?Hc; split;
      done || apply truthy_isoformat.
  - destruct (z =? 0) eqn:Hz; simpl; rewrite ?py_get_insert, ?Hc; simpl;
      rewrite ?Hz; split; done || apply truthy_isoformat.
  - destruct (String.eqb s EmptyString) eqn:Hs; simpl;
      rewrite ?py_get_insert, ?Hc; simpl; rewrite ?Hs; split;
      done || apply truthy_isoformat.
Qed.

Lemma norm_updated_at_done m :
  is_datetime (py_get (fst (norm_updated_at m)) "updated_at") = false.
Proof.
  unfold norm_updated_at.
  destruct (py_get m "updated_at") eqn:Hu; simpl; rewrite ?py_get_insert, ?Hu; done.
Qed.

(** *** What each step does on a message that needs nothing *)

Lemma norm_alias_fixed a b m :
  is_none (py_get m a) = is_none (py_get m b) → norm_alias a b m = (m, false).
Proof.
  intros H. unfold norm_alias. rewrite H.
  by destruct (is_none (py_get m b)).
Qed.

Lemma norm_aliases_unfold m :
  fst (norm_aliases m)
  = fst (norm_alias "sender_avatar" "author_avatar"
      (fst (norm_alias "sender_name" "author_name"
        (fst (norm_alias "sender_id" "author_id" m))))).
Proof.
  unfold norm_aliases, alias_keys. cbn [foldr fst snd].
  by rewrite !and_then_fst.
Qed.

Lemma norm_aliases_done m a b :
  (a, b) ∈ alias_keys →
  is_none (py_get (fst (norm_aliases m)) a) = is_none (py_get (fst (norm_aliases m)) b).
Proof.
  intros Hab. rewrite norm_aliases_unfold. unfold alias_keys in Hab.
  apply elem_of_cons in Hab as [Hab|Hab]; [injection Hab as -> ->|].
  { unfold py_get.
    rewrite !(norm_alias_frame "sender_avatar") by discriminate.
    rewrite !(norm_alias_frame "sender_name") by discriminate.
    apply norm_alias_done. discriminate. }
  apply elem_of_cons in Hab as [Hab|Hab]; [injection Hab as -> ->|].
  { unfold py_get.
    rewrite !(norm_alias_frame "sender_avatar") by discriminate.
    apply norm_alias_done. discriminate. }
  apply elem_of_cons in Hab as [Hab|Hab]; [injection Hab as -> ->|].
  { apply norm_alias_done. discriminate. }
  by apply elem_of_nil in Hab.
Qed.

Lemma normalized_fixed now m :
  normalized m → normalize_message_record now m = (m, false).
Proof.
  intros (Hal & Hmt & Ht & He & Hr & Hcd & Hct & Hud).
  unfold normalize_message_record.
  apply and_then_fixed; [|apply and_then_fixed; [|apply and_then_fixed;
    [|apply and_then_fixed; [|apply and_then_fixed]]]].
  - unfold norm_aliases, alias_keys; simpl.
    apply and_then_fixed; [|apply and_then_fixed; [|apply and_then_fixed]];
      try done; apply norm_alias_fixed, Hal.
    + apply list_elem_of_here.
    + apply list_elem_of_further, list_elem_of_here.
    + do 2 apply list_elem_of_further. apply list_elem_of_here.
  - unfold norm_message_type. rewrite Hmt; simpl. by rewrite Ht.
  - unfold norm_edited. by rewrite He.
  - unfold norm_reply_to. destruct Hr as [Hr|Hr]; rewrite Hr; [done|].
    by rewrite andb_false_r.
  - unfold norm_created_at.
    destruct (py_get m "created_at"); simpl in *; try done; by rewrite Hct.
  - unfold norm_updated_at. by destruct (py_get m "updated_at").
Qed.

Lemma normalize_normalized now m :
  normalized (fst (normalize_message_record now m)).
Proof.
  unfold normalize_message_record. rewrite !and_then_fst.
  set (m1 := fst (norm_aliases m)).
  set (m2 := fst (norm_message_type m1)).
  set (m3 := fst (norm_edited m2)).
  set (m4 := fst (norm_reply_to m3)).
  set (m5 := fst (norm_created_at now m4)).
  set (m6 := fst (norm_updated_at m5)).
  assert (Hlate : ∀ k, k ≠ "message_type" → k ≠ "type" → k ≠ "edited" →
            k ≠ "reply_to" → k ≠ "created_at" → k ≠ "updated_at" →
            py_get m6 k = py_get m1 k).
  { intros k ??????. unfold py_get, m6, m5, m4, m3, m2.
    by rewrite norm_updated_at_frame, norm_created_at_frame, norm_reply_to_frame,
      norm_edited_frame, norm_message_type_frame. }
  split_and!.
  - intros a b Hab.
    assert (Ha : py_get m6 a = py_get m1 a ∧ py_get m6 b = py_get m1 b).
    { unfold alias_keys in Hab.
      apply elem_of_cons in Hab as [Hab|Hab]; [injection Hab as -> ->|].
      { split; by apply Hlate. }
      apply elem_of_cons in Hab as [Hab|Hab]; [injection Hab as -> ->|].
      { split; by apply Hlate. }
      apply elem_of_cons in Hab as [Hab|Hab]; [injection Hab as -> ->|].
      { split; by apply Hlate. }
      by apply elem_of_nil in Hab. }
    destruct Ha as [-> ->]. by apply norm_aliases_done.
  - unfold py_get, m6, m5, m4, m3.
    rewrite norm_updated_at_frame, norm_created_at_frame, norm_reply_to_frame,
      norm_edited_frame by done.
    apply norm_message_type_done.
  - unfold py_get, m6, m5, m4, m3.
    rewrite norm_updated_at_frame, norm_created_at_frame, norm_reply_to_frame,
      norm_edited_frame by done.
    apply norm_message_type_done.
  - unfold has_key, m6, m5, m4.
    rewrite norm_updated_at_frame, norm_created_at_frame, norm_reply_to_frame by done.
    apply norm_edited_done.
  - unfold has_key, py_get, m6, m5.
    rewrite !norm_updated_at_frame, !norm_created_at_frame by done.
    apply norm_reply_to_done.
  - unfold py_get, m6. rewrite norm_updated_at_frame by done.
    apply norm_created_at_done.
  - unfold py_get, m6. rewrite norm_updated_at_frame by done.
    apply norm_created_at_done.
  - apply norm_updated_at_done.
Qed.

End normalisation.

(** C10. [normalize_message_record] applied to its own result changes
    nothing and answers [False], whatever the message and whatever the clock
    reads at either call. *)
Theorem normalize_message_record_idempotent :
  ∀ (now later : datetime) (message : dict),
    normalize_message_record later (fst (normalize_message_record now message))
    = (fst (normalize_message_record now message), false).
Proof. intros. apply normalized_fixed, normalize_normalized. Qed.

(** ** Direct conversations *)

(** C2 (evaluation at the failing input). Alice opens a direct conversation
    with Bob, then Bob opens one with Alice under another id. Both requests
    of [create_conversation] ([main.py]) succeed, and the table then holds
    two direct conversations of the pair. *)
Theorem create_conversation_duplicates_direct_pair :
  let first := create_conversation alice_and_bob
    (mk_create_conversation_request (Some "dm-1") DIRECT ["bob"] None)
    alice "uuid-1" new_year new_year in
  let second := create_conversation (snd first)
    (mk_create_conversation_request (Some "dm-2") DIRECT ["alice"] None)
    bob "uuid-2" new_year new_year in
  (∃ r, fst first = Ok r ∧ cr_participants r = ["bob"; "alice"]) ∧
  (∃ r, fst second = Ok r ∧ cr_participants r = ["alice"; "bob"]) ∧
  length (direct_conversations_of (snd first) "org1" "alice" "bob") = 1%nat ∧
  length (direct_conversations_of (snd second) "org1" "alice" "bob") = 2%nat.
Proof.
  vm_compute. split_and!; try reflexivity; eexists; split; reflexivity.
Qed.

(** ** Inbound chat frames *)

Section frames.

Lemma blank_content_stripped (payload : dict) :
  blank_chat_message payload →
  ∃ raw, py_or (py_get payload "content") (PStr EmptyString) = PStr raw ∧
         strip raw = EmptyString.
Proof.
  intros [_ Hc]. unfold py_or.
  destruct (py_get payload "content") as [|b|z|s|d]; simpl in *.
  - by exists EmptyString.
  - rewrite Hc. by exists EmptyString.
  - rewrite Hc. by exists EmptyString.
  - destruct (String.eqb s EmptyString) eqn:Hs; simpl.
    + by exists EmptyString.
    + by exists s.
  - done.
Qed.

(** A frame with text is stored, bumps the conversation and is fanned out. *)
Example websocket_chat_message_stored :
  let '(outcome, st, log) :=
    websocket_chat_on_text healthy team_connected 1 alice (Object hello_frame)
      "m-1" new_year new_year new_year in
  outcome = KeepOpen ∧
  ((λ m, py_get m "content") <$> od_get (conversation_messages_db st) "m-1")
    = Some (PStr "hello") ∧
  length (conversation_messages_file st) = 1%nat ∧
  (conv_updated_at <$> conversations_db st !! "dm-ab") = Some (isoformat new_year) ∧
  length log = 3%nat.
Proof. vm_compute. repeat split; reflexivity. Qed.

End frames.

(** C7. A [chat_message] frame whose content is empty or only white space
    is dropped by the socket loop: every table and file is left as it was (no
    message stored, no [updated_at] changed), nothing is sent to anyone, and
    the loop goes on with the next frame. The REST handler rejects such a
    content with status 400, with the same absence of effects. *)
Theorem blank_chat_message_rejected :
  ∀ (tr : transport) (st : state) (ws : nat) (user_data : user) (payload : dict)
    (message_id : string) (now team_created team_updated : datetime)
    (conversation_id : option string) (content : string),
    (blank_chat_message payload →
       websocket_chat_on_text tr st ws user_data (Object payload)
         message_id now team_created team_updated = (KeepOpen, st, [])) ∧
    (strip content = EmptyString →
       send_chat_message tr st (mk_chat_message_request content conversation_id)
         user_data message_id now team_created team_updated = (Err 400, st, [])).
Proof.
  intros. split.
  - intros Hb. destruct (blank_content_stripped _ Hb) as (raw & Hraw & Hs).
    destruct Hb as [Ht _].
    unfold websocket_chat_on_text. rewrite Ht. simpl. rewrite Hraw, Hs. done.
  - intros Hs. unfold send_chat_message. cbn [req_content]. rewrite Hs. reflexivity.
Qed.

(** A frame of three white-space characters, and the same content over REST. *)
Lemma blank_chat_message_rejected_witness :
  blank_chat_message blank_frame ∧
  websocket_chat_on_text healthy team_connected 1 alice (Object blank_frame)
    "m-1" new_year new_year new_year = (KeepOpen, team_connected, []) ∧
  send_chat_message healthy team_connected
    (mk_chat_message_request (String " " (String "009" (String " " EmptyString)))
       (Some "dm-ab"))
    alice "m-1" new_year new_year new_year = (Err 400, team_connected, []).
Proof.
  assert (Hb : blank_chat_message blank_frame) by (split; reflexivity).
  split; [exact Hb|]. split.
  - exact (proj1 (blank_chat_message_rejected healthy team_connected 1 alice
      blank_frame "m-1" new_year new_year new_year (Some "dm-ab")
      (String " " (String "009" (String " " EmptyString)))) Hb).
  - exact (proj2 (blank_chat_message_rejected healthy team_connected 1 alice
      blank_frame "m-1" new_year new_year new_year (Some "dm-ab")
      (String " " (String "009" (String " " EmptyString)))) eq_refl).
Defined.

(** ** Insertion-ordered dicts *)

Section odicts.
Context {V : Type}.
Implicit Types (d : odict V) (k : string) (v : V).

Lemma od_get_elem d k v : od_get d k = Some v → (k, v) ∈ d.
Proof.
  induction d as [|[k' v'] d IH]; [done|]. cbn [od_get].
  destruct (String.eqb_spec k' k) as [->|Hne].
  - intros [= ->]. apply list_elem_of_here.
  - intros H. apply list_elem_of_further. auto.
Qed.


Lemma od_key_elem d k v : (k, v) ∈ d → k ∈ od_keys d.
Proof.
  intros Hin. unfold od_keys.
  change (map fst d) with (fst <$> d).
  by apply (list_elem_of_fmap_2 fst) in Hin.
Qed.

Lemma od_elem_get d k v : NoDup (od_keys d) → (k, v) ∈ d → od_get d k = Some v.
Proof.
  induction d as [|[k' v'] d IH]; [intros _ H; by apply elem_of_nil in H|].
  cbn [od_keys map fst]. intros Hnd Hin. apply NoDup_cons in Hnd as [Hk' Hnd].
  cbn [od_get]. apply elem_of_cons in Hin as [[= -> ->]|Hin].
  - by rewrite String.eqb_refl.
  - destruct (String.eqb_spec k' k) as [->|Hne]; [|by apply IH].
    exfalso. apply Hk'. by eapply od_key_elem.
Qed.




Lemma od_del_absent d k : od_get d k = None → od_del d k = d.
Proof.
  induction d as [|[k' v'] d IH]; [done|]. cbn [od_get od_del].
  destruct (String.eqb_spec k' k) as [->|Hne]; [done|].
  intros H. by rewrite IH.
Qed.



Lemma od_set_fresh d k v : od_get d k = None → od_set d k v = d ++ [(k, v)].
Proof.
  induction d as [|[k' v'] d IH]; [done|]. cbn [od_get od_set].
  destruct (String.eqb_spec k' k) as [->|Hne]; [done|].
  intros H. by rewrite IH.
Qed.

Lemma od_set_same d k v : NoDup (od_keys d) → (k, v) ∈ d → od_set d k v = d.
Proof.
  induction d as [|[k' v'] d IH]; [intros _ H; by apply elem_of_nil in H|].
  cbn [od_keys map fst]. intros Hnd Hin. apply NoDup_cons in Hnd as [Hk' Hnd].
  cbn [od_set]. apply elem_of_cons in Hin as [[= -> ->]|Hin].
  - by rewrite String.eqb_refl.
  - destruct (String.eqb_spec k' k) as [->|Hne].
    + exfalso. apply Hk'. by eapply od_key_elem.
    + by rewrite IH.
Qed.


End odicts.

(** ** Order of strings and the stable sort *)

Section string_order.

Lemma ascii_compare_lt_trans (a b c : ascii) :
  Ascii.compare a b = Lt → Ascii.compare b c = Lt → Ascii.compare a c = Lt.
Proof.
  unfold Ascii.compare. rewrite !N.compare_lt_iff. apply N.lt_trans.
Qed.

Lemma string_compare_lt_trans (s1 s2 s3 : string) :
  String.compare s1 s2 = Lt → String.compare s2 s3 = Lt → String.compare s1 s3 = Lt.
Proof.
  revert s2 s3. induction s1 as [|a s1 IH]; intros [|b s2] [|c s3]; cbn [String.compare];
    try done.
  destruct (Ascii.compare a b) eqn:Hab; [|clear IH|done];
    destruct (Ascii.compare b c) eqn:Hbc; try done.
  - apply Ascii.compare_eq_iff in Hab as ->. rewrite Hbc. apply IH.
  - apply Ascii.compare_eq_iff in Hab as ->. by rewrite Hbc.
  - apply Ascii.compare_eq_iff in Hbc as <-. by rewrite Hab.
  - by rewrite (ascii_compare_lt_trans _ _ _ Hab Hbc).
Qed.

(** [x <= y] as the sort sees it: not [y < x]. *)
Lemma string_not_lt_trans (x y z : string) :
  String.ltb y x = false → String.ltb z y = false → String.ltb z x = false.
Proof.
  unfold String.ltb. intros Hyx Hzy.
  destruct (String.compare z x) eqn:Hzx; try done. exfalso.
  destruct (String.compare y x) eqn:Hc; [|done|].
  - apply String.compare_eq_iff in Hc as ->. by rewrite Hzx in Hzy.
  - assert (Hxy : String.compare x y = Lt).
    { rewrite String.compare_antisym, Hc. done. }
    by rewrite (string_compare_lt_trans _ _ _ Hzx Hxy) in Hzy.
Qed.

End string_order.

Section stable_sorting.
Context {A : Type} (key : A → string).
Implicit Types (x y : A) (l s : list A).

(** [x] may stand before [y]. *)
Definition key_le x y : Prop := String.ltb (key y) (key x) = false.

Lemma key_le_trans x y z : key_le x y → key_le y z → key_le x z.
Proof. unfold key_le. apply string_not_lt_trans. Qed.

Lemma key_le_total x y : key_le x y ∨ key_le y x.
Proof.
  unfold key_le, String.ltb.
  rewrite (String.compare_antisym (key x) (key y)).
  destruct (String.compare (key y) (key x)); simpl; auto.
Qed.

Lemma elem_of_insert_by_key y x s :
  y ∈ insert_by_key key x s ↔ y = x ∨ y ∈ s.
Proof.
  induction s as [|z s IH]; cbn [insert_by_key].
  - rewrite list_elem_of_singleton, elem_of_nil. tauto.
  - destruct (String.ltb (key z) (key x)).
    + rewrite !elem_of_cons, IH. tauto.
    + rewrite !elem_of_cons. tauto.
Qed.

Lemma elem_of_stable_sort y l : y ∈ stable_sort key l ↔ y ∈ l.
Proof.
  induction l as [|x l IH]; [done|].
  unfold stable_sort in *. cbn [foldr].
  by rewrite elem_of_insert_by_key, IH, elem_of_cons.
Qed.



Lemma insert_by_key_sorted x s :
  StronglySorted key_le s → StronglySorted key_le (insert_by_key key x s).
Proof.
  induction 1 as [|z s Hs IH Hz]; cbn [insert_by_key].
  - by repeat constructor.
  - destruct (String.ltb (key z) (key x)) eqn:Hlt.
    + constructor; [done|]. apply Forall_forall. intros y Hy.
      apply elem_of_insert_by_key in Hy as [->|Hy].
      * destruct (key_le_total z x) as [H|H]; [done|].
        unfold key_le in H. congruence.
      * by eapply Forall_forall in Hz.
    + constructor; [by constructor|]. constructor; [done|].
      eapply Forall_impl; [exact Hz|]. intros y Hy. by eapply key_le_trans.
Qed.

Lemma stable_sort_sorted l : StronglySorted key_le (stable_sort key l).
Proof.
  induction l as [|x l IH]; [constructor|].
  by apply insert_by_key_sorted.
Qed.

(** An element that may stand before all of a list is put at its head. *)
Lemma insert_by_key_head x s : Forall (key_le x) s → insert_by_key key x s = x :: s.
Proof.
  destruct s as [|z s]; [done|]. intros Hs. apply Forall_cons in Hs as [Hz _].
  cbn [insert_by_key]. unfold key_le in Hz. by rewrite Hz.
Qed.

(** An element that may stand before the last one is never put after it. *)
Lemma insert_by_key_snoc x s z :
  key_le x z → insert_by_key key x (s ++ [z]) = insert_by_key key x s ++ [z].
Proof.
  intros Hz. induction s as [|y s IH]; cbn [insert_by_key app].
  - unfold key_le in Hz. by rewrite Hz.
  - destruct (String.ltb (key y) (key x)); [|done]. by rewrite IH.
Qed.

(** The newest element, added last, is sorted last. *)
Lemma stable_sort_snoc l z :
  Forall (λ x, key_le x z) l → stable_sort key (l ++ [z]) = stable_sort key l ++ [z].
Proof.
  induction 1 as [|x l Hx Hl IH]; [done|].
  unfold stable_sort in *. cbn [foldr app].
  rewrite IH. by apply insert_by_key_snoc.
Qed.

Section filtering.
Context (P : A → Prop) `{!∀ x, Decision (P x)}.

Lemma filter_insert_by_key x s :
  StronglySorted key_le s →
  filter P (insert_by_key key x s) =
    if decide (P x) then insert_by_key key x (filter P s) else filter P s.
Proof.
  induction 1 as [|z s Hs IH Hz]; cbn [insert_by_key].
  - rewrite filter_cons, filter_nil. by destruct (decide (P x)).
  - destruct (String.ltb (key z) (key x)) eqn:Hlt.
    + rewrite !(filter_cons _ z), IH.
      destruct (decide (P z)), (decide (P x)); cbn [insert_by_key]; by rewrite ?Hlt.
    + rewrite (filter_cons _ x). destruct (decide (P x)); [|done].
      rewrite insert_by_key_head; [done|].
      apply Forall_forall. intros y Hy.
      apply list_elem_of_filter in Hy as [_ Hy].
      apply elem_of_cons in Hy as [->|Hy]; [done|].
      eapply key_le_trans; [exact Hlt|]. by eapply Forall_forall in Hz.
Qed.

(** A stable sort and a filter commute: dropping elements does not move the
    others. *)
Lemma stable_sort_filter l :
  stable_sort key (filter P l) = filter P (stable_sort key l).
Proof.
  induction l as [|x l IH]; [done|].
  rewrite filter_cons.
  change (stable_sort key (x :: l)) with (insert_by_key key x (stable_sort key l)).
  rewrite filter_insert_by_key by apply stable_sort_sorted.
  destruct (decide (P x)); [|done].
  change (stable_sort key (x :: filter P l))
    with (insert_by_key key x (stable_sort key (filter P l))).
  by rewrite IH.
Qed.

End filtering.
End stable_sorting.

(** ** Broadcasts only touch the connection tables *)

Section broadcast_store.
Implicit Types (st : state) (tr : transport) (m : event).

Lemma same_store_refl st : same_store st st.
Proof. by repeat split. Qed.

Lemma same_store_trans st1 st2 st3 :
  same_store st1 st2 → same_store st2 st3 → same_store st1 st3.
Proof.
  intros (?&?&?&?&?&?&?&?) (?&?&?&?&?&?&?&?). repeat split; congruence.
Qed.

Lemma broadcast_to_sse_store tr st o m :
  same_store st (fst (broadcast_to_sse tr st o m)).
Proof.
  unfold broadcast_to_sse.
  destruct (sse_connections st !! o) as [queues|]; [|apply same_store_refl].
  destruct (sse_put_all tr m queues) as [sent [|q stale]];
    [apply same_store_refl|].
  by repeat split.
Qed.

Lemma broadcast_to_organization_store tr st o m ex :
  same_store st (fst (broadcast_to_organization tr st o m ex)).
Proof.
  unfold broadcast_to_organization.
  destruct (active_chat_connections st !! o) as [conns|].
  - destruct (send_all tr m ex conns) as [sent dead].
    match goal with |- context [broadcast_to_sse tr ?s o m] =>
      pose proof (broadcast_to_sse_store tr s o m) as Hs;
      destruct (broadcast_to_sse tr s o m) as [st2 queued] end.
    cbn [fst] in *. eapply same_store_trans; [|exact Hs]. by repeat split.
  - pose proof (broadcast_to_sse_store tr st o m) as Hs.
    destruct (broadcast_to_sse tr st o m) as [st2 queued]. exact Hs.
Qed.

Lemma broadcast_to_conversation_store tr st cid m ex :
  same_store st (fst (broadcast_to_conversation tr st cid m ex)).
Proof.
  unfold broadcast_to_conversation.
  destruct (conversations_db st !! cid) as [conv|]; [|apply same_store_refl].
  destruct (conv_participants conv) as [|p ps]; [apply same_store_refl|].
  destruct (od_get (users_db st) p) as [fu|]; [|apply same_store_refl].
  apply broadcast_to_organization_store.
Qed.

End broadcast_store.

(** ** Responses built from stored messages *)

Section responses.
Implicit Types (m : dict) (users : odict user) (r : ConversationMessageResponse).

Lemma normalize_frame now m k :
  k ∉ normalized_keys → fst (normalize_message_record now m) !! k = m !! k.
Proof.
  intros Hk. unfold normalized_keys in Hk.
  repeat (apply not_elem_of_cons in Hk as [? Hk]).
  unfold normalize_message_record. rewrite !and_then_fst.
  rewrite norm_updated_at_frame, norm_created_at_frame, norm_reply_to_frame,
    norm_edited_frame, norm_message_type_frame, norm_aliases_frame by done.
  done.
Qed.

Lemma normalize_keeps_id now m :
  fst (normalize_message_record now m) !! "id" = m !! "id".
Proof.
  apply normalize_frame. unfold normalized_keys.
  repeat (apply not_elem_of_cons; split; [discriminate|]). apply not_elem_of_nil.
Qed.

Lemma normalize_keeps_content now m :
  fst (normalize_message_record now m) !! "content" = m !! "content".
Proof.
  apply normalize_frame. unfold normalized_keys.
  repeat (apply not_elem_of_cons; split; [discriminate|]). apply not_elem_of_nil.
Qed.

Lemma normalize_keeps_conversation_id now m :
  fst (normalize_message_record now m) !! "conversation_id" = m !! "conversation_id".
Proof.
  apply normalize_frame. unfold normalized_keys.
  repeat (apply not_elem_of_cons; split; [discriminate|]). apply not_elem_of_nil.
Qed.

(** The id, content and conversation id of a response are those of the
    stored message; its sender id is read from the normalised message. *)
Lemma build_message_response_fields users now m r :
  snd (build_message_response users now m) = Some r →
  r_id r = py_str (py_get_or m "id" (PStr EmptyString)) ∧
  py_get_or m "content" (PStr EmptyString) = PStr (r_content r) ∧
  r_conversation_id r = py_str (py_get_or m "conversation_id" (PStr EmptyString)) ∧
  r_sender_id r =
    py_str (py_or (py_or (py_get (fst (normalize_message_record now m)) "sender_id")
                         (py_get (fst (normalize_message_record now m)) "author_id"))
                  (PStr EmptyString)).
Proof.
  unfold build_message_response. cbn [snd]. intros H.
  apply bind_Some in H as (content & Hc & H).
  apply bind_Some in H as (sender_name & _ & H).
  apply bind_Some in H as (sender_avatar & _ & H).
  apply bind_Some in H as (picture & _ & H).
  apply bind_Some in H as (reply_to & _ & H).
  injection H as <-. cbn [r_id r_content r_conversation_id r_sender_id].
  unfold py_get_or in *.
  rewrite normalize_keeps_id, normalize_keeps_conversation_id.
  rewrite normalize_keeps_content in Hc.
  split_and!; try done.
  destruct (default (PStr EmptyString) (m !! "content")); by simplify_eq/=.
Qed.

Lemma build_message_response_fst users now m :
  fst (build_message_response users now m) = fst (normalize_message_record now m).
Proof. done. Qed.

Lemma render_all_responses users now window db :
  snd (render_all users now window db)
  = mapM (λ e, snd (build_message_response users now (snd e))) window.
Proof.
  revert db. induction window as [|[k m] window IH]; intros db; [done|].
  cbn [render_all mapM snd].
  destruct (build_message_response users now m) as [m' [r|]] eqn:Hb; cbn [snd]; [|done].
  specialize (IH (od_set db k m')).
  destruct (render_all users now window (od_set db k m')) as [db' rs].
  cbn [snd] in *. rewrite <- IH. by destruct rs.
Qed.




End responses.

(** ** Deleting a message *)

Section deletion.
Implicit Types (st : state) (tr : transport) (mid : string) (db : odict dict).


Lemma filter_comm {A} (P Q : A → Prop) `{!∀ x, Decision (P x)} `{!∀ x, Decision (Q x)}
    (l : list A) :
  filter P (filter Q l) = filter Q (filter P l).
Proof. rewrite !list_filter_filter. apply list_filter_iff. tauto. Qed.




(** The author of a message, a participant of its conversation, can delete
    it. *)
Lemma delete_message_succeeds tr st mid u m cid conv :
  od_get (conversation_messages_db st) mid = Some m →
  m !! "author_id" = Some (PStr (user_id u)) →
  m !! "conversation_id" = Some (PStr cid) →
  conversations_db st !! cid = Some conv →
  user_id u ∈ conv_participants conv →
  ∃ st' log, delete_message tr st mid u = (Ok tt, st', log).
Proof.
  intros Hm Ha Hc Hconv Hp. unfold delete_message. rewrite Hm.
  rewrite bool_decide_eq_false_2.
  2:{ intros ->. by rewrite lookup_empty in Ha. }
  rewrite Ha, Hc. cbn [py_eq]. rewrite String.eqb_refl. cbn [negb andb].
  rewrite Hconv. rewrite bool_decide_eq_true_2 by done. cbn [negb].
  destruct (broadcast_to_conversation _ _ _ _ _) as [st3 log3]. by eauto.
Qed.

(** In a consistent table the id of a response is the key of its message. *)
Lemma response_id_key users now db k m r :
  store_consistent db → (k, m) ∈ db →
  snd (build_message_response users now m) = Some r → r_id r = k.
Proof.
  intros [_ Hid] Hin Hr.
  apply build_message_response_fields in Hr as (-> & _).
  unfold py_get_or. by rewrite (Hid _ _ Hin).
Qed.


Lemma mapM_filter_keys users now db mid (window : list (string * dict)) rs :
  store_consistent db → Forall (λ e, e ∈ db) window →
  mapM (λ e, snd (build_message_response users now (snd e))) window = Some rs →
  mapM (λ e, snd (build_message_response users now (snd e)))
    (filter (λ e, fst e ≠ mid) window)
  = Some (filter (λ r, r_id r ≠ mid) rs).
Proof.
  intros Hok Hall. revert rs.
  induction Hall as [|[k m] window Hin Hall IH]; intros rs Hm.
  - by injection Hm as <-.
  - cbn [mapM] in Hm. apply bind_Some in Hm as (r & Hr & Hm).
    apply bind_Some in Hm as (rs' & Hrs & [= <-]).
    cbn [snd] in Hr. pose proof (response_id_key _ _ _ _ _ _ Hok Hin Hr) as Hk.
    rewrite !filter_cons. cbn [fst]. rewrite Hk.
    destruct (decide (k ≠ mid)).
    + cbn [mapM]. cbn [snd]. rewrite Hr. cbn [mbind option_bind].
      by rewrite (IH _ Hrs).
    + by apply IH.
Qed.

Lemma sort_by_created_at_filter (P : string * dict → Prop) `{!∀ e, Decision (P e)}
    entries sorted :
  sort_by_created_at entries = Some sorted →
  sort_by_created_at (filter P entries) = Some (filter P sorted).
Proof.
  unfold sort_by_created_at. case_match eqn:Hall; [|done]. intros [= <-].
  assert (Hsub : forallb (λ e, bool_decide (is_Some (created_at_key (snd e))))
                   (filter P entries) = true).
  { apply forallb_forall. intros e He. apply list_elem_of_In in He.
    apply list_elem_of_filter in He as [_ He].
    rewrite forallb_forall in Hall. apply Hall. by apply list_elem_of_In. }
  rewrite Hsub. by rewrite stable_sort_filter.
Qed.

End deletion.

(* ================================================================== *)
(** * Further properties of the modelled code *)
(* ================================================================== *)

(** ** Presence counters as reference counts *)

Section presence_refcount.
Implicit Types (pc : counters) (o u : string).






(** Registering one more connection and taking it away again gives back the
    very table there was. *)
Lemma increment_decrement_presence pc o u :
  presence_ok pc →
  fst (_decrement_presence (fst (_increment_presence pc o u)) o u) = pc.
Proof.
  intros Hok. unfold _increment_presence. cbn [fst].
  unfold _decrement_presence. rewrite lookup_insert_eq.
  rewrite bool_decide_eq_false_2 by apply insert_non_empty.
  rewrite lookup_insert_eq. cbn [default from_option id].
  destruct (pc !! o) as [org|] eqn:Ho; cbn [default from_option id].
  - destruct (Hok _ _ Ho) as [Hne Hpos].
    destruct (org !! u) as [n|] eqn:Hn; cbn [default from_option id].
    + specialize (Hpos _ _ Hn).
      destruct (Z.leb_spec (n + 1) 1) as [Hle|Hgt]; [lia|]. cbn [fst].
      rewrite !insert_insert_eq. replace (n + 1 - 1) with n by lia.
      rewrite (insert_id org) by done. by rewrite insert_id.
    + cbn [Z.add Z.leb Z.compare Pos.compare]. cbn [fst].
      rewrite delete_insert_id by done.
      rewrite bool_decide_eq_false_2 by done.
      rewrite insert_insert_eq. by rewrite insert_id.
  - rewrite lookup_empty. cbn [default from_option id].
    cbn [Z.add Z.leb Z.compare Pos.compare]. cbn [fst].
    rewrite delete_insert_id by apply lookup_empty.
    rewrite bool_decide_eq_true_2 by done.
    by rewrite delete_insert_id.
Qed.

End presence_refcount.


(** X2. Entries of the presence table live exactly as long as the count is
    positive: after any sequence of calls no stored count is below 1 and no
    organization is left with an empty entry, so a user has an entry if and
    only if the count read for the user is positive. *)
Theorem presence_entries_are_positive :
  ∀ (ops : list presence_op) (organization_id user_id : string),
    presence_ok (presence_run ops) ∧
    (is_Some (default ∅ (presence_run ops !! organization_id) !! user_id) ↔
     0 < presence_count (presence_run ops) organization_id user_id).
Proof.
  intros ops o u. pose proof (presence_ok_run ops) as Hok. split; [done|].
  unfold presence_count.
  destruct (presence_run ops !! o) as [org|] eqn:Ho; cbn [default from_option id].
  - destruct (Hok _ _ Ho) as [_ Hpos].
    destruct (org !! u) as [n|] eqn:Hn; cbn [default from_option id].
    + specialize (Hpos _ _ Hn). split; [lia|by eauto].
    + split; [by intros [? ?]|lia].
  - rewrite lookup_empty. cbn [default from_option id]. split; [by intros [? ?]|lia].
Qed.

(** X3. A connect followed by the disconnect of the same pair restores the
    presence table exactly, entry for entry, whatever calls came before. *)
Theorem presence_connect_disconnect_roundtrip :
  ∀ (ops : list presence_op) (organization_id user_id : string),
    presence_run (ops ++ [Increment organization_id user_id;
                          Decrement organization_id user_id])
    = presence_run ops.
Proof.
  intros ops o u. unfold presence_run. rewrite foldl_app. cbn [foldl presence_step].
  apply increment_decrement_presence, presence_ok_run.
Qed.

(** ** Organization broadcasts *)

Section organization_broadcast.
Implicit Types (st : state) (tr : transport) (m : event) (ex : option nat).

Lemma send_all_fst tr m ex conns :
  fst (send_all tr m ex conns)
  = (λ c, (Socket (websocket c), m)) <$>
      filter (λ c, addressed ex c ∧ send_text_ok tr (websocket c) = true) conns.
Proof.
  induction conns as [|c conns IH]; [done|]. cbn [send_all].
  destruct (send_all tr m ex conns) as [sent dead]. cbn [fst] in IH.
  rewrite filter_cons.
  destruct (decide (addressed ex c ∧ send_text_ok tr (websocket c) = true))
    as [[Ha Hok]|Hn]; unfold addressed in *.
  - rewrite bool_decide_eq_false_2 by done. rewrite Hok. cbn [fst].
    rewrite fmap_cons. by f_equal.
  - case_bool_decide as Hex; [done|].
    destruct (send_text_ok tr (websocket c)) eqn:Hok; cbn [fst]; [|done].
    exfalso. by apply Hn.
Qed.





Lemma sse_put_all_fst tr m queues :
  fst (sse_put_all tr m queues)
  = (λ q, (Queue q, m)) <$> filter (λ q, put_nowait_ok tr q = true) queues.
Proof.
  induction queues as [|q queues IH]; [done|]. cbn [sse_put_all].
  destruct (sse_put_all tr m queues) as [sent stale]. cbn [fst] in IH.
  rewrite filter_cons.
  destruct (put_nowait_ok tr q) eqn:Hok; cbn [fst].
  - rewrite decide_True by done. rewrite fmap_cons. by f_equal.
  - rewrite decide_False by done. done.
Qed.

Lemma broadcast_to_sse_log tr st o m :
  snd (broadcast_to_sse tr st o m)
  = (λ q, (Queue q, m)) <$>
      filter (λ q, put_nowait_ok tr q = true) (default [] (sse_connections st !! o)).
Proof.
  unfold broadcast_to_sse.
  destruct (sse_connections st !! o) as [queues|]; cbn [default from_option id]; [|done].
  pose proof (sse_put_all_fst tr m queues) as Hs.
  destruct (sse_put_all tr m queues) as [sent [|q stale]]; done.
Qed.


Lemma broadcast_to_organization_log tr st o m ex :
  snd (broadcast_to_organization tr st o m ex)
  = ((λ c, (Socket (websocket c), m)) <$>
       filter (λ c, addressed ex c ∧ send_text_ok tr (websocket c) = true)
         (default [] (active_chat_connections st !! o)))
    ++ ((λ q, (Queue q, m)) <$>
          filter (λ q, put_nowait_ok tr q = true)
            (default [] (sse_connections st !! o))).
Proof.
  unfold broadcast_to_organization.
  destruct (active_chat_connections st !! o) as [conns|]; cbn [default from_option id].
  - pose proof (send_all_fst tr m ex conns) as Hs.
    destruct (send_all tr m ex conns) as [sent dead]. cbn [fst] in Hs.
    match goal with |- context [broadcast_to_sse tr ?s o m] =>
      pose proof (broadcast_to_sse_log tr s o m) as Hq;
      destruct (broadcast_to_sse tr s o m) as [st2 queued] end.
    cbn [snd] in *. by rewrite Hs, Hq.
  - pose proof (broadcast_to_sse_log tr st o m) as Hq.
    destruct (broadcast_to_sse tr st o m) as [st2 queued].
    cbn [snd] in *. by rewrite Hq.
Qed.


End organization_broadcast.




(** X6. No broadcast, to an organization or to a conversation, changes
    anything but the tables of live connections: users, sessions,
    conversations, messages, presence counts and both files are as before.
    In particular a connection pruned by a broadcast keeps its presence
    count until its own handler unregisters it. *)
Theorem broadcasts_keep_the_store :
  ∀ (tr : transport) (st : state) (target : string) (message : event)
    (exclude_websocket : option nat),
    same_store st
      (fst (broadcast_to_organization tr st target message exclude_websocket)) ∧
    same_store st
      (fst (broadcast_to_conversation tr st target message exclude_websocket)).
Proof.
  intros. split.
  - apply broadcast_to_organization_store.
  - apply broadcast_to_conversation_store.
Qed.

(** ** Registering and unregistering chat sockets *)

(** Projections of a state that was built by the setters. *)
Ltac state_simpl :=
  unfold set_presence_counters, set_active_chat_connections, set_sse_connections,
    set_sessions_db, set_conversations_db, set_conversation_messages_db,
    set_user_conversations_db, set_conversations_file,
    set_conversation_messages_file;
  cbn [users_db sessions_db conversations_db conversation_messages_db
       user_conversations_db active_chat_connections sse_connections
       presence_counters conversations_file conversation_messages_file].

Section socket_lifecycle.
Implicit Types (st : state) (tr : transport) (o : string) (ws : nat).

Lemma state_eta st :
  mk_state (users_db st) (sessions_db st) (conversations_db st)
    (conversation_messages_db st) (user_conversations_db st)
    (active_chat_connections st) (sse_connections st) (presence_counters st)
    (conversations_file st) (conversation_messages_file st) = st.
Proof. by destruct st. Qed.

Lemma add_chat_connection_tables st o ws (u : user) :
  fst (add_chat_connection st o ws u)
  = set_presence_counters
      (set_active_chat_connections st
         (<[o := default [] (active_chat_connections st !! o)
                 ++ [mk_connection_info ws (user_id u) (user_name u) (user_avatar u)]]>
            (active_chat_connections st)))
      (fst (_increment_presence (presence_counters st) o (user_id u))).
Proof.
  unfold add_chat_connection.
  change (presence_counters (set_active_chat_connections st _))
    with (presence_counters st).
  by destruct (_increment_presence _ _ _).
Qed.

Lemma add_chat_connection_returns st o ws (u : user) :
  snd (add_chat_connection st o ws u)
  = snd (_increment_presence (presence_counters st) o (user_id u)).
Proof.
  unfold add_chat_connection.
  change (presence_counters (set_active_chat_connections st _))
    with (presence_counters st).
  by destruct (_increment_presence _ _ _).
Qed.

Lemma filter_other_socket_all ws (conns : list connection_info) :
  ws ∉ (websocket <$> conns) → filter (λ conn, websocket conn ≠ ws) conns = conns.
Proof.
  induction conns as [|c conns IH]; [done|]. rewrite fmap_cons, not_elem_of_cons.
  intros [Hne Hin]. rewrite filter_cons_True by done. by rewrite IH.
Qed.

Lemma filter_other_socket_fmap ws (conns : list connection_info) :
  websocket <$> filter (λ conn, websocket conn ≠ ws) conns
  = filter (λ w, w ≠ ws) (websocket <$> conns).
Proof.
  induction conns as [|c conns IH]; [done|].
  rewrite fmap_cons, !filter_cons.
  destruct (decide (websocket c ≠ ws)); [rewrite fmap_cons|]; by rewrite IH.
Qed.

Lemma connect_disconnect_state st o ws (u : user) :
  connections_ok st → presence_ok (presence_counters st) → ws ∉ sockets_of st o →
  fst (remove_chat_connection (fst (add_chat_connection st o ws u)) o ws (user_id u))
  = st.
Proof.
  intros Hconn Hok Hws.
  rewrite remove_chat_connection_tables, add_chat_connection_tables.
  cbn [active_chat_connections presence_counters set_presence_counters
       set_active_chat_connections users_db sessions_db conversations_db
       conversation_messages_db user_conversations_db sse_connections
       conversations_file conversation_messages_file].
  rewrite lookup_insert_eq.
  rewrite increment_decrement_presence by done.
  rewrite filter_app, filter_cons_False, filter_nil, app_nil_r
    by (cbn [websocket]; tauto).
  unfold sockets_of in Hws. rewrite filter_other_socket_all by done.
  destruct (active_chat_connections st !! o) as [conns|] eqn:Ho;
    cbn [default from_option id].
  - destruct conns as [|c conns]; [by destruct (Hconn _ _ Ho)|].
    rewrite insert_insert_eq. rewrite (insert_id _ _ _ Ho).
    state_simpl. apply state_eta.
  - rewrite (delete_insert_id _ _ _ Ho). state_simpl. apply state_eta.
Qed.

Lemma remove_chat_connection_sockets st o ws uid :
  sockets_of (fst (remove_chat_connection st o ws uid)) o
  = filter (λ w, w ≠ ws) (sockets_of st o).
Proof.
  unfold sockets_of. rewrite remove_chat_connection_tables.
  destruct (active_chat_connections st !! o) as [conns|] eqn:Ho;
    cbn [default from_option id].
  - rewrite <- filter_other_socket_fmap.
    destruct (filter (λ conn, websocket conn ≠ ws) conns) as [|c rest];
      cbn [active_chat_connections set_presence_counters set_active_chat_connections].
    + by rewrite lookup_delete_eq.
    + by rewrite lookup_insert_eq.
  - cbn [active_chat_connections set_presence_counters]. by rewrite Ho.
Qed.

Lemma remove_chat_connection_other st o ws uid other :
  other ≠ o →
  active_chat_connections (fst (remove_chat_connection st o ws uid)) !! other
  = active_chat_connections st !! other.
Proof.
  intros Hne. rewrite remove_chat_connection_tables.
  destruct (active_chat_connections st !! o) as [conns|] eqn:Ho; [|done].
  cbn [active_chat_connections set_presence_counters set_active_chat_connections].
  destruct (filter _ conns);
    by rewrite ?lookup_delete_ne, ?lookup_insert_ne.
Qed.

End socket_lifecycle.

(** X7. A socket that is registered with [add_chat_connection] and then
    unregistered with [remove_chat_connection] leaves every table exactly as
    it was, provided the socket was not already registered for the
    organization; and the unregistration reports "went offline" exactly when
    the registration reported "first connection". *)
Theorem chat_connection_roundtrip :
  ∀ (st : state) (organization_id : string) (ws : nat) (user_data : user),
    connections_ok st → presence_ok (presence_counters st) →
    ws ∉ sockets_of st organization_id →
    let added := add_chat_connection st organization_id ws user_data in
    let removed :=
      remove_chat_connection (fst added) organization_id ws (user_id user_data) in
    fst removed = st ∧ snd removed = snd added.
Proof.
  intros st o ws u Hconn Hok Hws added removed. split.
  - by apply connect_disconnect_state.
  - subst removed added.
    rewrite remove_chat_connection_returns, add_chat_connection_returns.
    rewrite add_chat_connection_tables.
    cbn [presence_counters set_presence_counters].
    destruct (snd (_decrement_presence _ _ _)) eqn:Hd.
    + apply decrement_presence_returns in Hd.
      rewrite increment_presence_count in Hd.
      symmetry. apply increment_presence_returns. lia.
    + destruct (snd (_increment_presence _ _ _)) eqn:Hi; [|done].
      apply increment_presence_returns in Hi.
      assert (Ht : snd (_decrement_presence
                (fst (_increment_presence (presence_counters st) o (user_id u)))
                o (user_id u)) = true).
      { apply decrement_presence_returns. rewrite increment_presence_count. lia. }
      congruence.
Qed.

(** Bob's second socket, opened and closed beside three open sockets. *)
Lemma chat_connection_roundtrip_witness :
  fst (remove_chat_connection
         (fst (add_chat_connection three_connected "org1" 9 bob)) "org1" 9 "bob")
  = three_connected ∧
  snd (remove_chat_connection
         (fst (add_chat_connection three_connected "org1" 9 bob)) "org1" 9 "bob")
  = snd (add_chat_connection three_connected "org1" 9 bob).
Proof.
  refine (chat_connection_roundtrip three_connected "org1" 9%nat bob _ _ _).
  - intros o conns Ho.
    destruct (decide (o = "org1")) as [->|Hne].
    + vm_compute in Ho. by injection Ho as <-.
    + assert (Hnone : active_chat_connections three_connected !! o = None).
      { unfold three_connected. rewrite !add_chat_connection_tables.
        cbn [active_chat_connections set_presence_counters
             set_active_chat_connections].
        by rewrite !lookup_insert_ne, lookup_empty by done. }
      congruence.
  - assert (Hpc : presence_counters three_connected
        = presence_run [Increment "org1" "alice"; Increment "org1" "bob";
                        Increment "org1" "carol"]) by (vm_compute; reflexivity).
    rewrite Hpc. apply presence_ok_run.
  - vm_compute. intros H.
    repeat (apply elem_of_cons in H as [H|H]; [discriminate H|]).
    by apply elem_of_nil in H.
Defined.

(** X8. [remove_chat_connection] drops every entry of the socket from the
    list of its organization and nothing else: the other sockets of the
    organization stay in their order, the lists of other organizations are
    untouched, no empty list is left behind, and a second call with the same
    socket finds the connection table already settled. *)
Theorem remove_chat_connection_removes_socket :
  ∀ (st : state) (organization_id other : string) (ws : nat) (uid uid' : string),
    let st' := fst (remove_chat_connection st organization_id ws uid) in
    sockets_of st' organization_id
      = filter (λ w, w ≠ ws) (sockets_of st organization_id) ∧
    active_chat_connections st' !! organization_id ≠ Some [] ∧
    (other ≠ organization_id →
       active_chat_connections st' !! other = active_chat_connections st !! other) ∧
    active_chat_connections
      (fst (remove_chat_connection st' organization_id ws uid'))
    = active_chat_connections st'.
Proof.
  intros st o other ws uid uid' st'. subst st'. split_and!.
  - apply remove_chat_connection_sockets.
  - pose proof (remove_chat_connection_settled st o ws uid) as Hs.
    destruct (active_chat_connections _ !! o) as [conns|]; [|done].
    destruct Hs as [Hne _]. congruence.
  - apply remove_chat_connection_other.
  - rewrite remove_chat_connection_second.
    by destruct (fst (remove_chat_connection st o ws uid)).
Qed.

(** Alice's first socket removed; another organization looks on. *)
Lemma remove_chat_connection_removes_socket_witness :
  "org2" ≠ "org1" ∧
  active_chat_connections
    (fst (remove_chat_connection two_sockets "org1" 1 "alice")) !! "org2"
  = active_chat_connections two_sockets !! "org2".
Proof.
  split; [discriminate|].
  exact (proj1 (proj2 (proj2 (remove_chat_connection_removes_socket
    two_sockets "org1" "org2" 1%nat "alice" "alice"))) ltac:(discriminate)).
Defined.

(** ** Tokens *)

Section sessions.
Implicit Types (st : state) (tr : transport) (uid token : string).

Lemma user_has_active_session_spec st uid :
  user_has_active_session st uid = true ↔
  uid ≠ EmptyString ∧ ∃ token, sessions_db st !! token = Some uid.
Proof.
  unfold user_has_active_session. rewrite andb_true_iff, negb_true_iff.
  rewrite String.eqb_neq, existsb_exists. split.
  - intros [Hne ([token uid'] & Hin & Heq)]. split; [done|].
    apply String.eqb_eq in Heq. cbn [snd] in Heq. subst uid'.
    exists token. apply elem_of_map_to_list. by apply list_elem_of_In.
  - intros [Hne (token & Ht)]. split; [done|]. exists (token, uid). split.
    + apply list_elem_of_In. by apply elem_of_map_to_list.
    + apply String.eqb_refl.
Qed.

Lemma logout_sessions tr st (u : user) :
  sessions_db (fst (logout tr st u))
  = filter (λ entry, snd entry ≠ user_id u) (sessions_db st) ∧
  users_db (fst (logout tr st u)) = users_db st.
Proof.
  unfold logout. case_match; [|done].
  match goal with |- context [broadcast_to_organization tr ?s ?o ?e ?x] =>
    destruct (broadcast_to_organization_store tr s o e x) as (Hu & Hs & _) end.
  by rewrite Hu, Hs.
Qed.

End sessions.

(** X9. Tokens: a token made by [create_access_token] for a known user
    verifies to that user and leaves the other tokens as they were; [logout]
    revokes every token of the user at once, on whatever device it was made,
    so that the user has no active session left, and every token of another
    user verifies as before. *)
Theorem tokens_created_and_revoked :
  ∀ (tr : transport) (st : state) (token other uid : string) (current_user : user),
    (uid ≠ EmptyString →
       verify_access_token (create_access_token st token uid) token
       = od_get (users_db st) uid) ∧
    (other ≠ token →
       verify_access_token (create_access_token st token uid) other
       = verify_access_token st other) ∧
    (sessions_db st !! token = Some (user_id current_user) →
       verify_access_token (fst (logout tr st current_user)) token = None) ∧
    user_has_active_session (fst (logout tr st current_user)) (user_id current_user)
      = false ∧
    (sessions_db st !! token ≠ Some (user_id current_user) →
       verify_access_token (fst (logout tr st current_user)) token
       = verify_access_token st token).
Proof.
  intros tr st token other uid u.
  destruct (logout_sessions tr st u) as [Hs Hu]. split_and!.
  - intros Hne. unfold verify_access_token, create_access_token. state_simpl.
    rewrite lookup_insert_eq. apply String.eqb_neq in Hne. by rewrite Hne.
  - intros Hne. unfold verify_access_token, create_access_token. state_simpl.
    by rewrite lookup_insert_ne.
  - intros Ht. unfold verify_access_token. rewrite Hs.
    rewrite (proj2 (map_lookup_filter_None _ _ _)); [done|].
    right. intros x Hx. cbn [snd]. rewrite Ht in Hx. injection Hx as <-. tauto.
  - destruct (user_has_active_session _ _) eqn:Ha; [|done].
    apply user_has_active_session_spec in Ha as [_ (t & Ht)].
    rewrite Hs in Ht. apply map_lookup_filter_Some in Ht as [_ Ht]. by destruct Ht.
  - intros Ht. unfold verify_access_token. rewrite Hs, Hu.
    destruct (sessions_db st !! token) as [uid'|] eqn:Hl.
    + rewrite (map_lookup_filter_Some_2 _ _ _ _ Hl); [done|].
      cbn [snd]. congruence.
    + rewrite (proj2 (map_lookup_filter_None _ _ _)); [done|]. by left.
Qed.

(** Alice logs out of both her sessions; Bob's token stays good. *)
Lemma tokens_created_and_revoked_witness :
  verify_access_token (create_access_token three_connected "tok-a1" "alice") "tok-a1"
    = Some alice ∧
  verify_access_token (fst (logout healthy with_sessions alice)) "tok-a1" = None ∧
  verify_access_token (fst (logout healthy with_sessions alice)) "tok-a2" = None ∧
  verify_access_token (fst (logout healthy with_sessions alice)) "tok-b" = Some bob.
Proof.
  pose proof (tokens_created_and_revoked healthy three_connected
                "tok-a1" "tok-b" "alice" alice) as (H1 & _).
  pose proof (tokens_created_and_revoked healthy with_sessions
                "tok-a1" "tok-b" "alice" alice) as (_ & _ & H3 & _).
  pose proof (tokens_created_and_revoked healthy with_sessions
                "tok-a2" "tok-b" "alice" alice) as (_ & _ & H4 & _).
  pose proof (tokens_created_and_revoked healthy with_sessions
                "tok-b" "tok-a1" "alice" alice) as (_ & _ & _ & _ & H5).
  split; [exact (H1 ltac:(discriminate))|].
  split; [exact (H3 ltac:(vm_compute; reflexivity))|].
  split; [exact (H4 ltac:(vm_compute; reflexivity))|].
  rewrite (H5 ltac:(vm_compute; discriminate)). vm_compute. reflexivity.
Defined.

(** ** Opening a chat socket or an event stream *)

Section opening.
Implicit Types (st : state) (tr : transport).

Lemma sse_put_all_healthy tr m queues :
  (∀ q, put_nowait_ok tr q = true) → snd (sse_put_all tr m queues) = [].
Proof.
  intros Hok. induction queues as [|q queues IH]; [done|]. cbn [sse_put_all].
  destruct (sse_put_all tr m queues) as [sent stale]. cbn [snd] in IH. subst stale.
  by rewrite Hok.
Qed.

Lemma broadcast_to_sse_healthy tr st o m :
  (∀ q, put_nowait_ok tr q = true) → fst (broadcast_to_sse tr st o m) = st.
Proof.
  intros Hok. unfold broadcast_to_sse.
  destruct (sse_connections st !! o) as [queues|]; [|done].
  pose proof (sse_put_all_healthy tr m queues Hok) as Hs.
  destruct (sse_put_all tr m queues) as [sent stale]. cbn [snd] in Hs. by subst stale.
Qed.

Lemma broadcast_to_organization_streams tr st o m ex :
  (∀ q, put_nowait_ok tr q = true) →
  sse_connections (fst (broadcast_to_organization tr st o m ex)) = sse_connections st.
Proof.
  intros Hok. unfold broadcast_to_organization.
  destruct (active_chat_connections st !! o) as [conns|].
  - destruct (send_all tr m ex conns) as [sent dead].
    match goal with |- context [broadcast_to_sse tr ?s o m] =>
      pose proof (broadcast_to_sse_healthy tr s o m Hok) as Hq;
      destruct (broadcast_to_sse tr s o m) as [st2 queued] end.
    cbn [fst] in *. by subst st2.
  - pose proof (broadcast_to_sse_healthy tr st o m Hok) as Hq.
    destruct (broadcast_to_sse tr st o m) as [st2 queued]. cbn [fst] in *.
    by subst st2.
Qed.

Lemma list_remove_snoc {A} `{EqDecision A} (x : A) (l : list A) :
  x ∉ l → list_remove x (l ++ [x]) = l.
Proof.
  induction l as [|y l IH]; cbn [app list_remove].
  - intros _. by rewrite decide_True.
  - rewrite not_elem_of_cons. intros [Hne Hin].
    rewrite decide_False by done. by rewrite IH.
Qed.

End opening.

(** X10. When a chat socket connects, the "online" event is sent only if it
    is the first connection of the user (none is sent while the user's
    presence count is positive), and it is never written to the connecting
    socket itself. *)
Theorem websocket_online_event_excludes_self :
  ∀ (tr : transport) (st : state) (ws : nat) (user_data : user)
    (team_created team_updated : datetime) (e : event),
    let log :=
      snd (websocket_chat_on_connect tr st ws user_data team_created team_updated) in
    ((Socket ws, e) ∉ log) ∧
    (0 < presence_count (presence_counters st)
           (user_organization_id user_data) (user_id user_data) →
     log = []).
Proof.
  intros tr st ws u tc tu e log. subst log. unfold websocket_chat_on_connect.
  pose proof (add_chat_connection_returns st (user_organization_id u) ws u) as Hr.
  destruct (add_chat_connection st (user_organization_id u) ws u) as [st1 first].
  cbn [snd] in Hr. subst first.
  destruct (snd (_increment_presence _ _ _)) eqn:Hi.
  - split.
    + rewrite broadcast_to_organization_log. intros Hin.
      apply elem_of_app in Hin as [Hin|Hin].
      * apply list_elem_of_fmap in Hin as (c & [= Hws _] & Hc).
        apply list_elem_of_filter in Hc as [[Ha _] _].
        apply Ha. by rewrite Hws.
      * by apply list_elem_of_fmap in Hin as (q & [=] & _).
    + intros Hpos. apply increment_presence_returns in Hi. lia.
  - split; [apply not_elem_of_nil|done].
Qed.

(** Alice opens a second socket. *)
Lemma websocket_online_event_excludes_self_witness :
  0 < presence_count (presence_counters three_connected) "org1" "alice" ∧
  snd (websocket_chat_on_connect healthy three_connected 9 alice new_year new_year)
  = [].
Proof.
  assert (H : 0 < presence_count (presence_counters three_connected)
                    (user_organization_id alice) (user_id alice))
    by (vm_compute; reflexivity).
  split; [exact H|].
  exact (proj2 (websocket_online_event_excludes_self healthy three_connected 9%nat
                  alice new_year new_year hello_event) H).
Defined.

(** X11. An event stream that is opened and closed again leaves the table
    of stream queues and the presence counts exactly as they were (queues
    are unbounded, so putting never fails); and unlike a socket, a stream
    that is the first connection of its user finds its own "online" event on
    its queue. *)
Theorem chat_stream_roundtrip :
  ∀ (tr : transport) (st : state) (queue : nat) (user_data : user),
    (∀ q, put_nowait_ok tr q = true) →
    streams_ok st → presence_ok (presence_counters st) →
    queue ∉ default [] (sse_connections st !! user_organization_id user_data) →
    let opened := chat_stream_open tr st queue user_data in
    let closed := chat_stream_close tr (fst opened) queue user_data in
    sse_connections (fst closed) = sse_connections st ∧
    presence_counters (fst closed) = presence_counters st ∧
    (presence_count (presence_counters st)
       (user_organization_id user_data) (user_id user_data) = 0 →
     (Queue queue, user_status_change user_data true) ∈ snd opened).
Proof.
  intros tr st q u Hput Hstreams Hok Hq opened closed.
  set (o := user_organization_id u) in *.
  set (st1 := set_sse_connections st
         (<[o := default [] (sse_connections st !! o) ++ [q]]> (sse_connections st))).
  set (st2 := set_presence_counters st1
         (fst (_increment_presence (presence_counters st) o (user_id u)))).
  assert (Hopen_sse : sse_connections (fst opened) = sse_connections st1).
  { subst opened. unfold chat_stream_open. fold o. fold st1.
    change (presence_counters st1) with (presence_counters st).
    destruct (_increment_presence (presence_counters st) o (user_id u)) as [pc f].
    destruct f; [|done]. by rewrite broadcast_to_organization_streams. }
  assert (Hopen_pc : presence_counters (fst opened) = presence_counters st2).
  { subst opened. unfold chat_stream_open. fold o. fold st1.
    change (presence_counters st1) with (presence_counters st).
    subst st2. destruct (_increment_presence (presence_counters st) o (user_id u))
      as [pc f]. destruct f; [|done].
    match goal with |- context [broadcast_to_organization tr ?s ?o' ?e ?x] =>
      destruct (broadcast_to_organization_store tr s o' e x)
        as (_ & _ & _ & _ & _ & Hp & _) end.
    by rewrite Hp. }
  assert (Hclose : sse_connections (fst closed) = sse_connections st ∧
                   presence_counters (fst closed) = presence_counters st).
  { subst closed. unfold chat_stream_close. fold o.
    rewrite Hopen_sse. subst st1. state_simpl. rewrite lookup_insert_eq.
    rewrite bool_decide_eq_true_2 by (apply elem_of_app; right; apply list_elem_of_here).
    rewrite list_remove_snoc by done. state_simpl. rewrite Hopen_pc.
    subst st2. state_simpl.
    assert (Hsse : match default [] (sse_connections st !! o) with
              | [] => delete o (<[o := default [] (sse_connections st !! o) ++ [q]]>
                                  (sse_connections st))
              | queues' => <[o := queues']>
                             (<[o := default [] (sse_connections st !! o) ++ [q]]>
                                (sse_connections st))
              end = sse_connections st).
    { destruct (sse_connections st !! o) as [queues|] eqn:Ho;
        cbn [default from_option id].
      - destruct queues as [|q0 queues]; [by destruct (Hstreams _ _ Ho)|].
        rewrite insert_insert_eq. by apply insert_id.
      - by apply delete_insert_id. }
    rewrite Hsse.
    pose proof (increment_decrement_presence (presence_counters st) o (user_id u) Hok)
      as Hrt.
    destruct (_decrement_presence _ o (user_id u)) as [pc went] eqn:Hd.
    cbn [fst] in Hrt. subst pc.
    destruct (went && _).
    - match goal with |- context [broadcast_to_organization tr ?s ?o' ?e ?x] =>
        destruct (broadcast_to_organization_store tr s o' e x)
          as (_ & _ & _ & _ & _ & Hp & _);
        pose proof (broadcast_to_organization_streams tr s o' e x Hput) as Hs' end.
      by rewrite Hp, Hs'.
    - done. }
  destruct Hclose as [Hc1 Hc2]. split_and!; [done..|].
  intros Hz. subst opened. unfold chat_stream_open. fold o. fold st1.
  change (presence_counters st1) with (presence_counters st).
  apply increment_presence_returns in Hz.
  destruct (_increment_presence (presence_counters st) o (user_id u)) as [pc f].
  cbn [snd] in Hz. subst f.
  rewrite broadcast_to_organization_log. apply elem_of_app. right.
  apply list_elem_of_fmap. exists q. split; [done|].
  apply list_elem_of_filter. split; [apply Hput|].
  subst st1. state_simpl. rewrite lookup_insert_eq. cbn [default from_option id].
  apply elem_of_app. right. apply list_elem_of_here.
Qed.

(** Bob, who has a socket open, opens a stream beside it. *)
Lemma chat_stream_roundtrip_witness :
  sse_connections
    (fst (chat_stream_close healthy
            (fst (chat_stream_open healthy three_connected 4 bob)) 4 bob))
  = sse_connections three_connected ∧
  presence_counters
    (fst (chat_stream_close healthy
            (fst (chat_stream_open healthy three_connected 4 bob)) 4 bob))
  = presence_counters three_connected.
Proof.
  assert (Hput : ∀ q, put_nowait_ok healthy q = true) by done.
  assert (Hsse : sse_connections three_connected = ∅) by (vm_compute; reflexivity).
  assert (Hstreams : streams_ok three_connected).
  { intros o queues Ho. rewrite Hsse in Ho. by rewrite lookup_empty in Ho. }
  assert (Hok : presence_ok (presence_counters three_connected)).
  { assert (Hpc : presence_counters three_connected
        = presence_run [Increment "org1" "alice"; Increment "org1" "bob";
                        Increment "org1" "carol"]) by (vm_compute; reflexivity).
    rewrite Hpc. apply presence_ok_run. }
  assert (Hq : 4%nat ∉ default [] (sse_connections three_connected
                                     !! user_organization_id bob)).
  { rewrite Hsse, lookup_empty. apply not_elem_of_nil. }
  destruct (chat_stream_roundtrip healthy three_connected 4%nat bob
              Hput Hstreams Hok Hq) as (H1 & H2 & _).
  exact (conj H1 H2).
Defined.

(** ** The connection manager of [websocket_manager.py] *)

Section manager.
Import ConnectionManager.
Implicit Types (self : t) (tr : transport) (m : event).

Lemma send_to_participants_sent tr self m ex ps d :
  d ∈ fst (send_to_participants tr self m ex ps) ↔
  ∃ u ws, d = (Socket ws, m) ∧ u ∈ ps ∧ Some u ≠ ex ∧
          active_connections self !! u = Some ws ∧ send_text_ok tr ws = true.
Proof.
  induction ps as [|p ps IH]; cbn [send_to_participants].
  - cbn [fst]. split; [intros H; by apply elem_of_nil in H|].
    intros (u & ws & _ & H & _). by apply elem_of_nil in H.
  - destruct (send_to_participants tr self m ex ps) as [sent gone]. cbn [fst] in IH.
    case_bool_decide as Hex; cbn [fst].
    + rewrite IH. split.
      * intros (u & ws & ? & ? & ?). exists u, ws. rewrite elem_of_cons. tauto.
      * intros (u & ws & ? & Hu & Hne & ?). exists u, ws.
        apply elem_of_cons in Hu as [->|Hu]; [done|tauto].
    + destruct (active_connections self !! p) as [ws0|] eqn:Hp.
      * destruct (send_text_ok tr ws0) eqn:Hok; cbn [fst].
        -- rewrite elem_of_cons, IH. split.
           ++ intros [->|(u & ws & ? & ? & ?)].
              ** exists p, ws0. rewrite elem_of_cons. tauto.
              ** exists u, ws. rewrite elem_of_cons. tauto.
           ++ intros (u & ws & -> & Hu & Hne & Hc & Hs).
              apply elem_of_cons in Hu as [->|Hu].
              ** left. congruence.
              ** right. by exists u, ws.
        -- rewrite IH. split.
           ++ intros (u & ws & ? & ? & ?). exists u, ws. rewrite elem_of_cons. tauto.
           ++ intros (u & ws & ? & Hu & Hne & Hc & Hs). exists u, ws.
              apply elem_of_cons in Hu as [->|Hu]; [congruence|tauto].
      * rewrite IH. split.
        -- intros (u & ws & ? & ? & ?). exists u, ws. rewrite elem_of_cons. tauto.
        -- intros (u & ws & ? & Hu & Hne & Hc & Hs). exists u, ws.
           apply elem_of_cons in Hu as [->|Hu]; [congruence|tauto].
Qed.

Lemma send_to_participants_gone tr self m ex ps u :
  u ∈ snd (send_to_participants tr self m ex ps) ↔
  u ∈ ps ∧ Some u ≠ ex ∧
  ∃ ws, active_connections self !! u = Some ws ∧ send_text_ok tr ws = false.
Proof.
  induction ps as [|p ps IH]; cbn [send_to_participants].
  - cbn [snd]. split; [intros H; by apply elem_of_nil in H|].
    intros [H _]. by apply elem_of_nil in H.
  - destruct (send_to_participants tr self m ex ps) as [sent gone]. cbn [snd] in IH.
    case_bool_decide as Hex; cbn [snd].
    + rewrite IH, elem_of_cons. split; [tauto|].
      intros ([->|Hu] & Hne & ?); [done|tauto].
    + destruct (active_connections self !! p) as [ws0|] eqn:Hp.
      * destruct (send_text_ok tr ws0) eqn:Hok; cbn [snd].
        -- rewrite IH, elem_of_cons. split; [tauto|].
           intros ([->|Hu] & Hne & (ws & Hc & Hs)); [congruence|].
           split_and!; [done..|]. by exists ws.
        -- rewrite !elem_of_cons, IH. split.
           ++ intros [->|?]; [|tauto]. split_and!; [by left|done|]. by exists ws0.
           ++ intros ([->|Hu] & Hne & ?); [by left|right; tauto].
      * rewrite IH, elem_of_cons. split; [tauto|].
        intros ([->|Hu] & Hne & (ws & Hc & Hs)); [congruence|].
        split_and!; [done..|]. by exists ws.
Qed.

Lemma disconnect_all_connections self (us : list string) u :
  active_connections (foldl (λ s v, fst (disconnect s v)) self us) !! u
  = if bool_decide (u ∈ us) then None else active_connections self !! u.
Proof.
  revert self. induction us as [|v us IH]; intros self; cbn [foldl].
  - rewrite bool_decide_eq_false_2 by apply not_elem_of_nil. done.
  - rewrite IH. unfold disconnect. cbn [fst active_connections].
    destruct (decide (u = v)) as [->|Hne].
    + rewrite lookup_delete_eq.
      rewrite (bool_decide_eq_true_2 (v ∈ v :: us)) by apply list_elem_of_here.
      by case_bool_decide.
    + rewrite lookup_delete_ne by done.
      case_bool_decide as Hin.
      * rewrite bool_decide_eq_true_2; [done|]. by apply list_elem_of_further.
      * rewrite bool_decide_eq_false_2; [done|].
        rewrite not_elem_of_cons. by split.
Qed.

Lemma disconnect_offline self u : is_user_online (fst (disconnect self u)) u = false.
Proof.
  unfold is_user_online, disconnect. cbn [fst active_connections].
  rewrite lookup_delete_eq. apply bool_decide_eq_false_2. by intros [? ?].
Qed.

Lemma elem_of_get_typing_users self c u :
  u ∈ get_typing_users self c ↔ u ∈ default ∅ (typing_users self !! c).
Proof. unfold get_typing_users. apply elem_of_elements. Qed.

End manager.

(** X12. [ConnectionManager.disconnect] forgets the user: afterwards the
    user is not online and has no organization on record, every other user
    is connected as before, the organization the user had is returned (when
    it was known and not empty), and a second [disconnect] of the same user
    changes nothing and returns [None]. *)
Theorem manager_disconnect_forgets_user :
  ∀ (self : ConnectionManager.t) (user_id other organization_id : string),
    let after := fst (ConnectionManager.disconnect self user_id) in
    ConnectionManager.is_user_online after user_id = false ∧
    (user_id ∉ ConnectionManager.get_online_users after organization_id) ∧
    (other ≠ user_id →
       ConnectionManager.active_connections after !! other
       = ConnectionManager.active_connections self !! other) ∧
    (ConnectionManager.user_organizations self !! user_id = Some organization_id →
     organization_id ≠ EmptyString →
       snd (ConnectionManager.disconnect self user_id) = Some organization_id) ∧
    ConnectionManager.disconnect after user_id = (after, None).
Proof.
  intros self u other o after. subst after. split_and!.
  - apply disconnect_offline.
  - unfold ConnectionManager.get_online_users, ConnectionManager.disconnect.
    cbn [fst ConnectionManager.user_organizations]. intros Hin.
    apply list_elem_of_fmap in Hin as ([u' o'] & -> & Hin).
    apply list_elem_of_filter in Hin as [_ Hin].
    apply elem_of_map_to_list in Hin. cbn [fst] in Hin.
    by rewrite lookup_delete_eq in Hin.
  - intros Hne. unfold ConnectionManager.disconnect.
    cbn [fst ConnectionManager.active_connections]. by apply lookup_delete_ne.
  - intros Ho Hne. unfold ConnectionManager.disconnect. cbn [snd]. rewrite Ho.
    apply String.eqb_neq in Hne. by rewrite Hne.
  - apply disconnect_idempotent.
Qed.

(** Alice, of org1, is disconnected; Bob stays. *)
Lemma manager_disconnect_forgets_user_witness :
  ConnectionManager.active_connections
    (fst (ConnectionManager.disconnect typing_manager "alice")) !! "bob"
  = ConnectionManager.active_connections typing_manager !! "bob" ∧
  snd (ConnectionManager.disconnect typing_manager "alice") = Some "org1".
Proof.
  pose proof (manager_disconnect_forgets_user typing_manager "alice" "bob" "org1")
    as (_ & _ & H3 & H4 & _).
  split.
  - exact (H3 ltac:(discriminate)).
  - exact (H4 ltac:(vm_compute; reflexivity) ltac:(discriminate)).
Defined.

(** X13. [ConnectionManager.broadcast_to_conversation] writes the message
    to the sockets of the listed participants and to no one else: a socket
    receives it exactly when it is the socket of a listed user other than the
    excluded one and the write succeeds. The users whose write failed are
    disconnected afterwards, and nobody else is. *)
Theorem manager_broadcast_reaches_only_participants :
  ∀ (tr : transport) (self : ConnectionManager.t) (participants : list string)
    (message : event) (exclude_user : option string) (d : delivery) (u : string),
    let result :=
      ConnectionManager.broadcast_to_conversation tr self participants message
        exclude_user in
    (d ∈ snd result ↔
     ∃ p ws, d = (Socket ws, message) ∧ p ∈ participants ∧ Some p ≠ exclude_user ∧
             ConnectionManager.active_connections self !! p = Some ws ∧
             send_text_ok tr ws = true) ∧
    ∀ ws, ConnectionManager.active_connections (fst result) !! u = Some ws ↔
          ConnectionManager.active_connections self !! u = Some ws ∧
          ¬ (u ∈ participants ∧ Some u ≠ exclude_user ∧ send_text_ok tr ws = false).
Proof.
  intros tr self ps m ex d u result. subst result.
  unfold ConnectionManager.broadcast_to_conversation.
  pose proof (send_to_participants_sent tr self m ex ps d) as Hsent.
  pose proof (send_to_participants_gone tr self m ex ps u) as Hgone.
  destruct (ConnectionManager.send_to_participants tr self m ex ps) as [sent gone].
  cbn [fst snd] in *. split; [done|].
  intros ws. rewrite disconnect_all_connections. case_bool_decide as Hin.
  - apply Hgone in Hin as (Hu & Hne & ws' & Hc & Hs). split; [done|].
    intros [Hc' Hn]. destruct Hn. split_and!; [done..|]. congruence.
  - split; [|tauto]. intros Hc. split; [done|]. intros (Hu & Hne & Hs).
    apply Hin, Hgone. split_and!; [done..|]. by exists ws.
Qed.

(** X14. Typing status: after [set_typing_status] the user is listed by
    [get_typing_users] for that conversation exactly when the flag was true;
    the other users of the conversation, and every other conversation, are
    listed as before, and the connections are untouched. *)
Theorem manager_typing_status_roundtrip :
  ∀ (self : ConnectionManager.t) (conversation_id user_id : string)
    (is_typing : bool) (other_conversation other_user : string),
    let after :=
      ConnectionManager.set_typing_status self conversation_id user_id is_typing in
    (user_id ∈ ConnectionManager.get_typing_users after conversation_id ↔
     is_typing = true) ∧
    (other_user ≠ user_id →
       (other_user ∈ ConnectionManager.get_typing_users after conversation_id ↔
        other_user ∈ ConnectionManager.get_typing_users self conversation_id)) ∧
    (other_conversation ≠ conversation_id →
       ConnectionManager.get_typing_users after other_conversation
       = ConnectionManager.get_typing_users self other_conversation) ∧
    ConnectionManager.active_connections after
    = ConnectionManager.active_connections self.
Proof.
  intros self c u b c' u' after. subst after. split_and!.
  - rewrite elem_of_get_typing_users. unfold ConnectionManager.set_typing_status.
    cbn [ConnectionManager.typing_users]. rewrite lookup_insert_eq.
    cbn [default from_option id]. destruct b.
    + rewrite elem_of_union, elem_of_singleton. tauto.
    + rewrite elem_of_difference, elem_of_singleton. split; [tauto|done].
  - intros Hne. rewrite !elem_of_get_typing_users.
    unfold ConnectionManager.set_typing_status.
    cbn [ConnectionManager.typing_users]. rewrite lookup_insert_eq.
    cbn [default from_option id]. destruct b.
    + rewrite elem_of_union, elem_of_singleton. tauto.
    + rewrite elem_of_difference, elem_of_singleton. tauto.
  - intros Hne. unfold ConnectionManager.get_typing_users,
      ConnectionManager.set_typing_status.
    cbn [ConnectionManager.typing_users]. by rewrite lookup_insert_ne.
  - done.
Qed.

(** Bob starts typing where Alice already is. *)
Lemma manager_typing_status_roundtrip_witness :
  ("alice" ∈ ConnectionManager.get_typing_users
     (ConnectionManager.set_typing_status typing_manager "dm-ab" "bob" true) "dm-ab" ↔
   "alice" ∈ ConnectionManager.get_typing_users typing_manager "dm-ab") ∧
  ConnectionManager.get_typing_users
    (ConnectionManager.set_typing_status typing_manager "dm-ab" "bob" true)
    "team-chat-org1"
  = ConnectionManager.get_typing_users typing_manager "team-chat-org1".
Proof.
  pose proof (manager_typing_status_roundtrip typing_manager "dm-ab" "bob" true
                "team-chat-org1" "alice") as (_ & H2 & H3 & _).
  split.
  - exact (H2 ltac:(discriminate)).
  - exact (H3 ltac:(discriminate)).
Defined.

(** X15. [send_personal_message] answers [True] exactly when the user has a
    connection and the write succeeds, and then delivers the message once and
    changes nothing; a user without connection gets nothing and nothing
    changes; a write that fails disconnects the user. *)
Theorem manager_send_personal_message :
  ∀ (tr : transport) (self : ConnectionManager.t) (user_id : string)
    (message : event),
    let '(after, sent, log) :=
      ConnectionManager.send_personal_message tr self user_id message in
    (sent = true ↔
     ∃ ws, ConnectionManager.active_connections self !! user_id = Some ws ∧
           send_text_ok tr ws = true) ∧
    (sent = true → after = self ∧ ∃ ws, log = [(Socket ws, message)]) ∧
    (sent = false → log = [] ∧ ConnectionManager.is_user_online after user_id = false) ∧
    (ConnectionManager.active_connections self !! user_id = None → after = self).
Proof.
  intros tr self u m. unfold ConnectionManager.send_personal_message.
  destruct (ConnectionManager.active_connections self !! u) as [ws|] eqn:Hu.
  - destruct (send_text_ok tr ws) eqn:Hok.
    + split_and!; [|by eauto|done|done]. split; [by eauto|done].
    + split_and!; [|done| |done].
      * split; [done|]. intros (ws' & [= <-] & ?). congruence.
      * intros _. split; [done|].
        apply disconnect_offline.
  - split_and!; [|done| |done].
    + split; [done|]. by intros (ws' & ? & ?).
    + intros _. split; [done|].
      unfold ConnectionManager.is_user_online. rewrite Hu.
      apply bool_decide_eq_false_2. by intros [? ?].
Qed.

(** A message for Bob over a good line. *)
Lemma manager_send_personal_message_witness :
  ConnectionManager.send_personal_message healthy typing_manager "bob" hello_event
  = (typing_manager, true, [(Socket 2, hello_event)]).
Proof.
  pose proof (manager_send_personal_message healthy typing_manager "bob" hello_event)
    as H.
  destruct (ConnectionManager.send_personal_message healthy typing_manager "bob"
              hello_event) as [[after sent] log] eqn:Hs.
  destruct H as (H1 & H2 & _).
  assert (Hsent : sent = true).
  { apply H1. exists 2%nat. split; [vm_compute|]; reflexivity. }
  destruct (H2 Hsent) as [-> [ws ->]]. subst sent.
  vm_compute in Hs. injection Hs as <-. reflexivity.
Defined.


Lemma disconnect_all_organizations (self : ConnectionManager.t) (us : list string)
    (u : string) :
  u ∉ us →
  ConnectionManager.user_organizations
    (foldl (λ s v, fst (ConnectionManager.disconnect s v)) self us) !! u
  = ConnectionManager.user_organizations self !! u.
Proof.
  revert self. induction us as [|v us IH]; intros self Hu; cbn [foldl]; [done|].
  apply not_elem_of_cons in Hu as [Hne Hu]. rewrite IH by done.
  unfold ConnectionManager.disconnect.
  cbn [fst ConnectionManager.user_organizations]. by apply lookup_delete_ne.
Qed.

(** X16. [ConnectionManager.connect] registers the socket under the user,
    replacing whatever the user had: afterwards the user is online with this
    socket and this organization, and stays so even when the announcement
    fails for others. The [user_online] announcement goes only to sockets
    of other connected users of the same organization. *)
Theorem manager_connect_registers_user :
  ∀ (tr : transport) (self : ConnectionManager.t) (ws : nat)
    (user_id organization_id timestamp : string) (w : nat) (e : event),
    let result :=
      ConnectionManager.connect tr self ws user_id organization_id timestamp in
    ConnectionManager.active_connections (fst result) !! user_id = Some ws ∧
    ConnectionManager.user_organizations (fst result) !! user_id
    = Some organization_id ∧
    ConnectionManager.is_user_online (fst result) user_id = true ∧
    ((Socket w, e) ∈ snd result →
       py_get (ev_fields e) "user_id" = PStr user_id ∧
       ∃ other, other ≠ user_id ∧
                ConnectionManager.active_connections self !! other = Some w ∧
                ConnectionManager.user_organizations self !! other
                = Some organization_id).
Proof.
  intros tr self ws u o ts w e result. subst result.
  unfold ConnectionManager.connect, ConnectionManager.broadcast_to_organization,
    ConnectionManager.broadcast_to_conversation.
  cbn [ConnectionManager.active_connections ConnectionManager.user_organizations].
  set (self1 := ConnectionManager.mk _ _ _).
  set (members := fst <$> filter _ _).
  set (msg := mk_event _ _).
  pose proof (send_to_participants_sent tr self1 msg (Some u) members (Socket w, e))
    as Hsent.
  pose proof (send_to_participants_gone tr self1 msg (Some u) members u) as Hgone.
  destruct (ConnectionManager.send_to_participants tr self1 msg (Some u) members)
    as [sent gone].
  cbn [fst snd] in *.
  assert (Hu : u ∉ gone) by (intros Hin; apply Hgone in Hin; tauto).
  assert (Hconn :
    ConnectionManager.active_connections
      (foldl (λ s v, fst (ConnectionManager.disconnect s v)) self1 gone) !! u
    = Some ws).
  { rewrite disconnect_all_connections, bool_decide_eq_false_2 by done.
    subst self1. cbn [ConnectionManager.active_connections].
    apply lookup_insert_eq. }
  split_and!.
  - done.
  - rewrite disconnect_all_organizations by done.
    subst self1. cbn [ConnectionManager.user_organizations].
    apply lookup_insert_eq.
  - unfold ConnectionManager.is_user_online. rewrite Hconn.
    by apply bool_decide_eq_true_2.
  - intros Hin. apply Hsent in Hin as (v & w' & [= <- ->] & Hv & Hne & Hc & _).
    split; [subst msg; cbn [ev_fields]; unfold py_get; by simplify_map_eq|].
    assert (v ≠ u) by congruence.
    exists v. split; [done|].
    subst members. apply list_elem_of_fmap in Hv as ([v' w'] & -> & Hv).
    apply list_elem_of_filter in Hv as [Ho Hv]. cbn [fst] in *.
    subst self1. cbn [ConnectionManager.active_connections
      ConnectionManager.user_organizations] in *.
    rewrite lookup_insert_ne in Hc by done.
    rewrite lookup_insert_ne in Ho by done. done.
Qed.

(** Carol joins the organization of Alice and Bob: Bob's socket hears of
    it. *)
Lemma manager_connect_registers_user_witness :
  py_get (ev_fields (mk_event {[ "type" := PStr "user_online";
                                 "user_id" := PStr "carol";
                                 "timestamp" := PStr "t" ]} None)) "user_id"
  = PStr "carol" ∧
  ∃ other, other ≠ "carol" ∧
           ConnectionManager.active_connections typing_manager !! other = Some 2%nat ∧
           ConnectionManager.user_organizations typing_manager !! other = Some "org1".
Proof.
  refine (proj2 (proj2 (proj2
    (manager_connect_registers_user healthy typing_manager 3%nat "carol" "org1" "t"
       2%nat (mk_event {[ "type" := PStr "user_online"; "user_id" := PStr "carol";
                          "timestamp" := PStr "t" ]} None)))) _).
  vm_compute. apply list_elem_of_In. vm_compute. tauto.
Defined.


(** ** What the normalisation changes *)

Section normalisation_order.
Implicit Types (m : dict) (k : string) (v : pyval).

Lemma field_rank_none m k : is_none (py_get m k) = true → field_rank (m !! k) = 0%nat.
Proof. unfold py_get. by destruct (m !! k) as [[]|]. Qed.

Lemma field_rank_absent m k : has_key m k = false → field_rank (m !! k) = 0%nat.
Proof.
  unfold has_key. intros H. apply bool_decide_eq_false_1 in H.
  destruct (m !! k) eqn:E; [destruct H; by eexists|done].
Qed.

Lemma field_rank_false m k :
  truthy (py_get m k) = false → (field_rank (m !! k) ≤ 1)%nat.
Proof.
  unfold py_get. destruct (m !! k) as [[]|]; cbn [default from_option id field_rank];
    intros H; try rewrite H; try lia. discriminate.
Qed.

Lemma field_rank_datetime m k d :
  py_get m k = PDatetime d → field_rank (m !! k) = 2%nat.
Proof. unfold py_get. destruct (m !! k) as [[]|]; try done. Qed.

Lemma field_rank_some v : is_none v = false → (0 < field_rank (Some v))%nat.
Proof. destruct v; cbn; try done; try case_match; lia. Qed.

Lemma field_rank_true v :
  truthy v = true → (2 ≤ field_rank (Some v))%nat.
Proof. destruct v; cbn [field_rank]; intros H; try rewrite H; try lia. discriminate. Qed.

Lemma field_rank_str (s : string) :
  truthy (PStr s) = true → field_rank (Some (PStr s)) = 3%nat.
Proof. cbn [field_rank]. by intros ->. Qed.

Lemma fills_in_refl m : fills_in m m.
Proof. intros k. by left. Qed.

Lemma fills_in_trans m1 m2 m3 : fills_in m1 m2 → fills_in m2 m3 → fills_in m1 m3.
Proof.
  intros H12 H23 k. destruct (H12 k) as [E|L], (H23 k) as [E'|L'].
  - left. congruence.
  - right. by rewrite E.
  - right. by rewrite <- E'.
  - right. lia.
Qed.

Lemma fills_in_insert m k v :
  (field_rank (m !! k) < field_rank (Some v))%nat → fills_in m (<[k := v]> m).
Proof.
  intros H k'. destruct (decide (k' = k)) as [->|Hne].
  - right. by rewrite lookup_insert_eq.
  - left. by rewrite lookup_insert_ne.
Qed.

Lemma step_fills_in_insert m k v :
  (field_rank (m !! k) < field_rank (Some v))%nat →
  fills_in m (<[k := v]> m) ∧
  (true = true → ∃ k', (field_rank (m !! k') < field_rank (<[k := v]> m !! k'))%nat) ∧
  (true = false → <[k := v]> m = m).
Proof.
  intros H. split_and!; [by apply fills_in_insert| |done].
  intros _. exists k. by rewrite lookup_insert_eq.
Qed.

Lemma step_fills_in_skip m :
  fills_in m m ∧
  (false = true → ∃ k', (field_rank (m !! k') < field_rank (m !! k'))%nat) ∧
  (false = false → m = m).
Proof. split_and!; [apply fills_in_refl|done|done]. Qed.

Lemma and_then_fills_in (f g : norm_step) :
  step_fills_in f → step_fills_in g → step_fills_in (and_then f g).
Proof.
  intros Hf Hg m. unfold and_then.
  destruct (Hf m) as (F1 & F2 & F3). destruct (f m) as [m1 u1]. cbn [fst snd] in *.
  destruct (Hg m1) as (G1 & G2 & G3). destruct (g m1) as [m2 u2]. cbn [fst snd] in *.
  split_and!.
  - by eapply fills_in_trans.
  - intros Hu. destruct u1.
    + destruct (F2 eq_refl) as [k Hk]. exists k.
      destruct (G1 k) as [E|L]; [by rewrite <- E|lia].
    + cbn in Hu. subst u2. rewrite (F3 eq_refl) in *. by apply G2.
  - intros Hu. apply orb_false_iff in Hu as [-> ->].
    rewrite G3, F3; done.
Qed.

Lemma norm_alias_fills_in a b : step_fills_in (norm_alias a b).
Proof.
  intros m. unfold norm_alias.
  destruct (is_none (py_get m a)) eqn:Ha, (is_none (py_get m b)) eqn:Hb;
    cbn [andb negb fst snd]; try apply step_fills_in_skip.
  - apply step_fills_in_insert. rewrite (field_rank_none m a) by done.
    by apply field_rank_some.
  - apply step_fills_in_insert. rewrite (field_rank_none m b) by done.
    by apply field_rank_some.
Qed.

Lemma norm_aliases_fills_in : step_fills_in norm_aliases.
Proof.
  unfold norm_aliases, alias_keys. cbn [foldr fst snd].
  repeat apply and_then_fills_in; try apply norm_alias_fills_in.
  intros m. apply step_fills_in_skip.
Qed.

Lemma norm_message_type_fills_in : step_fills_in norm_message_type.
Proof.
  intros m. unfold norm_message_type.
  destruct (truthy (py_get m "message_type")) eqn:Hmt; cbn [negb].
  - (* the message type is there *)
    destruct (truthy (py_get m "type")) eqn:Ht; cbn [negb fst snd].
    + apply step_fills_in_skip.
    + apply step_fills_in_insert.
      rewrite field_rank_str by by apply truthy_py_str.
      pose proof (field_rank_false m "type" Ht). lia.
  - (* the message type is set first *)
    set (mt := if truthy (py_get m "type") && _ then _ else _).
    assert (Hmt' : truthy (PStr mt) = true).
    { subst mt. destruct (truthy (py_get m "type")) eqn:Ht; cbn [andb]; [|done].
      case_match; [by apply truthy_py_str|done]. }
    assert (H1 : (field_rank (m !! "message_type")
                  < field_rank (Some (PStr mt)))%nat).
    { rewrite field_rank_str by done.
      pose proof (field_rank_false m "message_type" Hmt). lia. }
    rewrite py_get_insert_ne by discriminate.
    destruct (truthy (py_get m "type")) eqn:Ht; cbn [negb fst snd].
    + by apply step_fills_in_insert.
    + split_and!; [| |done].
      * eapply fills_in_trans; [by apply fills_in_insert|].
        apply fills_in_insert. rewrite lookup_insert_ne by discriminate.
        rewrite field_rank_str by done.
        pose proof (field_rank_false m "type" Ht). lia.
      * intros _. exists "message_type".
        rewrite lookup_insert_ne by discriminate. by rewrite lookup_insert_eq.
Qed.

Lemma norm_edited_fills_in : step_fills_in norm_edited.
Proof.
  intros m. unfold norm_edited.
  destruct (has_key m "edited") eqn:He; cbn [negb andb fst snd].
  - apply step_fills_in_skip.
  - destruct (has_key m "is_edited"); cbn [fst snd];
      apply step_fills_in_insert; rewrite field_rank_absent by done;
      by apply field_rank_some.
Qed.

Lemma norm_reply_to_fills_in : step_fills_in norm_reply_to.
Proof.
  intros m. unfold norm_reply_to.
  destruct (has_key m "reply_to") eqn:He; cbn [negb andb fst snd].
  - apply step_fills_in_skip.
  - destruct (truthy (py_get m "parent_message_id")) eqn:Hp; cbn [fst snd].
    + apply step_fills_in_insert. rewrite field_rank_absent by done.
      pose proof (field_rank_true _ Hp). lia.
    + apply step_fills_in_skip.
Qed.

Lemma norm_created_at_fills_in now : step_fills_in (norm_created_at now).
Proof.
  intros m. unfold norm_created_at.
  destruct (py_get m "created_at") as [|b|z|s|d] eqn:Hc.
  1-4: destruct (truthy _) eqn:Ht; cbn [negb fst snd];
    [apply step_fills_in_skip|apply step_fills_in_insert;
      rewrite field_rank_str by apply truthy_isoformat;
      rewrite <- Hc in Ht; pose proof (field_rank_false m "created_at" Ht); lia].
  cbn [fst snd]. apply step_fills_in_insert.
  rewrite (field_rank_datetime m _ d Hc).
  rewrite field_rank_str by apply truthy_isoformat. lia.
Qed.

Lemma norm_updated_at_fills_in : step_fills_in norm_updated_at.
Proof.
  intros m. unfold norm_updated_at.
  destruct (py_get m "updated_at") as [|b|z|s|d] eqn:Hc; cbn [fst snd];
    try apply step_fills_in_skip.
  apply step_fills_in_insert.
  rewrite (field_rank_datetime m _ d Hc).
  rewrite field_rank_str by apply truthy_isoformat. lia.
Qed.

Lemma normalize_fills_in now : step_fills_in (normalize_message_record now).
Proof.
  unfold normalize_message_record.
  apply and_then_fills_in; [apply norm_aliases_fills_in|].
  apply and_then_fills_in; [apply norm_message_type_fills_in|].
  apply and_then_fills_in; [apply norm_edited_fills_in|].
  apply and_then_fills_in; [apply norm_reply_to_fills_in|].
  apply and_then_fills_in;
    [apply norm_created_at_fills_in|apply norm_updated_at_fills_in].
Qed.

End normalisation_order.

(** X17. [normalize_message_record] returns [True] exactly when it has
    modified the message, as its docstring says: a [False] answer means the
    dict is as it was, and a [True] answer means that some field differs. *)
Theorem normalize_message_record_reports_modification :
  ∀ (now : datetime) (message : dict),
    snd (normalize_message_record now message) = true ↔
    fst (normalize_message_record now message) ≠ message.
Proof.
  intros now m. destruct (normalize_fills_in now m) as (_ & H2 & H3).
  destruct (snd (normalize_message_record now m)).
  - split; [intros _|done]. destruct (H2 eq_refl) as [k Hk].
    intros E. rewrite E in Hk. lia.
  - split; [done|]. intros Hne. destruct Hne. by apply H3.
Qed.

(** X18. [normalize_message_record] only fills in: every key of the message
    is still there afterwards; a field whose value is true and is not a
    [datetime] (a non-empty string, a non-zero number, [True]) keeps its
    value; no key outside the twelve normalised ones is added or changed; and
    the record that results needs no further normalisation. *)
Theorem normalize_message_record_only_fills_in :
  ∀ (now : datetime) (message : dict) (k : string) (v : pyval),
    let result := fst (normalize_message_record now message) in
    (has_key message k = true → has_key result k = true) ∧
    (message !! k = Some v → truthy v = true → is_datetime v = false →
       result !! k = Some v) ∧
    (k ∉ normalized_keys → result !! k = message !! k) ∧
    normalize_message_record now result = (result, false).
Proof.
  intros now m k v result. subst result.
  destruct (normalize_fills_in now m) as (H1 & _). split_and!.
  - unfold has_key. intros H. apply bool_decide_eq_true_1 in H as [w Hw].
    apply bool_decide_eq_true_2.
    destruct (H1 k) as [E|L]; [rewrite <- E; by eexists|].
    destruct (fst (normalize_message_record now m) !! k); [by eexists|].
    cbn [field_rank] in L. lia.
  - intros Hk Ht Hd. destruct (H1 k) as [E|L]; [by rewrite <- E|].
    rewrite Hk in L.
    assert (field_rank (Some v) = 3%nat).
    { destruct v; cbn [field_rank]; cbn in Hd; try rewrite Ht; done. }
    assert (field_rank (fst (normalize_message_record now m) !! k) ≤ 3)%nat.
    { destruct (fst (normalize_message_record now m) !! k) as [[]|];
        cbn [field_rank]; try case_match; lia. }
    lia.
  - apply normalize_frame.
  - apply normalized_fixed, normalize_normalized.
Qed.

(** A legacy record: its id and content stay, and the author is still
    there. *)
Lemma normalize_message_record_only_fills_in_witness :
  has_key (fst (normalize_message_record new_year legacy_message)) "author_id" = true ∧
  fst (normalize_message_record new_year legacy_message) !! "author_id"
  = Some (PStr "bob") ∧
  fst (normalize_message_record new_year legacy_message) !! "content"
  = legacy_message !! "content".
Proof.
  pose proof (normalize_message_record_only_fills_in new_year legacy_message
                "author_id" (PStr "bob")) as (H1 & H2 & _).
  pose proof (normalize_message_record_only_fills_in new_year legacy_message
                "content" (PStr "hi")) as (_ & _ & H3 & _).
  split_and!.
  - apply H1. vm_compute. reflexivity.
  - apply H2; vm_compute; reflexivity.
  - apply H3. unfold normalized_keys.
    repeat (apply not_elem_of_cons; split; [discriminate|]). apply not_elem_of_nil.
Defined.


(** ** Results of handlers, by components *)

Lemma triple_eta {A B C} (p : A * B * C) (a : A) :
  fst (fst p) = a → p = (a, snd (fst p), snd p).
Proof. destruct p as [[? ?] ?]. by intros <-. Qed.

Lemma pair_eta {A B} (p : A * B) (a : A) : fst p = a → p = (a, snd p).
Proof. destruct p. by intros <-. Qed.

(** ** Deleting a message, seen from the handlers *)



Lemma py_eq_PStr v s : py_eq v (PStr s) = true ↔ v = PStr s.
Proof.
  destruct v as [|b|z|s'|d]; cbn [py_eq]; try (split; [done|discriminate]).
  rewrite String.eqb_eq. split; [by intros ->|by intros [= ->]].
Qed.





(** X20. [delete_message] is all or nothing, and only for those entitled:
    when it is refused (404, 403 or 500) the state is exactly as before and
    no event is sent; when it succeeds, the message existed, the caller is
    a participant of the conversation the message belongs to, and is the
    author of the message or has the role admin or manager. A message id
    that is not in the table is answered with 404. *)
Theorem delete_message_all_or_nothing :
  ∀ (tr : transport) (st st' : state) (message_id : string) (current_user : user)
    (log : list delivery) (result : outcome unit),
    delete_message tr st message_id current_user = (result, st', log) →
    match result with
    | Err status_code =>
        st' = st ∧ log = [] ∧
        (status_code = 404 ∨ status_code = 403 ∨ status_code = 500)%nat
    | Ok _ =>
        ∃ message conversation_id conversation,
          od_get (conversation_messages_db st) message_id = Some message ∧
          message !! "conversation_id" = Some (PStr conversation_id) ∧
          conversations_db st !! conversation_id = Some conversation ∧
          user_id current_user ∈ conv_participants conversation ∧
          (message !! "author_id" = Some (PStr (user_id current_user)) ∨
           user_role current_user = "admin" ∨ user_role current_user = "manager")
    end ∧
    (od_get (conversation_messages_db st) message_id = None → result = Err 404%nat).
Proof.
  intros tr st st' mid u log result. unfold delete_message.
  destruct (od_get (conversation_messages_db st) mid) as [m|];
    [|intros [= <- <- <-]; split; [split_and!; auto|done]].
  case_bool_decide as Hm; [intros [= <- <- <-]; split; [split_and!; auto|done]|].
  destruct (m !! "author_id") as [author|] eqn:Ha;
    [|intros [= <- <- <-]; split; [split_and!; auto|done]].
  destruct (negb (py_eq author (PStr (user_id u))) && _) eqn:Hauth;
    [intros [= <- <- <-]; split; [split_and!; auto|done]|].
  destruct (m !! "conversation_id") as [[| | |cid|]|] eqn:Hc;
    try (intros [= <- <- <-]; split; [split_and!; auto|done]).
  destruct (conversations_db st !! cid) as [conv|] eqn:Hconv;
    [|intros [= <- <- <-]; split; [split_and!; auto|done]].
  case_bool_decide as Hp; cbn [negb];
    [|intros [= <- <- <-]; split; [split_and!; auto|done]].
  destruct (broadcast_to_conversation _ _ _ _ _) as [st3 log3].
  intros [= <- <- <-]. split; [|done].
  exists m, cid, conv. split_and!; try done.
  apply andb_false_iff in Hauth as [Hauth|Hauth].
  - left. apply negb_false_iff, py_eq_PStr in Hauth. by subst author.
  - right. apply negb_false_iff, orb_true_iff in Hauth as [H|H];
      apply String.eqb_eq in H; auto.
Qed.

(** Carol, who did not write it and is no participant, may not delete Bob's
    message. *)
Lemma delete_message_all_or_nothing_witness :
  snd (fst (delete_message healthy three_messages "m-2" carol)) = three_messages ∧
  snd (delete_message healthy three_messages "m-2" carol) = [].
Proof.
  assert (Hdel : fst (fst (delete_message healthy three_messages "m-2" carol))
                 = Err 403%nat) by (vm_compute; reflexivity).
  apply triple_eta in Hdel.
  pose proof (delete_message_all_or_nothing _ _ _ _ _ _ _ Hdel) as [(H1 & H2 & _) _].
  by split.
Defined.


(** ** Sending a message and reading it back *)

Lemma create_team_conversation_keeps st org c1 c2 :
  let st1 := fst (create_team_conversation st org c1 c2) in
  users_db st1 = users_db st ∧
  conversation_messages_db st1 = conversation_messages_db st ∧
  conversation_messages_file st1 = conversation_messages_file st ∧
  sessions_db st1 = sessions_db st.
Proof.
  unfold create_team_conversation.
  destruct (conversations_db st !! team_chat_id org); cbn [fst]; [done|].
  unfold save_conversation_data. state_simpl. done.
Qed.

Lemma od_set_twice {V} (d : odict V) k v w :
  od_set (od_set d k v) k w = od_set d k w.
Proof.
  induction d as [|[k' v'] d IH]; cbn [od_set].
  - by rewrite String.eqb_refl.
  - destruct (String.eqb k' k) eqn:E; cbn [od_set].
    + by rewrite String.eqb_refl.
    + by rewrite E, IH.
Qed.

Lemma od_get_set_eq {V} (d : odict V) k v : od_get (od_set d k v) k = Some v.
Proof.
  induction d as [|[k' v'] d IH]; cbn [od_set od_get].
  - by rewrite String.eqb_refl.
  - destruct (String.eqb k' k) eqn:E; cbn [od_get].
    + by rewrite String.eqb_refl.
    + by rewrite E.
Qed.

(** The record that [send_chat_message] stores. *)
Lemma sent_message_fields now mid content u cid :
  let m := fst (normalize_message_record now
                  (<["message_type" := PStr "text"]>
                     (new_message mid content u cid (isoformat now)))) in
  m !! "id" = Some (PStr mid) ∧
  m !! "content" = Some (PStr content) ∧
  m !! "conversation_id" = Some (PStr cid) ∧
  m !! "author_id" = Some (PStr (user_id u)) ∧
  m !! "sender_id" = Some (PStr (user_id u)) ∧
  m !! "created_at" = Some (PStr (isoformat now)).
Proof.
  intros m. subst m. split_and!.
  - by rewrite normalize_keeps_id.
  - by rewrite normalize_keeps_content.
  - by rewrite normalize_keeps_conversation_id.
  - unfold normalize_message_record. rewrite !and_then_fst.
    rewrite norm_updated_at_frame, norm_created_at_frame, norm_reply_to_frame,
      norm_edited_frame, norm_message_type_frame by discriminate.
    rewrite norm_aliases_unfold.
    rewrite !norm_alias_frame by discriminate.
    unfold norm_alias. by simplify_map_eq.
  - unfold normalize_message_record. rewrite !and_then_fst.
    rewrite norm_updated_at_frame, norm_created_at_frame, norm_reply_to_frame,
      norm_edited_frame, norm_message_type_frame by discriminate.
    rewrite norm_aliases_unfold.
    rewrite !norm_alias_frame by discriminate.
    unfold norm_alias, py_get. by simplify_map_eq.
  - unfold normalize_message_record. rewrite !and_then_fst.
    rewrite norm_updated_at_frame by discriminate.
    set (m4 := fst (norm_reply_to _)).
    assert (H : m4 !! "created_at" = Some (PStr (isoformat now))).
    { subst m4. rewrite norm_reply_to_frame, norm_edited_frame,
        norm_message_type_frame, norm_aliases_frame by discriminate.
      by simplify_map_eq. }
    unfold norm_created_at, py_get. rewrite H. cbn [default from_option id].
    by rewrite truthy_isoformat.
Qed.

Lemma mapM_elem {A B} (f : A → option B) (l : list A) (rs : list B) (x : A) :
  mapM f l = Some rs → x ∈ l → ∃ y, f x = Some y ∧ y ∈ rs.
Proof.
  intros H Hx. apply mapM_Some in H.
  induction H as [|a b l' rs' Hab H IH]; [by apply elem_of_nil in Hx|].
  apply elem_of_cons in Hx as [->|Hx].
  - exists b. split; [done|apply list_elem_of_here].
  - destruct (IH Hx) as (y & ? & ?). exists y. split; [done|by apply list_elem_of_further].
Qed.

Lemma send_chat_message_Ok tr st md u mid now tc tu r st' log :
  send_chat_message tr st md u mid now tc tu = (Ok r, st', log) →
  ∃ cid conv m,
    strip (req_content md) ≠ EmptyString ∧
    user_id u ∈ conv_participants conv ∧
    m = fst (normalize_message_record now
               (<["message_type" := PStr "text"]>
                  (new_message mid (strip (req_content md)) u cid (isoformat now)))) ∧
    conversation_messages_db st' = od_set (conversation_messages_db st) mid m ∧
    users_db st' = users_db st ∧
    (conv_participants <$> conversations_db st' !! cid) = Some (conv_participants conv) ∧
    r_id r = mid ∧ r_content r = strip (req_content md) ∧
    r_sender_id r = user_id u ∧ r_conversation_id r = cid ∧
    (cid = requested_conversation (req_conversation_id md) u ∨
     cid = conv_id (snd (create_team_conversation st (user_organization_id u) tc tu))).
Proof.
  unfold send_chat_message, requested_conversation.
  destruct (String.eqb (strip (req_content md)) EmptyString) eqn:Hcontent; [done|].
  apply String.eqb_neq in Hcontent.
  set (cid0 := if String.eqb _ "team-chat" then _ else _).
  set (resolved := match conversations_db st !! cid0 with Some _ => _ | None => _ end).
  assert (Hres : ∀ st1 c cid, resolved = Some (st1, c, cid) →
            users_db st1 = users_db st ∧
            conversation_messages_db st1 = conversation_messages_db st ∧
            (cid = cid0 ∨
             cid = conv_id (snd (create_team_conversation st (user_organization_id u)
                                   tc tu)))).
  { subst resolved. intros st1 c cid.
    destruct (conversations_db st !! cid0); [intros [= <- <- <-]; auto|].
    destruct (startswith _ _); [|done].
    pose proof (create_team_conversation_keeps st (user_organization_id u) tc tu)
      as (Hu & Hm & _).
    destruct (create_team_conversation _ _ _ _) as [st1' c']. cbn [fst snd] in *.
    intros [= <- <- <-]. auto. }
  destruct resolved as [[[st1 conv] cid]|]; [|done].
  destruct (Hres _ _ _ eq_refl) as (Hu & Hm & Hcid). clear Hres.
  case_bool_decide as Hp; cbn [negb]; [|done].
  pose proof (sent_message_fields now mid (strip (req_content md)) u cid) as Hfields.
  set (m := fst (normalize_message_record now _)) in *.
  cbv zeta in Hfields. destruct Hfields as (Fid & Fc & Fcid & Fa & Fs & _).
  unfold save_conversation_data, save_conversation_message. state_simpl.
  assert (Hfix : fst (normalize_message_record now m) = m).
  { subst m. by rewrite (normalized_fixed now _ (normalize_normalized now _)). }
  assert (Hfix' : fst (build_message_response (users_db st1) now m) = m)
    by by rewrite build_message_response_fst.
  destruct (build_message_response (users_db st1) now m) as [m' [r0|]] eqn:Hb;
    cbn [fst] in Hfix'; subst m'; [|done].
  assert (Hr0 : snd (build_message_response (users_db st1) now m) = Some r0)
    by by rewrite Hb.
  apply build_message_response_fields in Hr0 as (R1 & R2 & R3 & R4).
  rewrite Hfix in R4. unfold py_get_or, py_get in R1, R2, R3, R4.
  match goal with |- context [broadcast_to_conversation tr ?s cid ?e None] =>
    pose proof (broadcast_to_conversation_store tr s cid e None) as Hs;
    destruct (broadcast_to_conversation tr s cid e None) as [st7 log7] end.
  cbn [fst] in Hs. destruct Hs as (Hs1 & _ & Hs3 & Hs4 & _).
  revert Hs1 Hs3 Hs4. state_simpl. intros Hs1 Hs3 Hs4.
  intros [= <- <- <-].
  assert (Em : m = fst (normalize_message_record now
               (<["message_type" := PStr "text"]>
                  (new_message mid (strip (req_content md)) u cid (isoformat now)))))
    by reflexivity.
  clearbody m.
  rewrite Fid in R1. rewrite Fc in R2. rewrite Fcid in R3. rewrite Fa, Fs in R4.
  cbn [default from_option id py_str] in R1, R2, R3, R4.
  exists cid, conv, m. split_and!.
  - exact Hcontent.
  - exact Hp.
  - exact Em.
  - by rewrite Hs4, od_set_twice, Hm.
  - congruence.
  - rewrite Hs3. by rewrite lookup_insert_eq.
  - destruct (_ && _); cbn [r_id]; exact R1.
  - injection R2 as R2. destruct (_ && _); cbn [r_content]; congruence.
  - destruct (_ && _); cbn [r_sender_id]; rewrite R4; by destruct (user_id u).
  - destruct (_ && _); cbn [r_conversation_id]; exact R3.
  - exact Hcid.
Qed.

Lemma sort_by_created_at_elem_of entries sorted e :
  sort_by_created_at entries = Some sorted → e ∈ entries → e ∈ sorted.
Proof.
  unfold sort_by_created_at. case_match; [|done].
  intros [= <-] Hin. by apply elem_of_stable_sort.
Qed.

(** X21. Round trip of a message: a message that [send_chat_message]
    accepts is answered with the given id, the stripped content and the
    caller as sender; and when the sender then asks for the history of that
    conversation ([get_conversation_messages]), the request is not refused
    (it can only fail with 500, on some other stored record), and the
    history holds a message with that id and the same content, sender and
    conversation. *)
Theorem send_then_fetch_roundtrip :
  ∀ (tr : transport) (st st' : state) (message_data : ChatMessageRequest)
    (current_user : user) (message_id : string) (now team_created team_updated : datetime)
    (sent : ConversationMessageResponse) (log : list delivery),
    send_chat_message tr st message_data current_user message_id now
      team_created team_updated = (Ok sent, st', log) →
    r_id sent = message_id ∧
    r_content sent = strip (req_content message_data) ∧
    r_sender_id sent = user_id current_user ∧
    ∀ (later : datetime) (result : outcome (list ConversationMessageResponse))
      (st2 : state),
      get_conversation_messages st' (r_conversation_id sent) current_user later
      = (result, st2) →
      match result with
      | Ok history =>
          ∃ fetched, fetched ∈ history ∧
            r_id fetched = message_id ∧
            r_content fetched = r_content sent ∧
            r_sender_id fetched = r_sender_id sent ∧
            r_conversation_id fetched = r_conversation_id sent
      | Err status_code => status_code = 500%nat
      end.
Proof.
  intros tr st st' md u mid now tc tu r log Hsend.
  apply send_chat_message_Ok in Hsend
    as (cid & conv & m & Hc & Hp & Em & Hdb & Hu & Hconv & R1 & R2 & R3 & R4 & _).
  split_and!; [done..|].
  intros later result st2. rewrite R4. unfold get_conversation_messages.
  destruct (conversations_db st' !! cid) as [conv'|]; [|done].
  injection Hconv as Hconv. rewrite Hconv.
  rewrite bool_decide_eq_true_2 by done. cbn [negb].
  destruct (sort_by_created_at _) as [sorted|] eqn:Hsort; [|by intros [= <- <-]].
  destruct (render_all _ _ _ _) as [db' [rs|]] eqn:Hrender; [|by intros [= <- <-]].
  intros [= <- <-].
  pose proof (sent_message_fields now mid (strip (req_content md)) u cid) as Hf.
  cbv zeta in Hf. rewrite <- Em in Hf. destruct Hf as (Fid & Fc & Fcid & Fa & Fs & _).
  assert (Hfix : fst (normalize_message_record later m) = m).
  { rewrite Em. by rewrite (normalized_fixed later _ (normalize_normalized now _)). }
  clear Em.
  assert (Hin : (mid, m) ∈ sorted).
  { apply (sort_by_created_at_elem_of _ _ _ Hsort).
    apply list_elem_of_filter. split.
    - cbn [snd]. unfold in_conversation, py_get. rewrite Fcid.
      cbn [default from_option id py_eq]. apply String.eqb_refl.
    - rewrite Hdb. apply od_get_elem, od_get_set_eq. }
  assert (Hsnd : snd (render_all (users_db st') later sorted
                        (conversation_messages_db st')) = Some rs)
    by by rewrite Hrender.
  rewrite render_all_responses in Hsnd.
  destruct (mapM_elem _ _ _ _ Hsnd Hin) as (r' & Hr' & Hrs).
  cbn [snd] in Hr'.
  apply build_message_response_fields in Hr' as (Q1 & Q2 & Q3 & Q4).
  rewrite Hfix in Q4. unfold py_get_or, py_get in Q1, Q2, Q3, Q4.
  rewrite Fid in Q1. rewrite Fc in Q2. rewrite Fcid in Q3. rewrite Fa, Fs in Q4.
  cbn [default from_option id py_str] in Q1, Q2, Q3, Q4.
  exists r'. split_and!.
  - exact Hrs.
  - exact Q1.
  - injection Q2 as Q2. congruence.
  - rewrite Q4, R3. by destruct (user_id u).
  - exact Q3.
Qed.

Lemma team_chat_id_proper org :
  team_chat_id org ≠ EmptyString ∧ team_chat_id org ≠ "team-chat".
Proof. unfold team_chat_id. cbn. split; discriminate. Qed.

Lemma requested_conversation_proper cid u :
  requested_conversation cid u ≠ EmptyString ∧
  requested_conversation cid u ≠ "team-chat".
Proof.
  unfold requested_conversation.
  destruct (String.eqb_spec (str_or cid (team_chat_id (user_organization_id u)))
              "team-chat") as [E|E]; [apply team_chat_id_proper|].
  split; [|done]. unfold str_or.
  destruct cid as [s|]; [|apply team_chat_id_proper].
  destruct (String.eqb_spec s EmptyString); [apply team_chat_id_proper|done].
Qed.

Lemma requested_conversation_fixed cid u :
  cid ≠ EmptyString → cid ≠ "team-chat" → requested_conversation (Some cid) u = cid.
Proof.
  intros H1 H2. unfold requested_conversation, str_or.
  apply String.eqb_neq in H1, H2. by rewrite H1, H2.
Qed.

Lemma create_team_conversation_id st org c1 c2 :
  conversations_keyed st →
  conv_id (snd (create_team_conversation st org c1 c2)) = team_chat_id org.
Proof.
  intros Hk. unfold create_team_conversation.
  destruct (conversations_db st !! team_chat_id org) eqn:E; cbn [snd]; [by apply Hk|done].
Qed.

Lemma last_slice_snoc {A} (limit : Z) (l : list A) (x : A) :
  0 < limit → ∃ l', last_slice limit (l ++ [x]) = l' ++ [x].
Proof.
  intros Hl. unfold last_slice.
  destruct (Z.ltb_spec 0 limit) as [_|]; [|lia].
  rewrite length_app. cbn [length].
  set (k := Z.to_nat _).
  assert (k ≤ length l)%nat by (subst k; lia).
  exists (drop k l). by rewrite drop_app_le.
Qed.

Lemma mapM_snoc {A B} (f : A → option B) (l : list A) (x : A) (rs : list B) :
  mapM f (l ++ [x]) = Some rs → ∃ rs0 r, rs = rs0 ++ [r] ∧ f x = Some r.
Proof.
  intros H. apply mapM_Some in H. apply Forall2_app_inv_l in H
    as (rs0 & rs1 & _ & H & ->).
  inversion H as [|? r ? rs2 Hr H2]; subst. inversion H2; subst.
  by exists rs0, r.
Qed.

(** X22. The newest message closes the history: when every conversation
    is stored under its id, the message id is new, the sender is a known
    user, no stored message carries a later time than the clock, and the
    limit is positive, then the history that [get_chat_messages] answers for
    the conversation of a message just sent ends with that message, whatever
    the limit cuts off before it. *)
Theorem sent_message_is_newest_in_history :
  ∀ (tr : transport) (st st' : state) (message_data : ChatMessageRequest)
    (current_user : user) (message_id : string) (now team_created team_updated : datetime)
    (sent : ConversationMessageResponse) (log : list delivery) (limit : Z),
    conversations_keyed st →
    od_get (conversation_messages_db st) message_id = None →
    od_get (users_db st) (user_id current_user) = Some current_user →
    (∀ key message created_at,
       (key, message) ∈ conversation_messages_db st →
       created_at_key message = Some created_at →
       String.ltb (isoformat now) created_at = false) →
    0 < limit →
    send_chat_message tr st message_data current_user message_id now
      team_created team_updated = (Ok sent, st', log) →
    ∀ (later : datetime) (result : outcome (list ConversationMessageResponse))
      (st2 : state),
      get_chat_messages st' (Some (r_conversation_id sent)) limit current_user later
      = (result, st2) →
      match result with
      | Ok history =>
          ∃ fetched, last history = Some fetched ∧
            r_id fetched = message_id ∧
            r_content fetched = r_content sent ∧
            r_sender_id fetched = r_sender_id sent ∧
            r_conversation_id fetched = r_conversation_id sent
      | Err status_code => status_code = 500%nat
      end.
Proof.
  intros tr st st' md u mid now tc tu r log limit Hkeyed Hfresh Huser Hclock Hlimit Hsend.
  apply send_chat_message_Ok in Hsend
    as (cid & conv & m & Hc & Hp & Em & Hdb & Hu & Hconv & R1 & R2 & R3 & R4 & Hcid).
  assert (Hproper : requested_conversation (Some cid) u = cid).
  { destruct Hcid as [->| ->].
    - apply requested_conversation_fixed; apply requested_conversation_proper.
    - rewrite create_team_conversation_id by done.
      apply requested_conversation_fixed; apply team_chat_id_proper. }
  intros later result st2. rewrite R4. unfold get_chat_messages.
  change (if String.eqb (str_or (Some cid) (team_chat_id (user_organization_id u)))
               "team-chat"
          then team_chat_id (user_organization_id u)
          else str_or (Some cid) (team_chat_id (user_organization_id u)))
    with (requested_conversation (Some cid) u).
  rewrite Hproper.
  destruct (conversations_db st' !! cid) as [conv'|]; [|done].
  injection Hconv as Hconv. rewrite Hconv.
  rewrite bool_decide_eq_true_2 by done. cbn [negb].
  pose proof (sent_message_fields now mid (strip (req_content md)) u cid) as Hf.
  cbv zeta in Hf. rewrite <- Em in Hf. destruct Hf as (Fid & Fc & Fcid & Fa & Fs & Fcr).
  assert (Hfix : fst (normalize_message_record later m) = m).
  { rewrite Em. by rewrite (normalized_fixed later _ (normalize_normalized now _)). }
  clear Em.
  rewrite Hdb, (od_set_fresh _ _ _ Hfresh), Hu.
  rewrite filter_app, filter_cons_True, filter_nil; last first.
  { cbn [snd]. split.
    - unfold in_conversation, py_get. rewrite Fcid.
      cbn [default from_option id py_eq]. apply String.eqb_refl.
    - unfold author_in_org, py_get. rewrite Fa.
      cbn [default from_option id users_get]. rewrite Huser. apply String.eqb_refl. }
  set (F := filter _ (conversation_messages_db st)).
  destruct (sort_by_created_at (F ++ [(mid, m)])) as [sorted|] eqn:Hsort;
    [|by intros [= <- <-]].
  assert (Hsorted : ∃ s0, sorted = s0 ++ [(mid, m)]).
  { revert Hsort. unfold sort_by_created_at.
    destruct (forallb _ _) eqn:Hall; [|done]. intros [= <-].
    eexists. apply stable_sort_snoc.
    apply Forall_forall. intros [k e] He. unfold key_le. cbn [snd].
    assert (Hk : bool_decide (is_Some (created_at_key e)) = true).
    { apply (proj1 (forallb_forall _ _) Hall (k, e)).
      apply list_elem_of_In, elem_of_app. by left. }
    apply bool_decide_eq_true_1 in Hk as [s Hs]. rewrite Hs.
    unfold created_at_key at 1, py_get_or. rewrite Fcr.
    cbn [default from_option id as_str].
    apply (Hclock k e s); [|done].
    subst F. by apply list_elem_of_filter in He as [_ He]. }
  destruct Hsorted as [s0 ->].
  destruct (last_slice_snoc limit s0 (mid, m) Hlimit) as [w Hw]. rewrite Hw.
  destruct (render_all _ _ _ _) as [db' [rs|]] eqn:Hrender; [|by intros [= <- <-]].
  intros [= <- <-].
  assert (Hsnd : snd (render_all (users_db st) later (w ++ [(mid, m)])
                        (conversation_messages_db st ++ [(mid, m)])) = Some rs)
    by by rewrite Hrender.
  rewrite render_all_responses in Hsnd.
  apply mapM_snoc in Hsnd as (rs0 & r' & -> & Hr').
  cbn [snd] in Hr'.
  apply build_message_response_fields in Hr' as (Q1 & Q2 & Q3 & Q4).
  rewrite Hfix in Q4. unfold py_get_or, py_get in Q1, Q2, Q3, Q4.
  rewrite Fid in Q1. rewrite Fc in Q2. rewrite Fcid in Q3. rewrite Fa, Fs in Q4.
  cbn [default from_option id py_str] in Q1, Q2, Q3, Q4.
  exists r'. split_and!.
  - apply last_snoc.
  - exact Q1.
  - injection Q2 as Q2. congruence.
  - rewrite Q4, R3. by destruct (user_id u).
  - exact Q3.
Qed.

(** Alice says hello again in the direct conversation and reads it back. *)
Lemma send_then_fetch_roundtrip_witness :
  ∃ history fetched,
    fst (get_conversation_messages
           (snd (fst (send_chat_message healthy three_messages hello_again alice
                        "m-4" second_of_january new_year new_year)))
           "dm-ab" alice third_of_january) = Ok history ∧
    fetched ∈ history ∧ r_id fetched = "m-4" ∧
    r_content fetched = "hello again" ∧ r_sender_id fetched = "alice".
Proof.
  set (send := send_chat_message healthy three_messages hello_again alice "m-4"
                 second_of_january new_year new_year).
  assert (Hok : ∃ sent, fst (fst send) = Ok sent ∧ r_conversation_id sent = "dm-ab").
  { vm_compute. eexists. split; reflexivity. }
  destruct Hok as (sent & Hsend & Hcid). apply triple_eta in Hsend.
  destruct (send_then_fetch_roundtrip _ _ _ _ _ _ _ _ _ _ _ Hsend)
    as (R1 & R2 & R3 & Hfetch).
  rewrite Hcid in Hfetch.
  assert (Hget : ∃ history,
    fst (get_conversation_messages (snd (fst send)) "dm-ab" alice third_of_january)
    = Ok history).
  { vm_compute. eexists. reflexivity. }
  destruct Hget as [history Hget].
  destruct (Hfetch _ _ _ (pair_eta _ _ Hget)) as (fetched & H1 & H2 & H3 & H4 & _).
  exists history, fetched.
  split_and!; [exact Hget|exact H1|exact H2|by rewrite H3, R2|by rewrite H4, R3].
Defined.

Lemma three_messages_keyed : conversations_keyed three_messages.
Proof.
  change (map_Forall (λ key conversation, conv_id conversation = key)
            (conversations_db three_messages)).
  apply (bool_decide_unpack _). vm_compute. reflexivity.
Qed.

Lemma three_messages_earlier key message created_at :
  (key, message) ∈ conversation_messages_db three_messages →
  created_at_key message = Some created_at →
  String.ltb (isoformat second_of_january) created_at = false.
Proof.
  assert (Hall : Forall (λ e, from_option
                                (λ s, negb (String.ltb (isoformat second_of_january) s))
                                true (created_at_key (snd e)) = true)
                   (conversation_messages_db three_messages))
    by (apply (bool_decide_unpack _); vm_compute; reflexivity).
  intros Hin Hs. apply (proj1 (Forall_forall _ _) Hall) in Hin.
  cbn [snd] in Hin. rewrite Hs in Hin. cbn [from_option] in Hin.
  by apply negb_true_iff in Hin.
Qed.

(** With a limit of two, Alice still finds her new message, last. *)
Lemma sent_message_is_newest_in_history_witness :
  ∃ history fetched,
    fst (get_chat_messages
           (snd (fst (send_chat_message healthy three_messages hello_again alice
                        "m-4" second_of_january new_year new_year)))
           (Some "dm-ab") 2 alice third_of_january) = Ok history ∧
    last history = Some fetched ∧ r_id fetched = "m-4" ∧
    r_content fetched = "hello again".
Proof.
  set (send := send_chat_message healthy three_messages hello_again alice "m-4"
                 second_of_january new_year new_year).
  assert (Hok : ∃ sent, fst (fst send) = Ok sent ∧ r_conversation_id sent = "dm-ab" ∧
                        r_content sent = "hello again").
  { vm_compute. eexists. split_and!; reflexivity. }
  destruct Hok as (sent & Hsend & Hcid & Hcontent). apply triple_eta in Hsend.
  assert (Hfetch := sent_message_is_newest_in_history healthy three_messages _
    hello_again alice "m-4" second_of_january new_year new_year sent _ 2
    three_messages_keyed ltac:(vm_compute; reflexivity) ltac:(vm_compute; reflexivity)
    three_messages_earlier ltac:(lia) Hsend).
  rewrite Hcid in Hfetch.
  assert (Hget : ∃ history,
    fst (get_chat_messages (snd (fst send)) (Some "dm-ab") 2 alice third_of_january)
    = Ok history).
  { vm_compute. eexists. reflexivity. }
  destruct Hget as [history Hget].
  destruct (Hfetch _ _ _ (pair_eta _ _ Hget)) as (fetched & H1 & H2 & H3 & _).
  exists history, fetched.
  split_and!; [exact Hget|exact H1|exact H2|by rewrite H3].
Defined.


(** ** Reading the history *)














(** ** Creating conversations *)

Lemma add_user_conversation_other cid tbl p q :
  q ≠ p → add_user_conversation cid tbl p !! q = tbl !! q.
Proof.
  intros Hne. unfold add_user_conversation.
  case_bool_decide; by rewrite lookup_insert_ne.
Qed.

Lemma add_user_conversation_listed cid tbl p :
  cid ∈ default [] (add_user_conversation cid tbl p !! p).
Proof.
  unfold add_user_conversation. case_bool_decide as H; rewrite lookup_insert_eq;
    cbn [default from_option id]; [done|].
  apply elem_of_app. right. apply list_elem_of_here.
Qed.

Lemma add_user_conversation_keeps cid tbl p q c :
  c ∈ default [] (tbl !! q) → c ∈ default [] (add_user_conversation cid tbl p !! q).
Proof.
  intros Hc. destruct (decide (q = p)) as [->|Hne];
    [|by rewrite add_user_conversation_other].
  unfold add_user_conversation. case_bool_decide as H; rewrite lookup_insert_eq;
    cbn [default from_option id]; [done|].
  apply elem_of_app. by left.
Qed.

Lemma add_user_conversations_listed cid ps tbl p :
  p ∈ ps → cid ∈ default [] (foldl (add_user_conversation cid) tbl ps !! p).
Proof.
  revert tbl. induction ps as [|q ps IH]; intros tbl Hp; [by apply elem_of_nil in Hp|].
  cbn [foldl]. destruct (decide (p ∈ ps)) as [Hin|Hnin]; [by apply IH|].
  apply elem_of_cons in Hp as [->|Hp]; [|done].
  clear IH. generalize (add_user_conversation_listed cid tbl q).
  generalize (add_user_conversation cid tbl q). clear tbl.
  induction ps as [|r ps IH]; intros tbl Hl; [done|].
  cbn [foldl]. apply not_elem_of_cons in Hnin as [Hne Hnin].
  apply IH; [done|]. by apply add_user_conversation_keeps.
Qed.

Lemma add_user_conversations_other cid ps tbl p :
  p ∉ ps → foldl (add_user_conversation cid) tbl ps !! p = tbl !! p.
Proof.
  revert tbl. induction ps as [|q ps IH]; intros tbl Hp; [done|].
  apply not_elem_of_cons in Hp as [Hne Hp]. cbn [foldl].
  rewrite IH by done. by apply add_user_conversation_other.
Qed.

Lemma elem_of_upsert_conversation records c : c ∈ upsert_conversation records c.
Proof.
  induction records as [|r records IH]; cbn [upsert_conversation].
  - apply list_elem_of_here.
  - destruct (String.eqb _ _); [apply list_elem_of_here|by apply list_elem_of_further].
Qed.

(** X26. What [create_conversation] of [main.py] does. The request
    succeeds exactly when the id is already known, or when a direct
    conversation has two participants and every participant is a known user
    of the caller's organization: no other conversation is looked at, so a
    pair that already has a direct conversation gets another one. A known id
    answers the stored conversation and changes nothing. A new conversation
    carries the id, the caller's organization and the requested participants
    with the caller among them; it is filed, and listed for each participant
    and for nobody else. Every refusal leaves as status 500 (the handler
    catches its own 400s) and changes nothing. *)
Theorem create_conversation_postconditions :
  ∀ (st st' : state) (request : CreateConversationRequest) (current_user : user)
    (uuid4 : string) (created_at updated_at : datetime)
    (result : outcome ConversationResponse),
    create_conversation st request current_user uuid4 created_at updated_at
    = (result, st') →
    let conversation_id := str_or (ccr_id request) uuid4 in
    let participants := requested_participants request current_user in
    let member p :=
      ∃ participant, od_get (users_db st) p = Some participant ∧
        user_organization_id participant = user_organization_id current_user in
    ((∃ response, result = Ok response) ↔
     is_Some (conversations_db st !! conversation_id) ∨
     ((ccr_type request = DIRECT → length participants = 2%nat) ∧
      ∀ p, p ∈ participants → member p)) ∧
    match result with
    | Err status_code => status_code = 500%nat ∧ st' = st
    | Ok response =>
        match conversations_db st !! conversation_id with
        | Some existing => st' = st ∧ response = conversation_response existing
        | None =>
            ∃ conversation,
              response = conversation_response conversation ∧
              conversations_db st'
              = <[conversation_id := conversation]> (conversations_db st) ∧
              conv_id conversation = conversation_id ∧
              conv_participants conversation = participants ∧
              conv_organization_id conversation = user_organization_id current_user ∧
              user_id current_user ∈ participants ∧
              (∀ p, p ∈ participants →
                 conversation_id ∈ default [] (user_conversations_db st' !! p)) ∧
              (∀ p, p ∉ participants →
                 user_conversations_db st' !! p = user_conversations_db st !! p) ∧
              conversation ∈ conversations_file st' ∧
              users_db st' = users_db st ∧
              conversation_messages_db st' = conversation_messages_db st
        end
    end.
Proof.
  intros st st' request u uuid4 c1 c2 result. unfold create_conversation.
  cbv zeta.
  change (if bool_decide (user_id u ∈ ccr_participants request)
          then ccr_participants request
          else ccr_participants request ++ [user_id u])
    with (requested_participants request u).
  set (cid := str_or (ccr_id request) uuid4).
  set (participants := requested_participants request u).
  destruct (conversations_db st !! cid) as [existing|] eqn:Hex.
  { intros [= <- <-]. split; [|done]. split; [intros _; left; by eexists|by eexists]. }
  assert (Hvalid : forallb
            (λ participant_id,
               match od_get (users_db st) participant_id with
               | Some participant =>
                   String.eqb (user_organization_id participant) (user_organization_id u)
               | None => false
               end) participants = true ↔
            ∀ p, p ∈ participants →
              ∃ participant, od_get (users_db st) p = Some participant ∧
                user_organization_id participant = user_organization_id u).
  { rewrite forallb_forall. split.
    - intros H p Hp. apply list_elem_of_In, H in Hp.
      destruct (od_get (users_db st) p) as [pu|]; [|done].
      exists pu. split; [done|]. by apply String.eqb_eq.
    - intros H p Hp. apply list_elem_of_In, H in Hp as (pu & -> & Ho).
      by apply String.eqb_eq. }
  destruct (bool_decide (ccr_type request = DIRECT) && negb _) eqn:Hdirect.
  { intros [= <- <-]. split; [|done]. split; [by intros [? ?]|].
    intros [[? [=]]|[Hd _]]. apply andb_true_iff in Hdirect as [Ht Hl].
    apply bool_decide_eq_true_1, Hd in Ht. rewrite Ht in Hl. done. }
  assert (Hd : ccr_type request = DIRECT → length participants = 2%nat).
  { intros Ht. rewrite bool_decide_eq_true_2 in Hdirect by done.
    cbn [andb] in Hdirect. apply negb_false_iff in Hdirect.
    by apply Nat.eqb_eq in Hdirect. }
  clear Hdirect.
  destruct (negb (forallb _ participants)) eqn:Hall.
  { intros [= <- <-]. split; [|done]. split; [by intros [? ?]|].
    intros [[? [=]]|[_ Hm]]. pose proof (proj2 Hvalid Hm).
    apply negb_true_iff in Hall. congruence. }
  apply negb_false_iff in Hall. pose proof (proj1 Hvalid Hall) as Hmem.
  clear Hvalid Hall.
  set (conv := mk_conversation _ _ _ _ _ _ _).
  unfold save_conversation_data. state_simpl.
  intros [= <- <-]. state_simpl.
  split; [split; [intros _; by right|by eexists]|].
  exists conv. split_and!; try done.
  - subst participants. unfold requested_participants. case_bool_decide; [done|].
    apply elem_of_app. right. apply list_elem_of_here.
  - intros p Hp. by apply add_user_conversations_listed.
  - intros p Hp. by apply add_user_conversations_other.
  - apply elem_of_upsert_conversation.
Qed.

(** X27. [create_team_conversation] is get-or-create: afterwards the team
    conversation of the organization is in the table and is what is
    returned; a second call, at whatever time, returns the same conversation
    and changes nothing; no other conversation is touched; if the
    conversation existed the state is unchanged; if it is new, it is of type
    team, its participants are exactly the users of the organization, each of
    them has it listed, and it is filed. *)
Theorem create_team_conversation_postconditions :
  ∀ (st : state) (organization_id : string)
    (created_at updated_at later later' : datetime),
    let result := create_team_conversation st organization_id created_at updated_at in
    let team_conv_id := team_chat_id organization_id in
    conversations_db (fst result) !! team_conv_id = Some (snd result) ∧
    create_team_conversation (fst result) organization_id later later' = result ∧
    (∀ key, key ≠ team_conv_id →
       conversations_db (fst result) !! key = conversations_db st !! key) ∧
    (is_Some (conversations_db st !! team_conv_id) → fst result = st) ∧
    (conversations_db st !! team_conv_id = None →
       conv_id (snd result) = team_conv_id ∧
       conv_type (snd result) = "team" ∧
       conv_organization_id (snd result) = organization_id ∧
       (∀ uid, uid ∈ conv_participants (snd result) ↔
               ∃ member, member ∈ od_values (users_db st) ∧ user_id member = uid ∧
                         user_organization_id member = organization_id) ∧
       (∀ uid, uid ∈ conv_participants (snd result) →
               team_conv_id ∈ default [] (user_conversations_db (fst result) !! uid)) ∧
       snd result ∈ conversations_file (fst result)).
Proof.
  intros st org c1 c2 c3 c4 result tid. subst tid.
  destruct (conversations_db st !! team_chat_id org) as [existing|] eqn:Hex.
  { assert (Hr : ∀ d1 d2, create_team_conversation st org d1 d2 = (st, existing)).
    { intros d1 d2. unfold create_team_conversation. by rewrite Hex. }
    subst result. rewrite (Hr c1 c2). cbn [fst snd].
    split_and!; [done|apply Hr|done|done|done]. }
  set (members := user_id <$> filter (λ u, user_organization_id u = org)
                                (od_values (users_db st))).
  set (conv := mk_conversation (team_chat_id org) "team" "Team Chat" members org
                 (isoformat c1) (isoformat c2)).
  assert (Hr : result
    = (set_user_conversations_db
         (save_conversation_data
            (set_conversations_db st (<[team_chat_id org := conv]> (conversations_db st)))
            conv)
         (foldl (add_user_conversation (team_chat_id org))
            (user_conversations_db st) members), conv)).
  { subst result. unfold create_team_conversation. by rewrite Hex. }
  clearbody result. subst result. cbn [fst snd].
  unfold save_conversation_data. state_simpl.
  split_and!.
  - by rewrite lookup_insert_eq.
  - unfold create_team_conversation. state_simpl. by rewrite lookup_insert_eq.
  - intros k Hk. by rewrite lookup_insert_ne.
  - by intros [? ?].
  - intros _. split_and!; try done.
    + intros uid. subst conv members. cbn [conv_participants].
      rewrite list_elem_of_fmap. split.
      * intros (member & -> & Hm). apply list_elem_of_filter in Hm as [Ho Hm].
        by exists member.
      * intros (member & Hm & <- & Ho). exists member. split; [done|].
        by apply list_elem_of_filter.
    + intros uid Hu.
      by apply (add_user_conversations_listed (team_chat_id org) members).
    + apply elem_of_upsert_conversation.
Qed.

(** Bob opens a direct conversation with Alice, who already has one with
    him. *)
Lemma create_conversation_postconditions_witness :
  ∃ response conversation,
    fst (create_conversation with_direct
           (mk_create_conversation_request (Some "dm-2") DIRECT ["alice"] None)
           bob "uuid-2" new_year new_year) = Ok response ∧
    response = conversation_response conversation ∧
    conv_participants conversation = ["alice"; "bob"] ∧
    conversations_db
      (snd (create_conversation with_direct
              (mk_create_conversation_request (Some "dm-2") DIRECT ["alice"] None)
              bob "uuid-2" new_year new_year))
    = <["dm-2" := conversation]> (conversations_db with_direct).
Proof.
  assert (Hok : ∃ response,
    fst (create_conversation with_direct
           (mk_create_conversation_request (Some "dm-2") DIRECT ["alice"] None)
           bob "uuid-2" new_year new_year) = Ok response)
    by (vm_compute; eexists; reflexivity).
  destruct Hok as [response Hok].
  pose proof (create_conversation_postconditions _ _ _ _ _ _ _ _ (pair_eta _ _ Hok))
    as [_ H].
  cbv zeta in H.
  destruct (conversations_db with_direct !! _) eqn:E in H;
    [vm_compute in E; discriminate|].
  destruct H as (conversation & H1 & H2 & _ & H4 & _).
  exists response, conversation. split_and!; [done|done|exact H4|exact H2].
Defined.

(** The team conversation of org1, for its three users. *)
Lemma create_team_conversation_postconditions_witness :
  conv_id (snd (create_team_conversation three_connected "org1" new_year new_year))
  = "team-chat-org1" ∧
  ∀ uid,
    uid ∈ conv_participants
            (snd (create_team_conversation three_connected "org1" new_year new_year)) ↔
    ∃ member, member ∈ od_values (users_db three_connected) ∧ user_id member = uid ∧
              user_organization_id member = "org1".
Proof.
  pose proof (create_team_conversation_postconditions three_connected "org1"
                new_year new_year new_year new_year) as (_ & _ & _ & _ & H).
  destruct (H ltac:(vm_compute; reflexivity)) as (H1 & _ & _ & H4 & _).
  split; [exact H1|exact H4].
Defined.


(** ** Closing a chat socket *)

Lemma remove_chat_connection_sessions st o ws u :
  sessions_db (fst (remove_chat_connection st o ws u)) = sessions_db st.
Proof. rewrite remove_chat_connection_tables. by destruct (_ !! o). Qed.

Lemma remove_chat_connection_streams st o ws u :
  sse_connections (fst (remove_chat_connection st o ws u)) = sse_connections st.
Proof. rewrite remove_chat_connection_tables. by destruct (_ !! o). Qed.

(** X28. When a chat socket closes (the [finally] block of
    [websocket_chat]), the "offline" event goes out only if this was the
    last open connection of the user and the user holds no access token; it
    is never written to the closing socket; and in that case every other
    socket of the organization whose write succeeds receives it. *)
Theorem websocket_offline_event_on_last_connection :
  ∀ (tr : transport) (st : state) (ws : nat) (user_data : user) (d : delivery),
    let org_id := user_organization_id user_data in
    let log := snd (websocket_chat_finally tr st ws user_data) in
    (d ∈ log →
       snd d = user_status_change user_data false ∧
       fst d ≠ Socket ws ∧
       presence_count (presence_counters st) org_id (user_id user_data) = 1 ∧
       user_has_active_session st (user_id user_data) = false) ∧
    (presence_count (presence_counters st) org_id (user_id user_data) = 1 →
     user_has_active_session st (user_id user_data) = false →
     ∀ w, w ∈ sockets_of st org_id → w ≠ ws → send_text_ok tr w = true →
          (Socket w, user_status_change user_data false) ∈ log).
Proof.
  intros tr st ws u d org log. subst org log. unfold websocket_chat_finally.
  pose proof (remove_chat_connection_returns st (user_organization_id u) ws (user_id u))
    as Hr.
  pose proof (remove_chat_connection_sessions st (user_organization_id u) ws (user_id u))
    as Hs.
  pose proof (remove_chat_connection_sockets st (user_organization_id u) ws (user_id u))
    as Hw.
  destruct (remove_chat_connection st (user_organization_id u) ws (user_id u))
    as [st1 went_offline].
  cbn [fst snd] in *. subst went_offline.
  assert (Hsess : user_has_active_session st1 (user_id u)
                  = user_has_active_session st (user_id u)).
  { unfold user_has_active_session. by rewrite Hs. }
  rewrite Hsess.
  destruct (snd (_decrement_presence _ _ _)) eqn:Hd.
  - apply decrement_presence_returns in Hd.
    destruct (user_has_active_session st (user_id u)) eqn:Ha; cbn [andb negb snd].
    + split; [intros H; by apply elem_of_nil in H|done].
    + rewrite broadcast_to_organization_log. split.
      * intros Hin. apply elem_of_app in Hin as [Hin|Hin].
        -- apply list_elem_of_fmap in Hin as (c & -> & Hc). cbn [fst snd].
           split_and!; try done. intros [= E].
           apply list_elem_of_filter in Hc as [_ Hc].
           assert (Hin : websocket c ∈ sockets_of st1 (user_organization_id u)).
           { unfold sockets_of. apply list_elem_of_fmap. by exists c. }
           rewrite Hw in Hin. apply list_elem_of_filter in Hin as [Hne _]. done.
        -- apply list_elem_of_fmap in Hin as (q & -> & Hq). by cbn [fst snd].
      * intros _ _ w Hin Hne Hok. apply elem_of_app. left.
        assert (Hin1 : w ∈ sockets_of st1 (user_organization_id u)).
        { rewrite Hw. by apply list_elem_of_filter. }
        unfold sockets_of in Hin1. apply list_elem_of_fmap in Hin1 as (c & -> & Hc).
        apply list_elem_of_fmap. exists c. split; [done|].
        apply list_elem_of_filter. split; [|done]. split; [|done].
        unfold addressed. done.
  - cbn [andb snd]. split; [intros H; by apply elem_of_nil in H|].
    intros H1. apply decrement_presence_returns in H1. congruence.
Qed.

(** Alice closes her only socket: Bob's socket hears of it. *)
Lemma websocket_offline_event_on_last_connection_witness :
  (Socket 2, user_status_change alice false)
    ∈ snd (websocket_chat_finally healthy three_connected 1 alice).
Proof.
  refine (proj2 (websocket_offline_event_on_last_connection healthy three_connected
                   1%nat alice (Socket 2, user_status_change alice false))
            _ _ 2%nat _ _ _).
  - vm_compute. reflexivity.
  - vm_compute. reflexivity.
  - apply list_elem_of_In. vm_compute. tauto.
  - discriminate.
  - reflexivity.
Defined.

(** ** What a sent message changes *)

Lemma od_get_set_ne {V} (d : odict V) k k' v :
  k' ≠ k → od_get (od_set d k v) k' = od_get d k'.
Proof.
  intros Hne. induction d as [|[k0 v0] d IH]; cbn [od_set od_get].
  - destruct (String.eqb_spec k k'); [congruence|done].
  - destruct (String.eqb_spec k0 k) as [->|Hk]; cbn [od_get].
    + destruct (String.eqb_spec k k'); [congruence|done].
    + by rewrite IH.
Qed.

Lemma elem_of_upsert_message records m : m ∈ upsert_message records m.
Proof.
  induction records as [|r records IH]; cbn [upsert_message].
  - apply list_elem_of_here.
  - destruct (py_eq _ _); [apply list_elem_of_here|by apply list_elem_of_further].
Qed.

Lemma broadcast_to_conversation_events tr st cid e ex d :
  d ∈ snd (broadcast_to_conversation tr st cid e ex) →
  snd d = mk_event (<["conversation_id" := PStr cid]> (ev_fields e)) (ev_message e).
Proof.
  unfold broadcast_to_conversation.
  destruct (conversations_db st !! cid) as [conv|];
    [|intros H; by apply elem_of_nil in H].
  destruct (conv_participants conv) as [|p ps]; [intros H; by apply elem_of_nil in H|].
  destruct (od_get (users_db st) p) as [fu|]; [|intros H; by apply elem_of_nil in H].
  rewrite broadcast_to_organization_log. intros Hin.
  apply elem_of_app in Hin as [Hin|Hin];
    apply list_elem_of_fmap in Hin as (x & -> & _); done.
Qed.

(** X29. What [send_chat_message] changes. On success the message is
    in the table under its id and in the file, with the content and the
    conversation of the response; every other message is as before; the
    conversation's [updated_at] is the creation time of the message; and
    every event that goes out is a [chat_message] of that conversation that
    carries the response. A refusal sends nothing; with status 400 or 404 the
    state is unchanged, and with any status but 500 no message is stored. *)
Theorem send_chat_message_effects :
  ∀ (tr : transport) (st st' : state) (message_data : ChatMessageRequest)
    (current_user : user) (message_id : string) (now team_created team_updated : datetime)
    (result : outcome ConversationMessageResponse) (log : list delivery),
    send_chat_message tr st message_data current_user message_id now
      team_created team_updated = (result, st', log) →
    match result with
    | Ok sent =>
        (∃ message,
           od_get (conversation_messages_db st') message_id = Some message ∧
           message ∈ conversation_messages_file st' ∧
           message !! "content" = Some (PStr (r_content sent)) ∧
           message !! "conversation_id" = Some (PStr (r_conversation_id sent))) ∧
        (∀ other, other ≠ message_id →
           od_get (conversation_messages_db st') other
           = od_get (conversation_messages_db st) other) ∧
        (conv_updated_at <$> conversations_db st' !! r_conversation_id sent)
        = Some (isoformat now) ∧
        (∀ d, d ∈ log →
           ev_message (snd d)
           = Some (<["type" := PStr (r_message_type sent)]> (model_dump sent)) ∧
           py_get (ev_fields (snd d)) "type" = PStr "chat_message" ∧
           py_get (ev_fields (snd d)) "conversation_id"
           = PStr (r_conversation_id sent))
    | Err status_code =>
        log = [] ∧
        (status_code = 400 ∨ status_code = 404 ∨ status_code = 403 ∨ status_code = 500)%nat ∧
        (status_code = 400%nat ∨ status_code = 404%nat → st' = st) ∧
        (status_code ≠ 500%nat →
           conversation_messages_db st' = conversation_messages_db st ∧
           conversation_messages_file st' = conversation_messages_file st)
    end.
Proof.
  intros tr st st' md u mid now tc tu result log. unfold send_chat_message.
  destruct (String.eqb (strip (req_content md)) EmptyString) eqn:Hcontent.
  { intros [= <- <- <-]. split_and!; auto. }
  set (cid0 := if String.eqb _ "team-chat" then _ else _).
  set (resolved := match conversations_db st !! cid0 with Some _ => _ | None => _ end).
  assert (Hres : ∀ st1 c cid, resolved = Some (st1, c, cid) →
            conversation_messages_db st1 = conversation_messages_db st ∧
            conversation_messages_file st1 = conversation_messages_file st).
  { subst resolved. intros st1 c cid.
    destruct (conversations_db st !! cid0); [by intros [= <- <- <-]|].
    destruct (startswith _ _); [|done].
    pose proof (create_team_conversation_keeps st (user_organization_id u) tc tu)
      as (_ & Hm & Hf & _).
    destruct (create_team_conversation _ _ _ _) as [st1' c']. cbn [fst] in *.
    by intros [= <- <- <-]. }
  destruct resolved as [[[st1 conv] cid]|].
  2:{ intros [= <- <- <-]. split_and!; auto. }
  destruct (Hres _ _ _ eq_refl) as [Hm Hf]. clear Hres.
  case_bool_decide as Hp; cbn [negb].
  2:{ intros [= <- <- <-].
      split_and!; [done|auto|by intros [[=]|[=]]|intros _; by split]. }
  pose proof (sent_message_fields now mid (strip (req_content md)) u cid) as Hfields.
  set (m := fst (normalize_message_record now _)) in *.
  cbv zeta in Hfields. destruct Hfields as (Fid & Fc & Fcid & Fa & Fs & _).
  unfold save_conversation_data, save_conversation_message. state_simpl.
  assert (Hfix : fst (normalize_message_record now m) = m).
  { subst m. by rewrite (normalized_fixed now _ (normalize_normalized now _)). }
  assert (Hfix' : fst (build_message_response (users_db st1) now m) = m)
    by by rewrite build_message_response_fst.
  rewrite Hfix.
  destruct (build_message_response (users_db st1) now m) as [m' [r0|]] eqn:Hb;
    cbn [fst] in Hfix'; subst m'.
  2:{ intros [= <- <- <-].
      split_and!; [reflexivity|auto|by intros [[=]|[=]]|intros H; by destruct H]. }
  assert (Hr0 : snd (build_message_response (users_db st1) now m) = Some r0)
    by by rewrite Hb.
  apply build_message_response_fields in Hr0 as (_ & R2 & R3 & _).
  clearbody m.
  unfold py_get_or in R2, R3. rewrite Fc in R2. rewrite Fcid in R3.
  cbn [default from_option id py_str] in R2, R3. injection R2 as R2.
  set (sent := if _ && _ then _ else r0).
  assert (Hsent : r_content sent = r_content r0 ∧
                  r_conversation_id sent = r_conversation_id r0)
    by (subst sent; by destruct (_ && _)).
  destruct Hsent as [S1 S2]. clearbody sent.
  match goal with |- context [broadcast_to_conversation tr ?s cid ?e None] =>
    pose proof (broadcast_to_conversation_store tr s cid e None) as Hs;
    pose proof (broadcast_to_conversation_events tr s cid e None) as He;
    destruct (broadcast_to_conversation tr s cid e None) as [st7 log7] end.
  cbn [fst snd] in Hs, He. destruct Hs as (_ & _ & Hs3 & Hs4 & _ & _ & _ & Hs8).
  revert Hs3 Hs4 Hs8. state_simpl. intros Hs3 Hs4 Hs8.
  intros [= <- <- <-]. rewrite S1, S2, R3, <- R2.
  split_and!.
  - exists m. split_and!.
    + rewrite Hs4, od_set_twice. apply od_get_set_eq.
    + rewrite Hs8. apply elem_of_upsert_message.
    + exact Fc.
    + exact Fcid.
  - intros other Hne. rewrite Hs4, od_set_twice, Hm. by apply od_get_set_ne.
  - rewrite Hs3. by rewrite lookup_insert_eq.
  - intros d Hd. rewrite (He d Hd). cbn [ev_message ev_fields chat_message_event].
    split_and!; [done| |by rewrite py_get_insert].
    rewrite py_get_insert_ne by discriminate. unfold py_get. by simplify_map_eq.
Qed.

(** Alice's message is stored and the conversation is bumped. *)
Lemma send_chat_message_effects_witness :
  (conv_updated_at <$>
     conversations_db
       (snd (fst (send_chat_message healthy three_messages hello_again alice "m-4"
                    second_of_january new_year new_year))) !! "dm-ab")
  = Some (isoformat second_of_january) ∧
  ∃ message,
    od_get (conversation_messages_db
              (snd (fst (send_chat_message healthy three_messages hello_again alice
                           "m-4" second_of_january new_year new_year)))) "m-4"
    = Some message ∧
    message !! "content" = Some (PStr "hello again").
Proof.
  set (send := send_chat_message healthy three_messages hello_again alice "m-4"
                 second_of_january new_year new_year).
  assert (Hok : ∃ sent, fst (fst send) = Ok sent ∧ r_conversation_id sent = "dm-ab" ∧
                        r_content sent = "hello again").
  { vm_compute. eexists. split_and!; reflexivity. }
  destruct Hok as (sent & Hsend & Hcid & Hcontent). apply triple_eta in Hsend.
  pose proof (send_chat_message_effects _ _ _ _ _ _ _ _ _ _ _ Hsend)
    as ((message & H1 & _ & H3 & _) & _ & H5 & _).
  rewrite Hcid in H5. rewrite Hcontent in H3.
  split; [exact H5|]. exists message. split; [exact H1|exact H3].
Defined.


(** ** The message file *)








